(** * A shallow embedding of the RabbitMQ consumer engine

    The development follows the JavaScript sources:
    - [helpers]                (utils/helpers.js)
    - [RabbitMQService]        (services/RabbitMQService.js)
    - [DeduplicationService]   (services/DeduplicationService.js)
    - [WebhookService]         (services/WebhookService.js)
    - [MessageProcessor]       (services/MessageProcessor.js)
    - [ReconnectionService]    (services/ReconnectionService.js, both versions)
    - [PersistenceService], [ConsumerService], [QueueController].

    Mutable service objects become fields of one record [Sys] that is
    threaded through a state-and-exception monad; everything the program
    obtains from outside (clock, HTTP responses, broker replies, JSON and
    URL parsers of the runtime) is an oracle in the record [Env].  An
    [async] method runs to completion: what other handlers do while it
    waits is a separate transition, and a pause ([sleep]) has no effect
    on the state. *)

From Stdlib Require Import ZArith QArith Qminmax Qpower String Ascii List Bool Lia SpecFloat.
From stdpp Require Import gmap strings list pretty.
Import ListNotations.

Local Open Scope string_scope.
Local Open Scope Z_scope.

(** ** JavaScript strings *)

Module Js.

(** [s.startsWith(p)] *)
Definition startsWith (p s : string) : bool := String.prefix p s.

(** [s.includes(p)] *)
Fixpoint includes (p s : string) : bool :=
  String.prefix p s ||
  match s with
  | EmptyString => false
  | String _ s' => includes p s'
  end.

Definition lower_ascii (c : ascii) : ascii :=
  let n := N_of_ascii c in
  if ((65 <=? n) && (n <=? 90))%N then ascii_of_N (n + 32) else c.

(** [s.toLowerCase()] on ASCII text *)
Fixpoint toLowerCase (s : string) : string :=
  match s with
  | EmptyString => EmptyString
  | String c s' => String (lower_ascii c) (toLowerCase s')
  end.

(** The white space and line terminators that [trim] strips, on text
    in UTF-8.  In one byte: TAB, LF, VT, FF, CR and SP. *)
Definition is_space (c : ascii) : bool :=
  let n := N_of_ascii c in
  (((9 <=? n) && (n <=? 13)) || (n =? 32))%N.

(** In two bytes: U+00A0 (C2 A0). *)
Definition is_space2 (a b : ascii) : bool :=
  ((N_of_ascii a =? 194) && (N_of_ascii b =? 160))%N.

(** In three bytes: U+1680 (E1 9A 80), U+2000 to U+200A (E2 80 80 to
    E2 80 8A), U+2028, U+2029 and U+202F (E2 80 A8, A9, AF), U+205F
    (E2 81 9F), U+3000 (E3 80 80) and U+FEFF (EF BB BF). *)
Definition is_space3 (a b c : ascii) : bool :=
  let x := N_of_ascii a in
  let y := N_of_ascii b in
  let z := N_of_ascii c in
  ((x =? 225) && (y =? 154) && (z =? 128)
   || (x =? 226) && (y =? 128)
      && (((128 <=? z) && (z <=? 138)) || (z =? 168) || (z =? 169) || (z =? 175))
   || (x =? 226) && (y =? 129) && (z =? 159)
   || (x =? 227) && (y =? 128) && (z =? 128)
   || (x =? 239) && (y =? 187) && (z =? 191))%N.

(** [s.trim() !== '']: some character of [s] is not white space. *)
Fixpoint has_non_space (s : string) : bool :=
  match s with
  | EmptyString => false
  | String a s1 =>
      if is_space a then has_non_space s1
      else
        match s1 with
        | EmptyString => true
        | String b s2 =>
            if is_space2 a b then has_non_space s2
            else
              match s2 with
              | EmptyString => true
              | String c s3 => if is_space3 a b c then has_non_space s3 else true
              end
        end
  end.

(** [s.slice(0, n)] *)
Definition slice0 (n : nat) (s : string) : string := String.substring 0 n s.

(** [x || d] for a numeric argument that may be missing: [undefined]
    and [0] are falsy. *)
Definition or_default (x : option Z) (d : Z) : Z :=
  match x with
  | Some v => if v =? 0 then d else v
  | None => d
  end.

(** JavaScript numbers are IEEE 754 doubles.  An integer of at most 53
    significant bits is a number as it stands, so every integer up to
    [2^53] is; a sum that needs more bits is rounded to the nearest
    number, a tie to the one with the even significand.  (No sum of
    the program comes near [2^1024].) *)
Definition round (z : Z) : Z :=
  let a := Z.abs z in
  let shift := Z.log2 a - 52 in
  if shift <=? 0 then z
  else
    let q := Z.shiftr a shift in
    let r := a - Z.shiftl q shift in
    let half := Z.shiftl 1 (shift - 1) in
    let q' := if (half <? r) || ((r =? half) && Z.odd q) then q + 1 else q in
    Z.sgn z * Z.shiftl q' shift.

(** [a + b] on integer numbers *)
Definition add (a b : Z) : Z := round (a + b).

(** The property names of [Object.prototype]: what a plain object
    answers to [o[k]] when it has no property [k] of its own. *)
Definition objectPrototype : list string :=
  ["constructor"; "__defineGetter__"; "__defineSetter__"; "hasOwnProperty";
   "__lookupGetter__"; "__lookupSetter__"; "isPrototypeOf"; "propertyIsEnumerable";
   "toString"; "valueOf"; "__proto__"; "toLocaleString"].

Definition inherited (k : string) : bool := existsb (String.eqb k) objectPrototype.

(** The value of [o[k]] on a plain object whose own properties are
    [o]: the own property, else the member of [Object.prototype] (a
    function, or the prototype itself for [__proto__]; truthy in every
    case), else [undefined]. *)
Inductive Property (V : Type) :=
| Own (v : V)
| Inherited (k : string).
Arguments Own {V} v.
Arguments Inherited {V} k.

Definition getProperty {V} (o : gmap string V) (k : string) : option (Property V) :=
  match o !! k with
  | Some v => Some (Own v)
  | None => if inherited k then Some (Inherited k) else None
  end.

(** [o[k] = v] for an object [v]: the own property is written, or
    created; on [__proto__] without an own property of that name the
    assignment reaches the setter of [Object.prototype], which changes
    the prototype of [o] and creates no property. *)
Definition setProperty {V} (k : string) (v : V) (o : gmap string V) : gmap string V :=
  if String.eqb k "__proto__" && negb (bool_decide (is_Some (o !! k))) then o
  else <[k := v]> o.

(** [Buffer.from(s).toString('base64')] *)
Definition b64_alphabet : string :=
  "ABCDEFGHIJKLMNOPQRSTUVWXYZabcdefghijklmnopqrstuvwxyz0123456789+/".

Definition b64_digit (i : N) : ascii :=
  match String.get (N.to_nat i) b64_alphabet with
  | Some c => c
  | None => "="%char
  end.

Fixpoint base64_bytes (l : list N) : string :=
  match l with
  | [] => ""
  | [a] =>
      String (b64_digit (a / 4))
        (String (b64_digit ((a mod 4) * 16)) "==")
  | [a; b] =>
      String (b64_digit (a / 4))
        (String (b64_digit ((a mod 4) * 16 + b / 16))
           (String (b64_digit ((b mod 16) * 4)) "="))
  | a :: b :: c :: rest =>
      String (b64_digit (a / 4))
        (String (b64_digit ((a mod 4) * 16 + b / 16))
           (String (b64_digit ((b mod 16) * 4 + c / 64))
              (String (b64_digit (c mod 64)) (base64_bytes rest))))
  end%N.

Definition bytes_of (s : string) : list N :=
  map N_of_ascii (list_ascii_of_string s).

Definition base64 (s : string) : string := base64_bytes (bytes_of s).

End Js.

(** ** config/config.js *)

Module config.
Definition webhook_timeout : Z := 10000.
Definition webhook_retryAttempts : nat := 3.
Definition webhook_retryDelay : Z := 1000.
Definition defaultBusinessHours_start : Z := 8.
Definition defaultBusinessHours_end : Z := 21.
Definition defaultIntervals_min : Z := 30000.
Definition defaultIntervals_max : Z := 110000.
Definition reconnection_maxAttempts : Z := 10.
Definition reconnection_baseDelay : Z := 5000.
Definition reconnection_maxDelay : Z := 60000.
Definition reconnection_backoffMultiplier : Q := 3 # 2.
Definition reconnection_debounceMs : Z := 3000.
Definition deduplication_maxProcessedMessages : N := 10000.
Definition deduplication_messageIdTruncateLength : nat := 20.
End config.

(** ** Data *)

(** An AMQP delivery: [msg.fields.deliveryTag] and [msg.content].  The
    payload is taken as text (well-formed UTF-8), on which
    [Buffer.from(msg.content.toString())] gives the payload back.
    JavaScript numbers that hold counts, hours, milliseconds and status
    codes are integers here. *)
Record Message := mkMessage {
  deliveryTag : N;
  content : string
}.

Record BusinessHours := mkHours {
  bh_start : Z;
  bh_end : Z
}.

(** A JavaScript [Error] (or the object thrown by [sendWebhook]):
    [error.code], [error.message], [error.status]. *)
Record JsError := mkError {
  err_code : option Z;
  err_message : string;
  err_status : option Z
}.

(** What a [throw] carries: an error object, or [undefined]
    ([throw lastError] after a loop that never ran). *)
Inductive Thrown :=
| ThrownUndefined
| ThrownError (e : JsError).

Definition plainError (m : string) : JsError :=
  {| err_code := None; err_message := m; err_status := None |}.

Definition TypeError (m : string) : Thrown := ThrownError (plainError m).

(** A parsed JSON value, as far as the program looks at it (its
    truthiness); arrays and objects keep their source text. *)
Inductive Json :=
| JNull
| JBool (b : bool)
| JNumber (z : Z)
| JString (s : string)
| JCompound (src : string).

Definition truthy (j : Json) : bool :=
  match j with
  | JNull => false
  | JBool b => b
  | JNumber z => negb (z =? 0)
  | JString s => negb (String.eqb s "")
  | JCompound _ => true
  end.

(** ** utils/helpers.js *)

Module helpers.

(** [isWithinBusinessHours]; [hour] is the current hour in the
    configured time zone, a missing argument takes the default. *)
Definition isWithinBusinessHours (hour : Z) (businessHours : option BusinessHours) : bool :=
  let bh := match businessHours with
            | Some b => b
            | None => mkHours config.defaultBusinessHours_start config.defaultBusinessHours_end
            end in
  (bh_start bh <=? hour) && (hour <? bh_end bh).

(** [generateMessageId] on a delivery that is not null.  The [catch]
    branch of the source needs [msg.content.toString()] to throw, which
    does not happen on a delivery with a content buffer. *)
Definition generateMessageId (msg : Message) : string :=
  let contentHash :=
    Js.slice0 config.deduplication_messageIdTruncateLength (Js.base64 (content msg)) in
  pretty (deliveryTag msg) +:+ "_" +:+ contentHash.

(** [isValidUrl]: [new URL(string)] is the runtime's parser. *)
Definition isValidUrl (urlParses : string -> bool) (s : string) : bool :=
  if urlParses s
  then Js.startsWith "http://" s || Js.startsWith "https://" s
  else false.

(** [isValidQueueName] on a string argument *)
Definition isValidQueueName (queue : string) : bool := Js.has_non_space queue.

(** [calculateBackoffDelay]: the multiplier 1.5 is the fraction 3/2,
    whose powers are exact for the attempts that occur. *)
Definition calculateBackoffDelay (attempt : Z) : Q :=
  Qmin (Qmult (inject_Z config.reconnection_baseDelay)
              (Qpower config.reconnection_backoffMultiplier (attempt - 1)))
       (inject_Z config.reconnection_maxDelay).

(** [sanitizeIntervals]; the sum [min + 1000] is a sum of numbers. *)
Definition sanitizeIntervals (minInterval maxInterval : option Z) : Z * Z :=
  let min := Z.max 1000 (Js.or_default minInterval config.defaultIntervals_min) in
  let max := Z.max (Js.add min 1000)
                   (Js.or_default maxInterval config.defaultIntervals_max) in
  (min, max).

End helpers.

(** ** The state of the service objects *)

(** A connection or channel object of the AMQP client library. *)
Record AmqpHandle := mkHandle {
  closing : bool;
  closed : bool
}.

(** Calls made on [this.channel]. *)
Inductive BrokerOp :=
| OpAck (msg : Message)
| OpNack (msg : Message) (allUpTo requeue : bool)
| OpCheckQueue (queue : string)
| OpConsume (queue : string)
| OpCancel (consumerTag : string).

(** Events passed to [emit], by name. *)
Inductive Event :=
| needsReconnection (e : JsError)
| maxAttemptsReached
| consumerCancelled (queue : string)
| consumerStarted (queue : string)
| consumerStopped (queue reason : string)
| consumerPaused (queue : string)
| consumerResumed (queue : string)
| messageProcessed (queue : string)
| queueDeletedExternally (queue : string) (cleanupSuccessful : bool)
| consumersReestablished
| queuesRestored
| shutdownDone
| connected
| reconnectionStarted (attempt : Z)
| reconnectionSuccessful
| reconnectionFailed.

Record RabbitMQ := mkRabbitMQ {
  connection : option AmqpHandle;
  channel : option AmqpHandle;
  shuttingDown : bool;
  brokerLog : list BrokerOp;
  emitted : list Event
}.

Record ProcessingInfo := mkProcessingInfo {
  startTime : Z;
  pi_queue : string;
  pi_deliveryTag : N;
  pi_webhook : string
}.

(** [processedMessages] is a JavaScript [Set]: it iterates in insertion
    order, which [cleanupOldMessages] relies on. *)
Record Dedup := mkDedup {
  processedMessages : list string;
  processingMessages : gmap string ProcessingInfo;
  maxProcessedMessages : N
}.

Record ProcessorStats := mkProcessorStats {
  mp_processed : Z;
  mp_failed : Z;
  mp_skipped : Z;
  mp_duplicates : Z;
  mp_outsideBusinessHours : Z;
  mp_paused : Z
}.

Record Webhook := mkWebhook {
  retryAttempts : nat;
  wh_sent : Z;
  wh_failed : Z;
  wh_retries : Z;
  wh_avgResponseTime : Z;
  wh_totalResponseTime : Z;
  httpLog : list string
}.

Record ConsumerConfig := mkConsumerConfig {
  consumerTag : string;
  cc_webhook : string;
  cc_minInterval : Z;
  cc_maxInterval : Z;
  cc_businessHours : option BusinessHours;
  cc_paused : bool;
  lastMessage : option Json;
  messageCount : Z
}.

Record PersistedConfig := mkPersistedConfig {
  pc_webhook : string;
  pc_minInterval : option Z;
  pc_maxInterval : option Z;
  pc_businessHours : option BusinessHours;
  savedAt : Z
}.

Record Consumer := mkConsumer {
  activeConsumers : gmap string ConsumerConfig;
  queueIntervals : gmap string Z;
  isShuttingDown : bool;
  isInitialized : bool;
  cs_emitted : list Event
}.

(** The persistence file: [isReady] and the [queues] object of the
    document. *)
Record Persistence := mkPersistence {
  isReady : bool;
  queues : gmap string PersistedConfig
}.

(** The fields of a [ReconnectionService]; [reconnectTimeout] holds the
    delay of the pending timer. *)
Record Reconnection := mkReconnection {
  isReconnecting : bool;
  reconnectAttempts : Z;
  lastReconnectTime : Z;
  reconnectTimeout : option Q;
  rc_shuttingDown : bool;
  maxAttempts : Z;
  debounceMs : Z;
  rc_emitted : list Event
}.

Record Sys := mkSys {
  rabbit : RabbitMQ;
  dedup : Dedup;
  stats : ProcessorStats;
  webhook : Webhook;
  consumer : Consumer;
  persistence : Persistence;
  reconnection : Reconnection
}.

Definition set_rabbit (f : RabbitMQ -> RabbitMQ) (s : Sys) : Sys :=
  mkSys (f (rabbit s)) (dedup s) (stats s) (webhook s) (consumer s) (persistence s)
        (reconnection s).
Definition set_dedup (f : Dedup -> Dedup) (s : Sys) : Sys :=
  mkSys (rabbit s) (f (dedup s)) (stats s) (webhook s) (consumer s) (persistence s)
        (reconnection s).
Definition set_stats (f : ProcessorStats -> ProcessorStats) (s : Sys) : Sys :=
  mkSys (rabbit s) (dedup s) (f (stats s)) (webhook s) (consumer s) (persistence s)
        (reconnection s).
Definition set_webhook (f : Webhook -> Webhook) (s : Sys) : Sys :=
  mkSys (rabbit s) (dedup s) (stats s) (f (webhook s)) (consumer s) (persistence s)
        (reconnection s).
Definition set_consumer (f : Consumer -> Consumer) (s : Sys) : Sys :=
  mkSys (rabbit s) (dedup s) (stats s) (webhook s) (f (consumer s)) (persistence s)
        (reconnection s).
Definition set_persistence (f : Persistence -> Persistence) (s : Sys) : Sys :=
  mkSys (rabbit s) (dedup s) (stats s) (webhook s) (consumer s) (f (persistence s))
        (reconnection s).
Definition set_reconnection (f : Reconnection -> Reconnection) (s : Sys) : Sys :=
  mkSys (rabbit s) (dedup s) (stats s) (webhook s) (consumer s) (persistence s)
        (f (reconnection s)).

(** ** What the program obtains from outside *)

(** The outcome of one [axios.post] before [validateStatus] is applied:
    a response with a status, or no response (network error, timeout). *)
Inductive HttpOutcome :=
| Response (status : Z)
| NoResponse (message : string).

(** A write of the store that fails is one that the file system
    refuses when the file is opened (no permission, a read-only file
    system), so the document stays as it was.  A write that breaks off
    after the file was truncated leaves a document that no longer
    parses; that is not among the environments described here. *)
Record Env := mkEnv {
  now : Z;                                      (* Date.now() *)
  localHour : Z;                                (* hour in config.business.timezone *)
  responseTime : Z;                             (* elapsed time of an HTTP call *)
  jsonParse : string -> option Json;            (* JSON.parse, None: SyntaxError *)
  urlParses : string -> bool;                   (* new URL(s) does not throw *)
  http : nat -> HttpOutcome;                    (* the n-th HTTP POST issued *)
  ackThrows : Message -> option JsError;        (* channel.ack raises *)
  nackThrows : Message -> option JsError;       (* channel.nack raises *)
  checkQueueFails : string -> option JsError;   (* channel.checkQueue rejects *)
  consumeResult : string -> JsError + string;   (* channel.consume: error or consumerTag *)
  cancelFails : string -> option JsError;       (* channel.cancel rejects *)
  randomInterval : Z -> Z -> Z;                 (* helpers.getRandomInterval(min, max) *)
  listenerThrows : Event -> bool;               (* a listener of the event raises *)
  finishWebhookUrl : option string;             (* process.env.FINISH_WEBHOOK *)
  loadFails : bool;                             (* reading the store fails *)
  saveFails : string -> bool;                   (* the write on save is refused *)
  removeFails : string -> bool;                 (* the write on remove is refused *)
  clearFails : bool;                            (* the write of the empty store is refused *)
  connectFails : option JsError;                (* amqp.connect rejects *)
  backup : option (gmap string PersistedConfig) (* the queues of the backup file, if valid *)
}.

(** ** State and exceptions *)

Inductive Res (A : Type) :=
| Ok (a : A)
| Throw (t : Thrown).
Arguments Ok {A} a.
Arguments Throw {A} t.

Definition M (A : Type) : Type := Sys -> Res A * Sys.

Definition ret {A} (a : A) : M A := fun s => (Ok a, s).
Definition throw {A} (t : Thrown) : M A := fun s => (Throw t, s).
Definition bind {A B} (c : M A) (k : A -> M B) : M B :=
  fun s => match c s with
           | (Ok a, s') => k a s'
           | (Throw t, s') => (Throw t, s')
           end.
Definition modify (f : Sys -> Sys) : M unit := fun s => (Ok tt, f s).
Definition gets {A} (f : Sys -> A) : M A := fun s => (Ok (f s), s).

(** [try { c } catch (e) { h e }] *)
Definition try_catch {A} (c : M A) (h : Thrown -> M A) : M A :=
  fun s => match c s with
           | (Ok a, s') => (Ok a, s')
           | (Throw t, s') => h t s'
           end.

(** [try { c } finally { f }], for an [f] that does not complete
    abruptly on its own unless it throws. *)
Definition try_finally {A} (c : M A) (f : M unit) : M A :=
  fun s => match c s with
           | (r, s') =>
               match f s' with
               | (Ok _, s'') => (r, s'')
               | (Throw t, s'') => (Throw t, s'')
               end
           end.

Notation "x <- c ;; k" := (bind c (fun x => k))
  (at level 100, c at next level, right associativity).
Notation "c ;;; k" := (bind c (fun _ => k))
  (at level 100, right associativity).

(** [for (const x of xs) { body x }] *)
Fixpoint for_each {A} (xs : list A) (body : A -> M unit) : M unit :=
  match xs with
  | [] => ret tt
  | x :: rest => body x ;;; for_each rest body
  end.

(** ** services/RabbitMQService.js *)

Module RabbitMQService.

Definition isChannelReady (r : RabbitMQ) : bool :=
  match channel r with
  | None => false
  | Some ch =>
      negb (closing ch) && negb (closed ch) &&
      match connection r with
      | None => false
      | Some co => negb (closing co) && negb (closed co) && negb (shuttingDown r)
      end
  end.

Definition emit (ev : Event) : M unit :=
  modify (set_rabbit (fun r =>
    mkRabbitMQ (connection r) (channel r) (shuttingDown r) (brokerLog r) (emitted r ++ [ev]))).

(** A call on [this.channel]: the call is made, then it may raise. *)
Definition channelCall {A} (op : BrokerOp) (outcome : JsError + A) : M A :=
  modify (set_rabbit (fun r =>
    mkRabbitMQ (connection r) (channel r) (shuttingDown r) (brokerLog r ++ [op]) (emitted r))) ;;;
  match outcome with
  | inl e => throw (ThrownError e)
  | inr a => ret a
  end.

Definition failing (o : option JsError) : JsError + unit :=
  match o with
  | Some e => inl e
  | None => inr tt
  end.

Definition code_is (e : JsError) (c : Z) : bool :=
  match err_code e with
  | Some c' => c' =? c
  | None => false
  end.

Definition _shouldTriggerReconnection (error : JsError) : bool :=
  let connectionErrors :=
    ["Channel closed"; "Connection closed"; "Connection lost"; "Socket closed";
     "ECONNRESET"; "ENOTFOUND"; "ETIMEDOUT"] in
  let protocolErrors :=
    [code_is error 504; code_is error 505; code_is error 506] in
  let queueSpecificErrors :=
    [code_is error 404 && Js.includes "NOT_FOUND" (err_message error);
     Js.includes "does not exist" (err_message error);
     code_is error 403] in
  if existsb (fun c => c) queueSpecificErrors then false
  else if existsb (fun c => c) protocolErrors then true
  else existsb (fun p => Js.includes p (err_message error)) connectionErrors.

(** The [needsReconnection] events are emitted through [setImmediate];
    they are recorded in emission order. *)
Definition safeChannelOperation {A} (operation : M A) : M A :=
  ready <- gets (fun s => isChannelReady (rabbit s)) ;;
  if negb ready then
    let channelError := plainError "Channel not ready" in
    emit (needsReconnection channelError) ;;;
    throw (ThrownError channelError)
  else
    try_catch operation (fun t =>
      match t with
      | ThrownError error =>
          (if _shouldTriggerReconnection error
           then emit (needsReconnection error)
           else ret tt) ;;;
          throw t
      | ThrownUndefined => throw (TypeError "Cannot read properties of undefined")
      end).

Definition checkQueue (env : Env) (queueName : string) : M unit :=
  safeChannelOperation
    (channelCall (OpCheckQueue queueName) (failing (checkQueueFails env queueName))).

Definition createConsumer (env : Env) (queueName : string) : M string :=
  safeChannelOperation
    (channelCall (OpConsume queueName) (consumeResult env queueName)).

Definition cancelConsumer (env : Env) (tag : string) : M unit :=
  safeChannelOperation
    (channelCall (OpCancel tag) (failing (cancelFails env tag))).

(** [ackMessage]: both branches of the [catch] return normally. *)
Definition ackMessage (env : Env) (msg : option Message) : M unit :=
  match msg with
  | None => ret tt
  | Some m =>
      try_catch
        (ready <- gets (fun s => isChannelReady (rabbit s)) ;;
         if ready then channelCall (OpAck m) (failing (ackThrows env m)) else ret tt)
        (fun t =>
           match t with
           | ThrownError error =>
               if code_is error 406 && Js.includes "delivery tag" (err_message error)
               then ret tt
               else ret tt
           | ThrownUndefined => throw (TypeError "Cannot read properties of undefined")
           end)
  end.

Definition nackMessage (env : Env) (msg : option Message) (allUpTo requeue : bool) : M unit :=
  match msg with
  | None => ret tt
  | Some m =>
      try_catch
        (ready <- gets (fun s => isChannelReady (rabbit s)) ;;
         if ready
         then channelCall (OpNack m allUpTo requeue) (failing (nackThrows env m))
         else ret tt)
        (fun t =>
           match t with
           | ThrownError error =>
               if code_is error 406 && Js.includes "delivery tag" (err_message error)
               then ret tt
               else ret tt
           | ThrownUndefined => throw (TypeError "Cannot read properties of undefined")
           end)
  end.

(** [connect]: [isConnecting] is set on entry and reset in the
    [finally], so it is false whenever a caller can observe it. *)
Definition connect (env : Env) : M unit :=
  match connectFails env with
  | Some e => throw (ThrownError e)
  | None =>
      modify (set_rabbit (fun r =>
        mkRabbitMQ (Some (mkHandle false false)) (Some (mkHandle false false))
                   (shuttingDown r) (brokerLog r) (emitted r))) ;;;
      emit connected
  end.

Definition cleanup : M unit :=
  modify (set_rabbit (fun r =>
    mkRabbitMQ None None (shuttingDown r) (brokerLog r) (emitted r))).

End RabbitMQService.

(** ** services/DeduplicationService.js *)

(** An element of the array returned by [getStaleProcessingMessages]. *)
Record StaleMessage := mkStaleMessage {
  sm_messageId : string;
  sm_ageMs : Z;
  sm_metadata : ProcessingInfo
}.

Module DeduplicationService.

Definition is_empty (s : string) : bool := String.eqb s "".

Definition has (messageId : string) (l : list string) : bool :=
  existsb (String.eqb messageId) l.

(** [Set.prototype.add] *)
Definition set_add (messageId : string) (l : list string) : list string :=
  if has messageId l then l else l ++ [messageId].

Definition isMessageProcessed (messageId : string) (d : Dedup) : bool :=
  if is_empty messageId then false else has messageId (processedMessages d).

Definition markMessageProcessed (messageId : string) (d : Dedup) : Dedup :=
  if is_empty messageId then d
  else mkDedup (set_add messageId (processedMessages d))
               (processingMessages d) (maxProcessedMessages d).

Definition isMessageProcessing (messageId : string) (d : Dedup) : bool :=
  if is_empty messageId then false
  else bool_decide (is_Some (processingMessages d !! messageId)).

Definition markMessageProcessing (messageId : string) (info : ProcessingInfo) (d : Dedup) : Dedup :=
  if is_empty messageId then d
  else mkDedup (processedMessages d)
               (<[messageId := info]> (processingMessages d)) (maxProcessedMessages d).

Definition removeMessageFromProcessing (messageId : string) (d : Dedup) : Dedup :=
  if is_empty messageId then d
  else mkDedup (processedMessages d)
               (delete messageId (processingMessages d)) (maxProcessedMessages d).

(** [cleanupOldMessages]: drops the oldest entries above the bound. *)
Definition cleanupOldMessages (d : Dedup) : Dedup :=
  let currentSize := N.of_nat (length (processedMessages d)) in
  if (maxProcessedMessages d <? currentSize)%N then
    let toDelete := N.to_nat (currentSize - maxProcessedMessages d) in
    mkDedup (drop toDelete (processedMessages d))
            (processingMessages d) (maxProcessedMessages d)
  else d.

Definition clear (d : Dedup) : Dedup :=
  mkDedup [] ∅ (maxProcessedMessages d).

(** [getStaleProcessingMessages(maxAgeMs = 300000)]: the in-flight
    entries older than [maxAgeMs].  The entries are visited in the order
    of [map_to_list]; the callers use the array as a collection. *)
Definition getStaleProcessingMessages (env : Env) (maxAgeMs : option Z) (d : Dedup)
  : list StaleMessage :=
  let maxAge := match maxAgeMs with Some a => a | None => 300000 end in
  let entries := map_to_list (processingMessages d) in
  map (fun e => mkStaleMessage (fst e) (now env - startTime (snd e)) (snd e))
      (List.filter (fun e => maxAge <? now env - startTime (snd e)) entries).

(** [cleanupStaleProcessingMessages]: the number of stale entries found
    and the service after each was passed to
    [removeMessageFromProcessing]. *)
Definition cleanupStaleProcessingMessages (env : Env) (maxAgeMs : option Z) (d : Dedup)
  : nat * Dedup :=
  let staleMessages := getStaleProcessingMessages env maxAgeMs d in
  (length staleMessages,
   fold_left (fun d' sm => removeMessageFromProcessing (sm_messageId sm) d') staleMessages d).

End DeduplicationService.

(** ** services/WebhookService.js *)

Record WebhookResult := mkWebhookResult {
  wr_status : Z;
  wr_responseTime : Z
}.

(** The object returned by [testWebhook]: [success] and [status]. *)
Record TestResult := mkTestResult {
  tr_success : bool;
  tr_status : option Z
}.

Module WebhookService.

(** [validateStatus: (status) => status < 500] *)
Definition validateStatus (status : Z) : bool := status <? 500.

(** [Math.round(total / n)] for a positive [n] *)
Definition round_div (total n : Z) : Z := (2 * total + n) / (2 * n).

Definition _updateStats (success : bool) (rt : Z) : M unit :=
  modify (set_webhook (fun w =>
    let sent := if success then wh_sent w + 1 else wh_sent w in
    let failed := if success then wh_failed w else wh_failed w + 1 in
    let total := wh_totalResponseTime w + rt in
    mkWebhook (retryAttempts w) sent failed (wh_retries w)
              (round_div total (sent + failed)) total (httpLog w))).

Definition incrRetries : M unit :=
  modify (set_webhook (fun w =>
    mkWebhook (retryAttempts w) (wh_sent w) (wh_failed w) (wh_retries w + 1)
              (wh_avgResponseTime w) (wh_totalResponseTime w) (httpLog w))).

(** [axios.post]: the request is issued; the promise resolves when
    [validateStatus] accepts the status and rejects otherwise, with
    [error.response.status] set when there was a response. *)
Definition axios_post (env : Env) (url : string) : M Z :=
  n <- gets (fun s => length (httpLog (webhook s))) ;;
  modify (set_webhook (fun w =>
    mkWebhook (retryAttempts w) (wh_sent w) (wh_failed w) (wh_retries w)
              (wh_avgResponseTime w) (wh_totalResponseTime w) (httpLog w ++ [url]))) ;;;
  match http env n with
  | Response status =>
      if validateStatus status then ret status
      else throw (ThrownError
             (mkError None "Request failed with status code" (Some status)))
  | NoResponse m => throw (ThrownError (mkError None m None))
  end.

Definition sendWebhook (env : Env) (url : string) : M WebhookResult :=
  if negb (helpers.isValidUrl (urlParses env) url) then
    throw (ThrownError (plainError ("Invalid webhook URL: " +:+ url)))
  else
    try_catch
      (status <- axios_post env url ;;
       _updateStats true (responseTime env) ;;;
       ret (mkWebhookResult status (responseTime env)))
      (fun error =>
         _updateStats false (responseTime env) ;;;
         throw error).

(** [error.status && error.status >= 400 && error.status < 500] *)
Definition isClientError (status : option Z) : bool :=
  match status with
  | Some st => negb (st =? 0) && (400 <=? st) && (st <? 500)
  | None => false
  end.

(** The [for] loop of [sendWebhookWithRetry]; [remaining] counts the
    iterations left, so the attempt number is
    [maxAttempts - remaining + 1]. *)
Fixpoint retryLoop (env : Env) (url : string) (remaining : nat) (lastError : Thrown)
  : M WebhookResult :=
  match remaining with
  | O => throw lastError
  | S rest =>
      try_catch (sendWebhook env url)
        (fun error =>
           incrRetries ;;;
           match error with
           | ThrownUndefined => throw (TypeError "Cannot read properties of undefined")
           | ThrownError e =>
               if isClientError (err_status e)
               then throw error
               else retryLoop env url rest error
           end)
  end.

(** [options.retryAttempts || this.retryAttempts] *)
Definition maxAttemptsOf (optRetryAttempts : option nat) (w : Webhook) : nat :=
  match optRetryAttempts with
  | Some (S n) => S n
  | _ => retryAttempts w
  end.

Definition sendWebhookWithRetry (env : Env) (url : string) (optRetryAttempts : option nat)
  : M WebhookResult :=
  maxAttempts <- gets (fun s => maxAttemptsOf optRetryAttempts (webhook s)) ;;
  retryLoop env url maxAttempts ThrownUndefined.

(** [notifyQueueFinish]: a failure is logged and not propagated. *)
Definition notifyQueueFinish (env : Env) : M unit :=
  match finishWebhookUrl env with
  | None => ret tt
  | Some url =>
      try_catch (sendWebhookWithRetry env url None ;;; ret tt) (fun _ => ret tt)
  end.

(** [testWebhook]: one POST through [sendWebhook], its failure turned
    into a result. *)
Definition testWebhook (env : Env) (url : string) : M TestResult :=
  try_catch
    (result <- sendWebhook env url ;;
     ret (mkTestResult true (Some (wr_status result))))
    (fun error =>
       match error with
       | ThrownError e => ret (mkTestResult false (err_status e))
       | ThrownUndefined => throw (TypeError "Cannot read properties of undefined")
       end).

End WebhookService.

(** ** services/MessageProcessor.js *)

Inductive Action := ack | nack | skip.

Record Disposition := mkDisposition {
  action : Action;
  reason : string;
  d_error : option Thrown;
  messageContent : option Json;
  d_webhookResult : option WebhookResult
}.

Definition disposition (a : Action) (r : string) : Disposition :=
  mkDisposition a r None None None.

Record QueueConfig := mkQueueConfig {
  qc_queue : string;
  qc_webhook : string;
  qc_minInterval : option Z;
  qc_maxInterval : option Z;
  qc_businessHours : option BusinessHours;
  qc_paused : bool
}.

Inductive SendResult :=
| SendSuccess (r : WebhookResult)
| SendFailure (error : Thrown).

Module MessageProcessor.

Definition bump (f : ProcessorStats -> ProcessorStats) : M unit := modify (set_stats f).

Definition incr_processed (p : ProcessorStats) :=
  mkProcessorStats (mp_processed p + 1) (mp_failed p) (mp_skipped p) (mp_duplicates p)
                   (mp_outsideBusinessHours p) (mp_paused p).
Definition incr_failed (p : ProcessorStats) :=
  mkProcessorStats (mp_processed p) (mp_failed p + 1) (mp_skipped p) (mp_duplicates p)
                   (mp_outsideBusinessHours p) (mp_paused p).
Definition incr_skipped (p : ProcessorStats) :=
  mkProcessorStats (mp_processed p) (mp_failed p) (mp_skipped p + 1) (mp_duplicates p)
                   (mp_outsideBusinessHours p) (mp_paused p).
Definition incr_duplicates (p : ProcessorStats) :=
  mkProcessorStats (mp_processed p) (mp_failed p) (mp_skipped p) (mp_duplicates p + 1)
                   (mp_outsideBusinessHours p) (mp_paused p).
Definition incr_outsideBusinessHours (p : ProcessorStats) :=
  mkProcessorStats (mp_processed p) (mp_failed p) (mp_skipped p) (mp_duplicates p)
                   (mp_outsideBusinessHours p + 1) (mp_paused p).
Definition incr_paused (p : ProcessorStats) :=
  mkProcessorStats (mp_processed p) (mp_failed p) (mp_skipped p) (mp_duplicates p)
                   (mp_outsideBusinessHours p) (mp_paused p + 1).

Definition sendToWebhook (env : Env) (webhookUrl : string) : M SendResult :=
  try_catch
    (result <- WebhookService.sendWebhookWithRetry env webhookUrl None ;;
     ret (SendSuccess result))
    (fun error => ret (SendFailure error)).

(** [shouldRetryMessage]: reading [error.status] of [undefined] raises. *)
Definition shouldRetryMessage (error : Thrown) : M bool :=
  match error with
  | ThrownUndefined => throw (TypeError "Cannot read properties of undefined")
  | ThrownError e => ret (negb (WebhookService.isClientError (err_status e)))
  end.

Definition processBody (env : Env) (m : Message) (messageId : string) (qc : QueueConfig)
  : M Disposition :=
  dup <- gets (fun s => DeduplicationService.isMessageProcessed messageId (dedup s)) ;;
  if dup then
    bump incr_duplicates ;;;
    bump incr_skipped ;;;
    ret (disposition skip "duplicate")
  else if qc_paused qc then
    RabbitMQService.nackMessage env (Some m) false true ;;;
    bump incr_paused ;;;
    bump incr_skipped ;;;
    ret (disposition nack "paused")
  else if negb (helpers.isWithinBusinessHours (localHour env) (qc_businessHours qc)) then
    RabbitMQService.nackMessage env (Some m) false true ;;;
    bump incr_outsideBusinessHours ;;;
    bump incr_skipped ;;;
    ret (disposition nack "outside_business_hours")
  else
    modify (set_dedup (DeduplicationService.markMessageProcessing messageId
              (mkProcessingInfo (now env) (qc_queue qc) (deliveryTag m) (qc_webhook qc)))) ;;;
    match jsonParse env (content m) with
    | None =>
        RabbitMQService.ackMessage env (Some m) ;;;
        modify (set_dedup (DeduplicationService.markMessageProcessed messageId)) ;;;
        bump incr_failed ;;;
        ret (mkDisposition ack "parse_error"
               (Some (ThrownError (plainError "Unexpected token"))) None None)
    | Some parsed =>
        webhookResult <- sendToWebhook env (qc_webhook qc) ;;
        match webhookResult with
        | SendSuccess r =>
            RabbitMQService.ackMessage env (Some m) ;;;
            modify (set_dedup (DeduplicationService.markMessageProcessed messageId)) ;;;
            bump incr_processed ;;;
            ret (mkDisposition ack "success" None (Some parsed) (Some r))
        | SendFailure error =>
            shouldRetry <- shouldRetryMessage error ;;
            (if shouldRetry
             then RabbitMQService.nackMessage env (Some m) false true
             else
               RabbitMQService.ackMessage env (Some m) ;;;
               modify (set_dedup (DeduplicationService.markMessageProcessed messageId))) ;;;
            bump incr_failed ;;;
            ret (mkDisposition
                   (if shouldRetry then nack else ack)
                   (if shouldRetry then "webhook_retry" else "webhook_permanent_error")
                   (Some error) None None)
        end
    end.

Definition processMessage (env : Env) (msg : option Message) (qc : QueueConfig)
  : M Disposition :=
  match msg with
  | None => ret (disposition skip "null_message")
  | Some m =>
      let messageId := helpers.generateMessageId m in
      try_finally
        (try_catch (processBody env m messageId qc)
           (fun error =>
              RabbitMQService.nackMessage env (Some m) false true ;;;
              bump incr_failed ;;;
              match error with
              | ThrownUndefined => throw (TypeError "Cannot read properties of undefined")
              | ThrownError e =>
                  ret (mkDisposition nack "unexpected_error" (Some error) None None)
              end))
        (modify (set_dedup (DeduplicationService.removeMessageFromProcessing messageId)))
  end.

(** [validateQueueConfig]: the list of error messages. *)
Definition validateQueueConfig (env : Env) (queue webhookUrl : string)
    (minInterval maxInterval : option Z) (businessHours : option BusinessHours)
  : list string :=
  let e1 := if negb (helpers.isValidQueueName queue) then ["Invalid queue name"] else [] in
  let e2 := if negb (helpers.isValidUrl (urlParses env) webhookUrl)
            then ["Invalid webhook URL"] else [] in
  let '(min, max) := helpers.sanitizeIntervals minInterval maxInterval in
  let e3 := if max <=? min
            then ["Minimum interval must be less than maximum interval"] else [] in
  let e4 := match businessHours with
            | Some bh =>
                let start := bh_start bh in
                let end_ := bh_end bh in
                if (start <? 0) || (23 <? start) || (end_ <? 0) || (23 <? end_)
                   || (end_ <=? start)
                then ["Invalid business hours configuration"] else []
            | None => []
            end in
  e1 ++ e2 ++ e3 ++ e4.

Definition isValid (errors : list string) : bool :=
  match errors with
  | [] => true
  | _ => false
  end.

(** The [total] reported by [getStats]. *)
Definition getStats_total (p : ProcessorStats) : Z :=
  mp_processed p + mp_failed p + mp_skipped p.

End MessageProcessor.

(** ** services/ReconnectionService.js *)

Module ReconnectionCommon.

Definition emit (ev : Event) : M unit :=
  modify (set_reconnection (fun r =>
    mkReconnection (isReconnecting r) (reconnectAttempts r) (lastReconnectTime r)
      (reconnectTimeout r) (rc_shuttingDown r) (maxAttempts r) (debounceMs r)
      (rc_emitted r ++ [ev]))).

Definition setTimer (t : option Q) : M unit :=
  modify (set_reconnection (fun r =>
    mkReconnection (isReconnecting r) (reconnectAttempts r) (lastReconnectTime r)
      t (rc_shuttingDown r) (maxAttempts r) (debounceMs r) (rc_emitted r))).

Definition setReconnecting (b : bool) : M unit :=
  modify (set_reconnection (fun r =>
    mkReconnection b (reconnectAttempts r) (lastReconnectTime r)
      (reconnectTimeout r) (rc_shuttingDown r) (maxAttempts r) (debounceMs r)
      (rc_emitted r))).

(** [lastReconnectTime = Date.now(); isReconnecting = true; reconnectAttempts++] *)
Definition beginAttempt (env : Env) : M unit :=
  modify (set_reconnection (fun r =>
    mkReconnection true (reconnectAttempts r + 1) (now env)
      (reconnectTimeout r) (rc_shuttingDown r) (maxAttempts r) (debounceMs r)
      (rc_emitted r))).

Definition resetReconnectionState : M unit :=
  modify (set_reconnection (fun r =>
    mkReconnection false 0 (lastReconnectTime r)
      None (rc_shuttingDown r) (maxAttempts r) (debounceMs r) (rc_emitted r))).

(** The guards shared by both versions, after the version's own
    leading guards. *)
Definition debounceAndLimit (env : Env) : M bool :=
  r <- gets reconnection ;;
  let timeSinceLastReconnect := now env - lastReconnectTime r in
  if timeSinceLastReconnect <? debounceMs r then ret false
  else if maxAttempts r <=? reconnectAttempts r then
    emit maxAttemptsReached ;;; ret false
  else ret true.

Section Controller.
(** The two versions differ in [shouldAttemptReconnection] only. *)
Variable shouldAttemptReconnection : Env -> M bool.

Definition scheduleReconnection (env : Env) : M unit :=
  go <- shouldAttemptReconnection env ;;
  if negb go then ret tt
  else
    attempts <- gets (fun s => reconnectAttempts (reconnection s)) ;;
    setTimer (Some (helpers.calculateBackoffDelay (attempts + 1))).

Definition attemptReconnection (env : Env) : M unit :=
  go <- shouldAttemptReconnection env ;;
  if negb go then ret tt
  else
    beginAttempt env ;;;
    attempts <- gets (fun s => reconnectAttempts (reconnection s)) ;;
    emit (reconnectionStarted attempts) ;;;
    try_finally
      (try_catch
         (RabbitMQService.cleanup ;;;
          RabbitMQService.connect env ;;;
          resetReconnectionState ;;;
          emit reconnectionSuccessful)
         (fun error =>
            emit reconnectionFailed ;;;
            scheduleReconnection env))
      (setReconnecting false).

Definition forceReconnection (env : Env) : M unit :=
  setTimer None ;;;
  attemptReconnection env.

(** The handlers of [connectionError], [connectionClosed],
    [channelError], [channelClosed] and [needsReconnection]. *)
Definition handleBrokerEvent (env : Env) : M unit :=
  down <- gets (fun s => rc_shuttingDown (reconnection s)) ;;
  if negb down then scheduleReconnection env else ret tt.
End Controller.

End ReconnectionCommon.

(** The version whose [shouldAttemptReconnection] asks the broker client
    whether the channel is ready. *)
Module ReconnectionService.

Definition shouldAttemptReconnection (env : Env) : M bool :=
  r <- gets reconnection ;;
  if rc_shuttingDown r then ret false
  else if isReconnecting r then ret false
  else
    ready <- gets (fun s => RabbitMQService.isChannelReady (rabbit s)) ;;
    if ready then ret false
    else ReconnectionCommon.debounceAndLimit env.

Definition scheduleReconnection :=
  ReconnectionCommon.scheduleReconnection shouldAttemptReconnection.
Definition attemptReconnection :=
  ReconnectionCommon.attemptReconnection shouldAttemptReconnection.
Definition forceReconnection :=
  ReconnectionCommon.forceReconnection shouldAttemptReconnection.
Definition handleBrokerEvent :=
  ReconnectionCommon.handleBrokerEvent shouldAttemptReconnection.

End ReconnectionService.

(** The second version in the sources: the same class without the
    channel check. *)
Module ReconnectionService2.

Definition shouldAttemptReconnection (env : Env) : M bool :=
  r <- gets reconnection ;;
  if rc_shuttingDown r then ret false
  else if isReconnecting r then ret false
  else ReconnectionCommon.debounceAndLimit env.

Definition scheduleReconnection :=
  ReconnectionCommon.scheduleReconnection shouldAttemptReconnection.
Definition attemptReconnection :=
  ReconnectionCommon.attemptReconnection shouldAttemptReconnection.
Definition forceReconnection :=
  ReconnectionCommon.forceReconnection shouldAttemptReconnection.
Definition handleBrokerEvent :=
  ReconnectionCommon.handleBrokerEvent shouldAttemptReconnection.

End ReconnectionService2.

(** ** services/PersistenceService.js *)

Module PersistenceService.

Definition ioError : Thrown := ThrownError (plainError "EIO").
Definition notReady : Thrown := ThrownError (plainError "Persistence service not ready").

Definition setQueues (f : gmap string PersistedConfig -> gmap string PersistedConfig) : M unit :=
  modify (set_persistence (fun p => mkPersistence (isReady p) (f (queues p)))).

(** [saveQueueConfig]: [data.queues[queueName] = {...}] on the parsed
    document, which is then written back. *)
Definition saveQueueConfig (env : Env) (queueName : string) (cfg : PersistedConfig) : M unit :=
  ready <- gets (fun s => isReady (persistence s)) ;;
  if negb ready then throw notReady
  else if loadFails env || saveFails env queueName then throw ioError
  else setQueues (Js.setProperty queueName cfg).

(** [removeQueueConfig]: [if (data.queues[queueName])] looks the name
    up as a property, so a member of [Object.prototype] passes the
    test too; [delete] removes an own property only.  Returns [true]
    when the test passed and the document was written back. *)
Definition removeQueueConfig (env : Env) (queueName : string) : M bool :=
  ready <- gets (fun s => isReady (persistence s)) ;;
  if negb ready then throw notReady
  else if loadFails env then throw ioError
  else
    found <- gets (fun s => Js.getProperty (queues (persistence s)) queueName) ;;
    match found with
    | Some _ =>
        if removeFails env queueName then throw ioError
        else setQueues (delete queueName) ;;; ret true
    | None => ret false
    end.

Definition loadQueueConfigs (env : Env) : M (gmap string PersistedConfig) :=
  ready <- gets (fun s => isReady (persistence s)) ;;
  if negb ready then throw notReady
  else if loadFails env then throw ioError
  else gets (fun s => queues (persistence s)).

(** [loadQueueConfig]: [configs[queueName] || null]; the stored
    configurations are objects, hence truthy. *)
Definition loadQueueConfig (env : Env) (queueName : string)
  : M (option (Js.Property PersistedConfig)) :=
  configs <- loadQueueConfigs env ;;
  ret (Js.getProperty configs queueName).

Definition clearAll (env : Env) : M unit :=
  if clearFails env then throw ioError
  else setQueues (fun _ => ∅).

(** [restoreFromBackup]: the file must parse and carry a [queues]
    object; the store is then overwritten with the backup. *)
Definition restoreFromBackup (env : Env) : M (list string) :=
  match backup env with
  | None => throw (ThrownError (plainError "Invalid backup file structure"))
  | Some qs => setQueues (fun _ => qs) ;;; ret (map fst (map_to_list qs))
  end.

(** [hasQueueConfig]: [config !== null]; an error of the store answers
    [false]. *)
Definition hasQueueConfig (env : Env) (queueName : string) : M bool :=
  try_catch
    (cfg <- loadQueueConfig env queueName ;;
     ret (bool_decide (is_Some cfg)))
    (fun _ => ret false).

End PersistenceService.

(** ** services/ConsumerService.js *)

Module ConsumerService.

Definition error (m : string) : Thrown := ThrownError (plainError m).

(** [this.emit(ev)]: listeners run synchronously and may raise. *)
Definition emit (env : Env) (ev : Event) : M unit :=
  modify (set_consumer (fun c =>
    mkConsumer (activeConsumers c) (queueIntervals c) (isShuttingDown c) (isInitialized c)
               (cs_emitted c ++ [ev]))) ;;;
  if listenerThrows env ev then throw (error "listener failed") else ret tt.

Definition setActive (f : gmap string ConsumerConfig -> gmap string ConsumerConfig) : M unit :=
  modify (set_consumer (fun c =>
    mkConsumer (f (activeConsumers c)) (queueIntervals c) (isShuttingDown c)
               (isInitialized c) (cs_emitted c))).

Definition setIntervals (f : gmap string Z -> gmap string Z) : M unit :=
  modify (set_consumer (fun c =>
    mkConsumer (activeConsumers c) (f (queueIntervals c)) (isShuttingDown c)
               (isInitialized c) (cs_emitted c))).

Definition setShuttingDown : M unit :=
  modify (set_consumer (fun c =>
    mkConsumer (activeConsumers c) (queueIntervals c) true (isInitialized c) (cs_emitted c))).

(** [helpers.getRandomInterval] *)
Definition getRandomInterval (env : Env) (min max : Z) : Z :=
  randomInterval env min max.

(** [try { await persistenceService.removeQueueConfig(q) } catch { log }] *)
Definition removeFromPersistence (env : Env) (queueName : string) : M unit :=
  try_catch (PersistenceService.removeQueueConfig env queueName ;;; ret tt)
            (fun _ => ret tt).

Definition message_of (t : Thrown) : string :=
  match t with
  | ThrownError e => err_message e
  | ThrownUndefined => ""
  end.

(** The test for a queue that is gone, as written in the health
    monitor, the restore loop and the orphan cleanup. *)
Definition isNotFound (t : Thrown) : bool :=
  match t with
  | ThrownError e =>
      let errorMessage := Js.toLowerCase (err_message e) in
      Js.includes "not_found" errorMessage ||
      Js.includes "does not exist" errorMessage ||
      Js.includes "no queue" errorMessage ||
      RabbitMQService.code_is e 404
  | ThrownUndefined => false
  end.

Definition isConnectionProblem (t : Thrown) : bool :=
  let errorMessage := Js.toLowerCase (message_of t) in
  Js.includes "channel closed" errorMessage ||
  Js.includes "connection closed" errorMessage ||
  Js.includes "socket closed" errorMessage.

Definition startConsuming (env : Env) (queueName webhookUrl : string)
    (minInterval maxInterval : option Z) (businessHours : option BusinessHours)
  : M ConsumerConfig :=
  init <- gets (fun s => isInitialized (consumer s)) ;;
  if negb init then throw (error "Service not initialized. Call initialize() first.")
  else
    let errors := MessageProcessor.validateQueueConfig env queueName webhookUrl
                    minInterval maxInterval businessHours in
    if negb (MessageProcessor.isValid errors) then
      throw (error ("Invalid queue configuration: " +:+ String.concat ", " errors))
    else
      let '(min, max) := helpers.sanitizeIntervals minInterval maxInterval in
      has <- gets (fun s => bool_decide (is_Some (activeConsumers (consumer s) !! queueName))) ;;
      if has then throw (error ("Queue " +:+ queueName +:+ " is already being consumed"))
      else
        RabbitMQService.checkQueue env queueName ;;;
        tag <- RabbitMQService.createConsumer env queueName ;;
        let consumerConfig :=
          mkConsumerConfig tag webhookUrl min max businessHours false None 0 in
        setActive (insert queueName consumerConfig) ;;;
        setIntervals (insert queueName (getRandomInterval env min max)) ;;;
        try_catch
          (PersistenceService.saveQueueConfig env queueName
             (mkPersistedConfig webhookUrl (Some min) (Some max) businessHours (now env)))
          (fun _ => ret tt) ;;;
        emit env (consumerStarted queueName) ;;;
        ret consumerConfig.

Definition bumpCount (content : option Json) (c : ConsumerConfig) : ConsumerConfig :=
  mkConsumerConfig (consumerTag c) (cc_webhook c) (cc_minInterval c) (cc_maxInterval c)
    (cc_businessHours c) (cc_paused c)
    (match content with
     | Some j => if truthy j then Some j else lastMessage c
     | None => lastMessage c
     end)
    (messageCount c + 1).

(** What the handler does after [processMessage] returned [d], still
    inside its [try]. *)
Definition afterProcessing (env : Env) (queueName : string) (min max : Z) (d : Disposition)
  : M unit :=
  setActive (alter (bumpCount (messageContent d)) queueName) ;;;
  (match action d with
   | ack => if String.eqb (reason d) "success"
            then setIntervals (insert queueName (getRandomInterval env min max))
            else ret tt
   | _ => ret tt
   end) ;;;
  emit env (messageProcessed queueName).

(** The closure returned by [createMessageHandler], applied to a
    delivery ([None] is the broker's [null]).  The [catch] of the source
    sees [messageProcessingResult] null when [processMessage] threw and
    set when a later statement threw.  The [consumerConfig] object it
    updates is the entry of the table under [queueName]. *)
Definition createMessageHandler (env : Env) (queueName webhookUrl : string)
    (minInterval maxInterval : Z) (businessHours : option BusinessHours)
    (msg : option Message) : M unit :=
  match msg with
  | None =>
      setActive (delete queueName) ;;;
      setIntervals (delete queueName) ;;;
      removeFromPersistence env queueName ;;;
      emit env (consumerCancelled queueName)
  | Some m =>
      cfg <- gets (fun s => activeConsumers (consumer s) !! queueName) ;;
      match cfg with
      | None => RabbitMQService.nackMessage env (Some m) false true
      | Some consumerConfig =>
          result <- try_catch
                      (d <- MessageProcessor.processMessage env (Some m)
                              (mkQueueConfig queueName webhookUrl (Some minInterval)
                                 (Some maxInterval) businessHours (cc_paused consumerConfig)) ;;
                       ret (Some d))
                      (fun _ => ret None) ;;
          match result with
          | None => RabbitMQService.nackMessage env (Some m) false true
          | Some d =>
              try_catch (afterProcessing env queueName minInterval maxInterval d)
                (fun _ =>
                   match action d with
                   | skip => ret tt
                   | _ => RabbitMQService.nackMessage env (Some m) false true
                   end)
          end
      end
  end.

Definition stopConsuming (env : Env) (queueName reason : string) : M Z :=
  cfg <- gets (fun s => activeConsumers (consumer s) !! queueName) ;;
  match cfg with
  | None => throw (error ("Queue " +:+ queueName +:+ " is not being consumed"))
  | Some consumerConfig =>
      ready <- gets (fun s => RabbitMQService.isChannelReady (rabbit s)) ;;
      (if negb (String.eqb (consumerTag consumerConfig) "") && ready
       then RabbitMQService.cancelConsumer env (consumerTag consumerConfig)
       else ret tt) ;;;
      setActive (delete queueName) ;;;
      setIntervals (delete queueName) ;;;
      (if String.eqb reason "manual"
       then removeFromPersistence env queueName
       else ret tt) ;;;
      emit env (consumerStopped queueName reason) ;;;
      ret (messageCount consumerConfig)
  end.

Definition setPaused (b : bool) (c : ConsumerConfig) : ConsumerConfig :=
  mkConsumerConfig (consumerTag c) (cc_webhook c) (cc_minInterval c) (cc_maxInterval c)
    (cc_businessHours c) b (lastMessage c) (messageCount c).

Definition pauseConsuming (env : Env) (queueName : string) : M unit :=
  cfg <- gets (fun s => activeConsumers (consumer s) !! queueName) ;;
  match cfg with
  | None => throw (error ("Queue " +:+ queueName +:+ " is not being consumed"))
  | Some consumerConfig =>
      if cc_paused consumerConfig
      then throw (error ("Queue " +:+ queueName +:+ " is already paused"))
      else setActive (alter (setPaused true) queueName) ;;;
           emit env (consumerPaused queueName)
  end.

Definition resumeConsuming (env : Env) (queueName : string) : M unit :=
  cfg <- gets (fun s => activeConsumers (consumer s) !! queueName) ;;
  match cfg with
  | None => throw (error ("Queue " +:+ queueName +:+ " is not being consumed"))
  | Some consumerConfig =>
      if negb (cc_paused consumerConfig)
      then throw (error ("Queue " +:+ queueName +:+ " is not paused"))
      else setActive (alter (setPaused false) queueName) ;;;
           emit env (consumerResumed queueName)
  end.

Definition handleExternallyDeletedQueue (env : Env) (queueName : string) : M unit :=
  try_catch
    (cfg <- gets (fun s => activeConsumers (consumer s) !! queueName) ;;
     (match cfg with
      | Some _ => setActive (delete queueName) ;;; setIntervals (delete queueName)
      | None => ret tt
      end) ;;;
     removeFromPersistence env queueName ;;;
     (match cfg with
      | Some _ => try_catch (WebhookService.notifyQueueFinish env) (fun _ => ret tt)
      | None => ret tt
      end) ;;;
     emit env (queueDeletedExternally queueName true))
    (fun _ => emit env (queueDeletedExternally queueName false)).

(** One tick of the timer installed by [startQueueHealthMonitoring].
    The loop stops at the first connection problem ([break]). *)
Fixpoint healthLoop (env : Env) (activeQueues : list string) : M unit :=
  match activeQueues with
  | [] => ret tt
  | queueName :: rest =>
      stop <- try_catch
                (RabbitMQService.checkQueue env queueName ;;; ret false)
                (fun t =>
                   if isNotFound t then
                     handleExternallyDeletedQueue env queueName ;;; ret false
                   else if isConnectionProblem t then
                     match t with
                     | ThrownError e => RabbitMQService.emit (needsReconnection e)
                     | ThrownUndefined => ret tt
                     end ;;; ret true
                   else ret false) ;;
      if stop then ret tt else healthLoop env rest
  end.

Definition healthCheck (env : Env) : M unit :=
  c <- gets consumer ;;
  if isShuttingDown c || negb (isInitialized c) then ret tt
  else
    let activeQueues := map fst (map_to_list (activeConsumers c)) in
    match activeQueues with
    | [] => ret tt
    | _ =>
        ready <- gets (fun s => RabbitMQService.isChannelReady (rabbit s)) ;;
        if negb ready then
          RabbitMQService.emit
            (needsReconnection (plainError "Channel not ready during health check"))
        else healthLoop env activeQueues
    end.

Definition restoreState (old : ConsumerConfig) (c : ConsumerConfig) : ConsumerConfig :=
  mkConsumerConfig (consumerTag c) (cc_webhook c) (cc_minInterval c) (cc_maxInterval c)
    (cc_businessHours c) (cc_paused old) (lastMessage old) (messageCount old).

(** The [try] block of the re-establish loop for one former consumer. *)
Definition reestablishBody (env : Env) (queueName : string) (cfg : ConsumerConfig) : M unit :=
  RabbitMQService.checkQueue env queueName ;;;
  startConsuming env queueName (cc_webhook cfg) (Some (cc_minInterval cfg))
    (Some (cc_maxInterval cfg)) (cc_businessHours cfg) ;;;
  setActive (alter (restoreState cfg) queueName).

Definition reestablish (env : Env) (entry : string * ConsumerConfig) : M unit :=
  try_catch
    (reestablishBody env (fst entry) (snd entry))
    (fun t =>
       if Js.includes "does not exist" (message_of t)
       then removeFromPersistence env (fst entry)
       else ret tt).

Definition handleReconnectionSuccess (env : Env) : M unit :=
  consumersToReestablish <- gets (fun s => map_to_list (activeConsumers (consumer s))) ;;
  setActive (fun _ => ∅) ;;;
  setIntervals (fun _ => ∅) ;;;
  for_each consumersToReestablish (reestablish env) ;;;
  emit env consumersReestablished.

(** [handleConsumerCancelled]: the first entry with the tag, then [break]. *)
Definition handleConsumerCancelled (env : Env) (tag : string) : M unit :=
  entries <- gets (fun s => map_to_list (activeConsumers (consumer s))) ;;
  match List.find (fun e => String.eqb (consumerTag (snd e)) tag) entries with
  | None => ret tt
  | Some (queueName, _) =>
      try_catch (WebhookService.notifyQueueFinish env) (fun _ => ret tt) ;;;
      setActive (delete queueName) ;;;
      setIntervals (delete queueName) ;;;
      removeFromPersistence env queueName ;;;
      emit env (consumerCancelled queueName)
  end.

(** The body of the restore loop for one saved queue; it returns the
    name when the queue is to be removed from the store afterwards. *)
Definition restoreOne (env : Env) (entry : string * PersistedConfig) : M (list string) :=
  let queueName := fst entry in
  let cfg := snd entry in
  has <- gets (fun s => bool_decide (is_Some (activeConsumers (consumer s) !! queueName))) ;;
  if has then ret []
  else
    try_catch
      (startConsuming env queueName (pc_webhook cfg) (pc_minInterval cfg)
         (pc_maxInterval cfg) (pc_businessHours cfg) ;;; ret [])
      (fun startError => ret (if isNotFound startError then [queueName] else [])).

Fixpoint restoreLoop (env : Env) (entries : list (string * PersistedConfig))
  : M (list string) :=
  match entries with
  | [] => ret []
  | entry :: rest =>
      r <- restoreOne env entry ;;
      rs <- restoreLoop env rest ;;
      ret (List.app r rs)
  end.

Definition restorePersistedQueues (env : Env) : M unit :=
  try_catch
    (savedConfigs <- PersistenceService.loadQueueConfigs env ;;
     match map_to_list savedConfigs with
     | [] => ret tt
     | entries =>
         toRemove <- restoreLoop env entries ;;
         for_each toRemove (removeFromPersistence env) ;;;
         emit env queuesRestored
     end)
    (fun _ => ret tt).

Definition stopForShutdown (env : Env) (queueName : string) : M unit :=
  try_catch
    (cfg <- gets (fun s => activeConsumers (consumer s) !! queueName) ;;
     stopConsuming env queueName "shutdown" ;;;
     match cfg with
     | Some c =>
         match lastMessage c with
         | Some _ => WebhookService.notifyQueueFinish env
         | None => ret tt
         end
     | None => ret tt
     end)
    (fun _ => ret tt).

(** [shutdown]: the reconnection controller is stopped, every queue is
    stopped with reason [shutdown], the deduplication caches are cleared
    and the broker client disconnects. *)
Definition shutdown (env : Env) : M unit :=
  down <- gets (fun s => isShuttingDown (consumer s)) ;;
  if down then ret tt
  else
    setShuttingDown ;;;
    modify (set_reconnection (fun r =>
      mkReconnection false (reconnectAttempts r) (lastReconnectTime r) None true
        (maxAttempts r) (debounceMs r) (rc_emitted r))) ;;;
    activeQueues <- gets (fun s => map fst (map_to_list (activeConsumers (consumer s)))) ;;
    for_each activeQueues (stopForShutdown env) ;;;
    modify (set_dedup DeduplicationService.clear) ;;;
    modify (set_rabbit (fun r => mkRabbitMQ None None true (brokerLog r) (emitted r))) ;;;
    emit env shutdownDone.

End ConsumerService.

(** ** controllers/QueueController.js: the requests that reach the
    consumer table or the persistence store.  Each handler answers with an
    HTTP status and never raises. *)

Module QueueController.

Definition respond (c : M Z) (onError : Thrown -> Z) : M Z :=
  try_catch c (fun t => ret (onError t)).

(** [POST /consume]: missing intervals and business hours take the
    defaults of the configuration. *)
Definition startConsuming (env : Env) (queue webhook : string)
    (minInterval maxInterval : option Z) (businessHours : option BusinessHours) : M Z :=
  let minInterval := match minInterval with
                     | Some v => v
                     | None => config.defaultIntervals_min
                     end in
  let maxInterval := match maxInterval with
                     | Some v => v
                     | None => config.defaultIntervals_max
                     end in
  let businessHours := match businessHours with
                       | Some b => b
                       | None => mkHours config.defaultBusinessHours_start
                                         config.defaultBusinessHours_end
                       end in
  if negb (helpers.isValidQueueName queue) then ret 400
  else if negb (helpers.isValidUrl (urlParses env) webhook) then ret 400
  else
    init <- gets (fun s => isInitialized (consumer s)) ;;
    if negb init then ret 503
    else
      has <- gets (fun s => bool_decide (is_Some (activeConsumers (consumer s) !! queue))) ;;
      if has then ret 400
      else
        respond
          (ConsumerService.startConsuming env queue webhook (Some minInterval)
             (Some maxInterval) (Some businessHours) ;;; ret 201)
          (fun t =>
             let message := ConsumerService.message_of t in
             if Js.includes "Queue" message && Js.includes "does not exist" message
             then 404
             else if Js.includes "Invalid" message then 400 else 500).

(** [POST /test-webhook] *)
Definition testWebhook (env : Env) (url : string) : M Z :=
  if negb (helpers.isValidUrl (urlParses env) url) then ret 400
  else
    respond
      (result <- WebhookService.testWebhook env url ;;
       ret (if tr_success result then 200 else 400))
      (fun _ => 500).

(** [POST /stop] *)
Definition stopConsuming (env : Env) (queue : string) : M Z :=
  if negb (helpers.isValidQueueName queue) then ret 400
  else
    respond (ConsumerService.stopConsuming env queue "api_request" ;;; ret 200)
            (fun t => if Js.includes "not being consumed" (ConsumerService.message_of t)
                      then 404 else 500).

(** [POST /pause], [POST /resume] *)
Definition pauseConsuming (env : Env) (queue : string) : M Z :=
  if negb (helpers.isValidQueueName queue) then ret 400
  else
    respond (ConsumerService.pauseConsuming env queue ;;; ret 200)
            (fun t => if Js.includes "not being consumed" (ConsumerService.message_of t)
                      then 404
                      else if Js.includes "already paused" (ConsumerService.message_of t)
                           then 400 else 500).

Definition resumeConsuming (env : Env) (queue : string) : M Z :=
  if negb (helpers.isValidQueueName queue) then ret 400
  else
    respond (ConsumerService.resumeConsuming env queue ;;; ret 200)
            (fun t => if Js.includes "not being consumed" (ConsumerService.message_of t)
                      then 404
                      else if Js.includes "not paused" (ConsumerService.message_of t)
                           then 400 else 500).

(** [POST /restore-backup] *)
Definition restoreFromBackup (env : Env) : M Z :=
  respond (PersistenceService.restoreFromBackup env ;;; ret 200) (fun _ => 500).

(** [DELETE /clear-configs] *)
Definition clearPersistedConfigs (env : Env) : M Z :=
  respond (PersistenceService.clearAll env ;;; ret 200) (fun _ => 500).

(** The body of the loop of [POST /cleanup-orphans] for one stored name. *)
Definition cleanupOne (env : Env) (queueName : string) : M unit :=
  queueExists <- try_catch (RabbitMQService.checkQueue env queueName ;;; ret true)
                   (fun t => ret (negb (ConsumerService.isNotFound t))) ;;
  if negb queueExists
  then ConsumerService.removeFromPersistence env queueName
  else ret tt.

Definition cleanupOrphanedConfigs (env : Env) : M Z :=
  respond
    (persistedConfigs <- PersistenceService.loadQueueConfigs env ;;
     for_each (map fst (map_to_list persistedConfigs)) (cleanupOne env) ;;;
     ret 200)
    (fun _ => 500).

(** [DELETE /persisted-queue/:queue] *)
Definition removePersistedQueue (env : Env) (queueName : string) : M Z :=
  if String.eqb queueName "" then ret 400
  else
    respond
      (existing <- PersistenceService.loadQueueConfig env queueName ;;
       match existing with
       | None => ret 404
       | Some _ =>
           wasRemoved <- PersistenceService.removeQueueConfig env queueName ;;
           ret (if wasRemoved : bool then 200 else 404)
       end)
      (fun _ => 500).

End QueueController.

(** ** The transitions that can reach the persistence store *)

(** One entry per operation of the engine and of the control plane that
    runs while configurations are stored. *)
Inductive Transition :=
| StartConsuming (queue webhookUrl : string) (minInterval maxInterval : option Z)
                 (businessHours : option BusinessHours)
| Delivery (queue webhookUrl : string) (minInterval maxInterval : Z)
           (businessHours : option BusinessHours) (msg : option Message)
| ConsumerCancelledEvent (tag : string)
| StopConsuming (queue reason : string)
| Pause (queue : string)
| Resume (queue : string)
| HealthCheck
| ExternallyDeleted (queue : string)
| Reconnected
| RestorePersisted
| Shutdown
| ClearConfigs
| CleanupOrphans
| DeletePersisted (queue : string)
| RestoreBackup.

Definition ignore {A} (c : M A) : M unit := c ;;; ret tt.

Definition transition (env : Env) (t : Transition) : M unit :=
  match t with
  | StartConsuming q w mi ma bh => ignore (ConsumerService.startConsuming env q w mi ma bh)
  | Delivery q w mi ma bh msg => ConsumerService.createMessageHandler env q w mi ma bh msg
  | ConsumerCancelledEvent tag => ConsumerService.handleConsumerCancelled env tag
  | StopConsuming q reason => ignore (ConsumerService.stopConsuming env q reason)
  | Pause q => ignore (QueueController.pauseConsuming env q)
  | Resume q => ignore (QueueController.resumeConsuming env q)
  | HealthCheck => ConsumerService.healthCheck env
  | ExternallyDeleted q => ConsumerService.handleExternallyDeletedQueue env q
  | Reconnected => ConsumerService.handleReconnectionSuccess env
  | RestorePersisted => ConsumerService.restorePersistedQueues env
  | Shutdown => ConsumerService.shutdown env
  | ClearConfigs => ignore (QueueController.clearPersistedConfigs env)
  | CleanupOrphans => ignore (QueueController.cleanupOrphanedConfigs env)
  | DeletePersisted q => ignore (QueueController.removePersistedQueue env q)
  | RestoreBackup => ignore (QueueController.restoreFromBackup env)
  end.

(** The state after a transition. *)
Definition after (env : Env) (t : Transition) (s : Sys) : Sys := snd (transition env t s).

(** The store holds a configuration for [q]. *)
Definition stored (q : string) (s : Sys) : Prop :=
  is_Some (queues (persistence s) !! q).

(** A probe of [q] at the broker failed with an error classified as
    "the queue is gone". *)
Definition probeNotFound (env : Env) (q : string) : Prop :=
  exists t s0 s1,
    RabbitMQService.checkQueue env q s0 = (Throw t, s1) /\
    ConsumerService.isNotFound t = true.

(** Restoring [q] from the store failed with such an error. *)
Definition restoreNotFound (env : Env) (q : string) : Prop :=
  exists cfg t s0 s1,
    ConsumerService.startConsuming env q (pc_webhook cfg) (pc_minInterval cfg)
      (pc_maxInterval cfg) (pc_businessHours cfg) s0 = (Throw t, s1) /\
    ConsumerService.isNotFound t = true.

(** Re-establishing [q] after a reconnect failed with an error that
    says the queue does not exist. *)
Definition reestablishNotFound (env : Env) (q : string) : Prop :=
  exists cfg t s0 s1,
    ConsumerService.reestablishBody env q cfg s0 = (Throw t, s1) /\
    Js.includes "does not exist" (ConsumerService.message_of t) = true.

(** Why a transition may remove the stored configuration of [q]. *)
Definition removalCause (env : Env) (s : Sys) (t : Transition) (q : string) : Prop :=
  match t with
  | StopConsuming q' reason => q' = q /\ reason = "manual"
  | ExternallyDeleted q' => q' = q
  | HealthCheck => probeNotFound env q
  | RestorePersisted => restoreNotFound env q
  | Reconnected => reestablishNotFound env q
  | Delivery q' _ _ _ _ None => q' = q
  | ConsumerCancelledEvent tag =>
      exists c, activeConsumers (consumer s) !! q = Some c /\ consumerTag c = tag
  | ClearConfigs => True
  | CleanupOrphans => probeNotFound env q
  | DeletePersisted q' => q' = q
  | RestoreBackup => exists qs, backup env = Some qs /\ qs !! q = None
  | _ => False
  end.

(** The causes the specification lists: a manual stop, a detected
    external deletion, clear-configs, a cleanup-orphans match and the
    DELETE of the stored entry. *)
Definition listedCause (env : Env) (s : Sys) (t : Transition) (q : string) : Prop :=
  match t with
  | StopConsuming q' reason => q' = q /\ reason = "manual"
  | ExternallyDeleted q' => q' = q
  | HealthCheck => probeNotFound env q
  | RestorePersisted => restoreNotFound env q
  | Reconnected => reestablishNotFound env q
  | ClearConfigs => True
  | CleanupOrphans => probeNotFound env q
  | DeletePersisted q' => q' = q
  | _ => False
  end.

(** [c] keeps the stored configuration of [q] unless [C] holds. *)
Definition keeps_unless {A} (q : string) (C : Prop) (c : M A) : Prop :=
  forall s, stored q s -> stored q (snd (c s)) \/ C.

(** ** Effects in closed form *)

Definition logOp (op : BrokerOp) (s : Sys) : Sys :=
  set_rabbit (fun r =>
    mkRabbitMQ (connection r) (channel r) (shuttingDown r) (brokerLog r ++ [op]) (emitted r)) s.

Definition emitRabbit (ev : Event) (s : Sys) : Sys :=
  set_rabbit (fun r =>
    mkRabbitMQ (connection r) (channel r) (shuttingDown r) (brokerLog r) (emitted r ++ [ev])) s.

(** What the operations routed through [safeChannelOperation] do with an
    error [e] of the channel: the classifier decides whether
    [needsReconnection] is emitted, and the error is thrown on. *)
Definition classified (op : BrokerOp) (e : JsError) (s : Sys) : Sys :=
  if RabbitMQService._shouldTriggerReconnection e
  then emitRabbit (needsReconnection e) (logOp op s)
  else logOp op s.

(** The broker error class "unknown delivery tag". *)
Definition isDeliveryTagError (e : JsError) : Prop :=
  err_code e = Some 406 /\ Js.includes "delivery tag" (err_message e) = true.

(** The call on the channel that goes with an action. *)
Definition brokerCallOf (m : Message) (a : Action) : list BrokerOp :=
  match a with
  | ack => [OpAck m]
  | nack => [OpNack m false true]
  | skip => []
  end.

Definition withCalls (ops : list BrokerOp) (r : RabbitMQ) : RabbitMQ :=
  mkRabbitMQ (connection r) (channel r) (shuttingDown r) (List.app (brokerLog r) ops)
             (emitted r).

(** The webhook statistics after one POST to [url] that took [rt]. *)
Definition posted (url : string) (success : bool) (rt : Z) (w : Webhook) : Webhook :=
  let sent := if success then wh_sent w + 1 else wh_sent w in
  let failed := if success then wh_failed w else wh_failed w + 1 in
  let total := wh_totalResponseTime w + rt in
  mkWebhook (retryAttempts w) sent failed (wh_retries w)
    (WebhookService.round_div total (sent + failed)) total (httpLog w ++ [url]).

(** One failed iteration of the retry loop: the POST, then [retries++]. *)
Definition failedAttempt (url : string) (rt : Z) (w : Webhook) : Webhook :=
  let w' := posted url false rt w in
  mkWebhook (retryAttempts w') (wh_sent w') (wh_failed w') (wh_retries w' + 1)
            (wh_avgResponseTime w') (wh_totalResponseTime w') (httpLog w').

(** The outcomes the sender retries: a 5xx response or no response. *)
Definition retryable (o : HttpOutcome) : Prop :=
  match o with
  | Response status => 500 <= status
  | NoResponse _ => True
  end.

(** [f] is in the processed set. *)
Definition stillProcessed (f : string) (s : Sys) : Prop :=
  DeduplicationService.has f (processedMessages (dedup s)) = true.

(** What may happen between [markMessageProcessed] and a later
    delivery: further calls of [processMessage], each with its own
    environment, delivery and queue configuration, and ticks of the
    cleanup timer of the deduplication service. *)
Inductive Later :=
| LaterCall (env : Env) (msg : option Message) (qc : QueueConfig)
| CleanupTick.

Definition later (l : Later) (s : Sys) : Sys :=
  match l with
  | LaterCall env msg qc => snd (MessageProcessor.processMessage env msg qc s)
  | CleanupTick => set_dedup DeduplicationService.cleanupOldMessages s
  end.

Fixpoint laterRun (run : list Later) (s : Sys) : Sys :=
  match run with
  | [] => s
  | l :: rest => laterRun rest (later l s)
  end.

(** The number of calls of [processMessage] in a run. *)
Fixpoint callsIn (run : list Later) : nat :=
  match run with
  | [] => O
  | LaterCall _ _ _ :: rest => S (callsIn rest)
  | CleanupTick :: rest => callsIn rest
  end.

(** [f] is in the processed set with at most [k] fingerprints added
    after it. *)
Definition remembered (f : string) (k : nat) (s : Sys) : Prop :=
  exists older newer,
    processedMessages (dedup s) = List.app older (f :: newer) /\ (length newer <= k)%nat.

(** The state after the duplicate branch of [processMessage]:
    [duplicates++], [skipped++] and the [finally]. *)
Definition skippedAsDuplicate (messageId : string) (s : Sys) : Sys :=
  set_dedup (DeduplicationService.removeMessageFromProcessing messageId)
    (set_stats MessageProcessor.incr_skipped
       (set_stats MessageProcessor.incr_duplicates s)).

(** ** Notions used to state the further properties *)

(** The text before the first underscore of a string. *)
Fixpoint beforeUnderscore (s : string) : string :=
  match s with
  | EmptyString => EmptyString
  | String c s' => if Ascii.eqb c "_" then EmptyString else String c (beforeUnderscore s')
  end.

(** [n] POSTs to [url], each taking [rt], lead from the sender [w] to
    [w']: the requests are recorded, each is counted once as sent or
    failed, and its time is added to the total. *)
Definition postedTimes (url : string) (rt : Z) (n : nat) (w w' : Webhook) : Prop :=
  httpLog w' = List.app (httpLog w) (repeat url n) /\
  wh_sent w' + wh_failed w' = wh_sent w + wh_failed w + Z.of_nat n /\
  wh_sent w <= wh_sent w' /\
  wh_totalResponseTime w' = wh_totalResponseTime w + Z.of_nat n * rt /\
  retryAttempts w' = retryAttempts w.


(** The two versions of the reconnection controller, by their
    [shouldAttemptReconnection]. *)
Definition controllerVersions : list (Env -> M bool) :=
  [ReconnectionService.shouldAttemptReconnection;
   ReconnectionService2.shouldAttemptReconnection].

(** The operations of a controller that can schedule or start an
    attempt. *)
Definition controllerOperations (should : Env -> M bool) : list (Env -> M unit) :=
  [ReconnectionCommon.scheduleReconnection should;
   ReconnectionCommon.attemptReconnection should;
   ReconnectionCommon.forceReconnection should;
   ReconnectionCommon.handleBrokerEvent should].

(** The controller used up its attempts, or it was stopped. *)
Definition exhausted (s : Sys) : Prop :=
  maxAttempts (reconnection s) <= reconnectAttempts (reconnection s) \/
  rc_shuttingDown (reconnection s) = true.

(** [s'] differs from [s] at most by a cleared timer and by
    [maxAttemptsReached] events of the controller. *)
Definition idleStep (s s' : Sys) : Prop :=
  rabbit s' = rabbit s /\
  consumer s' = consumer s /\
  reconnectAttempts (reconnection s') = reconnectAttempts (reconnection s) /\
  maxAttempts (reconnection s') = maxAttempts (reconnection s) /\
  rc_shuttingDown (reconnection s') = rc_shuttingDown (reconnection s) /\
  isReconnecting (reconnection s') = isReconnecting (reconnection s) /\
  lastReconnectTime (reconnection s') = lastReconnectTime (reconnection s) /\
  (reconnectTimeout (reconnection s') = reconnectTimeout (reconnection s) \/
   reconnectTimeout (reconnection s') = None) /\
  exists k, rc_emitted (reconnection s')
            = List.app (rc_emitted (reconnection s)) (repeat maxAttemptsReached k).

(** [s'] differs from [s] in the broker client only. *)
Definition onlyBrokerTouched (s s' : Sys) : Prop :=
  dedup s' = dedup s /\ stats s' = stats s /\ webhook s' = webhook s /\
  consumer s' = consumer s /\ persistence s' = persistence s /\
  reconnection s' = reconnection s.

(** What the stops of [shutdown] keep: the flag, the store and the
    stopped reconnection controller. *)
Definition shuttingDownWith (p : Persistence) (rc : Reconnection) (s : Sys) : Prop :=
  isShuttingDown (consumer s) = true /\ persistence s = p /\ reconnection s = rc.

(** While the channel is down: [s'] has the consumer table, the store
    and the record of broker calls of [s0], and its channel is not
    ready either. *)
Definition downLike (s0 s' : Sys) : Prop :=
  RabbitMQService.isChannelReady (rabbit s') = false /\
  brokerLog (rabbit s') = brokerLog (rabbit s0) /\
  activeConsumers (consumer s') = activeConsumers (consumer s0) /\
  queueIntervals (consumer s') = queueIntervals (consumer s0) /\
  persistence s' = persistence s0.

(** ** Sample states and environments *)

Module Sample.

Definition openHandle : AmqpHandle := mkHandle false false.

Definition rabbit0 : RabbitMQ := mkRabbitMQ (Some openHandle) (Some openHandle) false [] [].
Definition rabbitDown : RabbitMQ := mkRabbitMQ (Some openHandle) None false [] [].

Definition sys0 : Sys :=
  mkSys rabbit0
        (mkDedup [] ∅ config.deduplication_maxProcessedMessages)
        (mkProcessorStats 0 0 0 0 0 0)
        (mkWebhook config.webhook_retryAttempts 0 0 0 0 0 [])
        (mkConsumer ∅ ∅ false true [])
        (mkPersistence true ∅)
        (mkReconnection false 0 0 None false
           config.reconnection_maxAttempts config.reconnection_debounceMs []).

Definition sysDown : Sys := set_rabbit (fun _ => rabbitDown) sys0.

(** A stand-in for [JSON.parse]: texts that open an object parse. *)
Definition parseObject (s : string) : option Json :=
  if Js.startsWith "{" s then Some (JCompound s) else None.

(** An environment in which the webhook answers every POST with
    [status] and the broker accepts every call. *)
Definition envWith (status : Z) : Env :=
  {| now := 1700000000000;
     localHour := 10;
     responseTime := 5;
     jsonParse := parseObject;
     urlParses := Js.startsWith "http";
     http := fun _ => Response status;
     ackThrows := fun _ => None;
     nackThrows := fun _ => None;
     checkQueueFails := fun _ => None;
     consumeResult := fun q => inr ("ctag-" +:+ q);
     cancelFails := fun _ => None;
     randomInterval := fun min _ => min;
     listenerThrows := fun _ => false;
     finishWebhookUrl := None;
     loadFails := false;
     saveFails := fun _ => false;
     removeFails := fun _ => false;
     clearFails := false;
     connectFails := None;
     backup := None |}.

Definition env200 : Env := envWith 200.

Definition msg1 : Message := mkMessage 1 "{ }".

Definition orders : QueueConfig :=
  mkQueueConfig "orders" "https://example.com/hook" (Some 30000) (Some 110000)
                (Some (mkHours 8 21)) false.

Definition ordersConsumer : ConsumerConfig :=
  mkConsumerConfig "ctag-orders" "https://example.com/hook" 30000 110000
                   (Some (mkHours 8 21)) false None 0.

Definition ordersPersisted : PersistedConfig :=
  mkPersistedConfig "https://example.com/hook" (Some 30000) (Some 110000)
                    (Some (mkHours 8 21)) 1700000000000.

(** Queue [orders] is being consumed and its configuration is stored. *)
Definition sysOrders : Sys :=
  set_persistence (fun p => mkPersistence (isReady p) (<["orders" := ordersPersisted]> (queues p)))
    (set_consumer (fun c =>
       mkConsumer (<["orders" := ordersConsumer]> (activeConsumers c)) (queueIntervals c)
                  (isShuttingDown c) (isInitialized c) (cs_emitted c)) sys0).

(** Every listener of every event raises. *)
Definition envListenersRaise : Env :=
  {| now := now env200; localHour := localHour env200; responseTime := responseTime env200;
     jsonParse := jsonParse env200; urlParses := urlParses env200; http := http env200;
     ackThrows := ackThrows env200; nackThrows := nackThrows env200;
     checkQueueFails := checkQueueFails env200; consumeResult := consumeResult env200;
     cancelFails := cancelFails env200; randomInterval := randomInterval env200;
     listenerThrows := fun _ => true;
     finishWebhookUrl := finishWebhookUrl env200; loadFails := loadFails env200;
     saveFails := saveFails env200; removeFails := removeFails env200;
     clearFails := clearFails env200; connectFails := connectFails env200;
     backup := backup env200 |}.

Definition msg2 : Message := mkMessage 2 "{ }".

End Sample.

Module SampleBroker.

Definition unknownTag : JsError :=
  mkError (Some 406) "PRECONDITION_FAILED - unknown delivery tag 1" None.

Definition channelGone : JsError := mkError None "Channel closed" None.

Definition timedOut : JsError := mkError None "connect ETIMEDOUT" None.

Definition queueGone : JsError :=
  mkError (Some 404) "NOT_FOUND - no queue 'orders' in vhost '/'" None.

(** The channel raises [e] on every ack and nack. *)
Definition envRaising (e : JsError) : Env :=
  let base := Sample.env200 in
  {| now := now base; localHour := localHour base; responseTime := responseTime base;
     jsonParse := jsonParse base; urlParses := urlParses base; http := http base;
     ackThrows := fun _ => Some e;
     nackThrows := fun _ => Some e;
     checkQueueFails := fun _ => Some e;
     consumeResult := fun _ => inl e;
     cancelFails := fun _ => Some e;
     randomInterval := randomInterval base; listenerThrows := listenerThrows base;
     finishWebhookUrl := finishWebhookUrl base; loadFails := loadFails base;
     saveFails := saveFails base; removeFails := removeFails base;
     clearFails := clearFails base; connectFails := connectFails base;
     backup := backup base |}.

End SampleBroker.

Module SampleOutage.

(** [base] with other answers of the webhook and of [amqp.connect]. *)
Definition withOutcomes (h : nat -> HttpOutcome) (c : option JsError) (base : Env) : Env :=
  {| now := now base; localHour := localHour base; responseTime := responseTime base;
     jsonParse := jsonParse base; urlParses := urlParses base;
     http := h;
     ackThrows := ackThrows base; nackThrows := nackThrows base;
     checkQueueFails := checkQueueFails base; consumeResult := consumeResult base;
     cancelFails := cancelFails base; randomInterval := randomInterval base;
     listenerThrows := listenerThrows base;
     finishWebhookUrl := finishWebhookUrl base; loadFails := loadFails base;
     saveFails := saveFails base; removeFails := removeFails base;
     clearFails := clearFails base;
     connectFails := c;
     backup := backup base |}.

(** The webhook answers 503 to the first POST and 200 afterwards. *)
Definition envFlaky : Env :=
  withOutcomes (fun n => match n with O => Response 503 | S _ => Response 200 end)
               None Sample.env200.

(** The broker refuses every connection. *)
Definition envUnreachable : Env :=
  withOutcomes (http Sample.env200) (Some SampleBroker.timedOut) Sample.env200.

(** The channel is down and the controller used up its ten attempts. *)
Definition sysGaveUp : Sys :=
  set_reconnection (fun r =>
    mkReconnection false 10 (lastReconnectTime r) None false (maxAttempts r) (debounceMs r)
                   (rc_emitted r)) Sample.sysDown.

(** Queue [orders] is consumed and stored while the channel is down. *)
Definition sysOrdersDown : Sys := set_rabbit (fun _ => Sample.rabbitDown) Sample.sysOrders.

Definition ordersPaused : QueueConfig :=
  mkQueueConfig "orders" "https://example.com/hook" (Some 30000) (Some 110000)
                (Some (mkHours 8 21)) true.

(** The entry of [orders] before a reconnect: paused, with a last
    message and a count. *)
Definition ordersBefore : ConsumerConfig :=
  mkConsumerConfig "ctag-old" "https://example.com/hook" 30000 110000
                   (Some (mkHours 8 21)) true (Some (JNumber 7)) 42.

End SampleOutage.

Module SampleDedup.

(** The fingerprints of deliveries 2 to 10001 of queue [orders]. *)
Definition others : list string :=
  map (fun n => helpers.generateMessageId (mkMessage (N.of_nat n) "{ }"))
      (seq 2 (N.to_nat 10000)).

(** The engine after deliveries 1 to 10001 were processed within one
    period of the cleanup timer: the processed set holds their
    fingerprints in that order, the one of [Sample.msg1] first. *)
Definition sysFull : Sys :=
  set_dedup (fun d => mkDedup (helpers.generateMessageId Sample.msg1 :: others)
                              (processingMessages d) (maxProcessedMessages d))
            Sample.sys0.

End SampleDedup.

(** ** Reasoning about computations in [M] *)

(** [c] returns normally from every state. *)
Definition returns {A} (c : M A) : Prop :=
  forall s, exists a, fst (c s) = Ok a.

(** [c] keeps the state predicate [I], however it ends. *)
Definition preserves {A} (I : Sys -> Prop) (c : M A) : Prop :=
  forall s, I s -> I (snd (c s)).

(** [c] never throws [undefined]. *)
Definition throws_errors {A} (c : M A) : Prop :=
  forall s, fst (c s) <> Throw ThrownUndefined.

(** * Properties *)

(** ** Rules *)

Example base64_hello : Js.base64 "hello" = "aGVsbG8=".
Proof. reflexivity. Qed.

Ltac msimpl :=
  cbv beta iota zeta delta [bind gets modify ret throw try_catch try_finally].

Section Rules.
Context {A B : Type}.

Lemma bind_ok (c : M A) (k : A -> M B) s a s' :
  c s = (Ok a, s') -> bind c k s = k a s'.
Proof. intros H. unfold bind. now rewrite H. Qed.

Lemma returns_bind (c : M A) (k : A -> M B) :
  returns c -> (forall a, returns (k a)) -> returns (bind c k).
Proof.
  intros Hc Hk s. destruct (Hc s) as [a Ha].
  destruct (c s) as [r s'] eqn:E. simpl in Ha. subst r.
  rewrite (bind_ok _ _ _ _ _ E). apply Hk.
Qed.

Lemma returns_try_catch (c : M A) (h : Thrown -> M A) :
  (forall t, returns (h t)) -> returns (try_catch c h).
Proof.
  intros Hh s. unfold try_catch. destruct (c s) as [[a|t] s'].
  - now exists a.
  - apply Hh.
Qed.

Lemma preserves_bind I (c : M A) (k : A -> M B) :
  preserves I c -> (forall a, preserves I (k a)) -> preserves I (bind c k).
Proof.
  intros Hc Hk s Hs. unfold bind. specialize (Hc s Hs).
  destruct (c s) as [[a|t] s']; simpl in *; [now apply Hk | assumption].
Qed.

Lemma preserves_try_catch I (c : M A) (h : Thrown -> M A) :
  preserves I c -> (forall t, preserves I (h t)) -> preserves I (try_catch c h).
Proof.
  intros Hc Hh s Hs. unfold try_catch. specialize (Hc s Hs).
  destruct (c s) as [[a|t] s']; simpl in *; [assumption | now apply Hh].
Qed.

Lemma preserves_try_finally I (c : M A) (f : M unit) :
  preserves I c -> preserves I f -> preserves I (try_finally c f).
Proof.
  intros Hc Hf s Hs. unfold try_finally. specialize (Hc s Hs).
  destruct (c s) as [r s']. simpl in Hc. specialize (Hf s' Hc).
  destruct (f s') as [[u|t] s'']; simpl in *; assumption.
Qed.

Lemma throws_errors_bind (c : M A) (k : A -> M B) :
  throws_errors c -> (forall a, throws_errors (k a)) -> throws_errors (bind c k).
Proof.
  intros Hc Hk s. unfold bind. specialize (Hc s).
  destruct (c s) as [[a|t] s']; simpl in *; [apply Hk | congruence].
Qed.

End Rules.

Lemma returns_ret {A} (a : A) : returns (ret a).
Proof. intros s. now exists a. Qed.

Lemma returns_modify f : returns (modify f).
Proof. intros s. now exists tt. Qed.

Lemma returns_gets {A} (f : Sys -> A) : returns (gets f).
Proof. intros s. now exists (f s). Qed.

Lemma returns_throws_errors {A} (c : M A) : returns c -> throws_errors c.
Proof. intros H s E. destruct (H s) as [a Ha]. congruence. Qed.

Lemma preserves_ret {A} I (a : A) : preserves I (ret a).
Proof. intros s Hs. exact Hs. Qed.

Lemma preserves_throw {A} I t : preserves I (@throw A t).
Proof. intros s Hs. exact Hs. Qed.

Lemma preserves_gets {A} I (f : Sys -> A) : preserves I (gets f).
Proof. intros s Hs. exact Hs. Qed.

Lemma preserves_modify I f : (forall s, I s -> I (f s)) -> preserves I (modify f).
Proof. intros H s Hs. simpl. now apply H. Qed.

Lemma preserves_for_each {A} I (xs : list A) (body : A -> M unit) :
  (forall x, In x xs -> preserves I (body x)) -> preserves I (for_each xs body).
Proof.
  induction xs as [|x xs IH]; intros H; simpl.
  - apply preserves_ret.
  - apply preserves_bind; [apply H; now left|].
    intros _. apply IH. intros y Hy. apply H. now right.
Qed.

Create HintDb monad.

#[local] Hint Resolve returns_ret returns_modify returns_gets preserves_ret
  preserves_throw preserves_gets : monad.

(** A tactic for frame properties: it splits the computation along its
    binds and handlers and leaves the state updates to [tac]. *)
Ltac preserves_with tac :=
  repeat first
    [ solve [tac]
    | apply preserves_ret | apply preserves_throw | apply preserves_gets
    | apply preserves_bind; [|intros]
    | apply preserves_try_catch; [|intros]
    | apply preserves_try_finally
    | apply preserves_for_each; intros
    | apply preserves_modify; intros; solve [tac]
    | match goal with
      | |- preserves _ (if ?b then _ else _) => destruct b
      | |- preserves _ (match ?x with _ => _ end) => destruct x
      | |- preserves _ (let '(_, _) := ?x in _) => destruct x
      end ].

(** ** Intervals and business hours *)

(** The integers up to [2^53] are numbers as they stand. *)
Lemma round_exact z : Z.abs z <= 2 ^ 53 -> Js.round z = z.
Proof.
  intros H.
  destruct (Z.eq_dec (Z.abs z) (2 ^ 53)) as [E|E].
  { destruct (Z.abs_eq_or_opp z) as [Hz|Hz]; rewrite Hz in E.
    - subst z. vm_compute. reflexivity.
    - assert (z = - 2 ^ 53) as -> by lia. vm_compute. reflexivity. }
  unfold Js.round. cbv zeta.
  replace (Z.log2 (Z.abs z) - 52 <=? 0) with true; [reflexivity|].
  symmetry. apply Z.leb_le.
  destruct (Z.eq_dec (Z.abs z) 0) as [E0|E0]; [rewrite E0; simpl; lia|].
  assert (Z.log2 (Z.abs z) < 53); [|lia].
  apply Z.log2_lt_pow2; lia.
Qed.

Lemma sanitizeIntervals_min (minInterval maxInterval : option Z) :
  1000 <= fst (helpers.sanitizeIntervals minInterval maxInterval).
Proof. unfold helpers.sanitizeIntervals. cbn [fst]. lia. Qed.

Lemma sanitizeIntervals_floor (minInterval maxInterval : option Z) :
  (forall v, minInterval = Some v -> v <= 2 ^ 53 - 1000) ->
  1000 <= fst (helpers.sanitizeIntervals minInterval maxInterval) /\
  fst (helpers.sanitizeIntervals minInterval maxInterval) + 1000
  <= snd (helpers.sanitizeIntervals minInterval maxInterval).
Proof.
  intros Hsafe. unfold helpers.sanitizeIntervals. cbn [fst snd]. split; [lia|].
  assert (Hmin : Js.or_default minInterval config.defaultIntervals_min
                 <= 2 ^ 53 - 1000).
  { unfold Js.or_default. destruct minInterval as [v|]; [|vm_compute; discriminate].
    specialize (Hsafe v eq_refl).
    destruct (v =? 0); [vm_compute; discriminate | exact Hsafe]. }
  unfold Js.add. rewrite round_exact; lia.
Qed.




(** The bound [2^53 - 1000] is the last one: one above it the sum is
    [2^53 + 1], which is rounded to [2^53]. *)
Example sanitizeIntervals_above_the_bound :
  helpers.sanitizeIntervals (Some (2 ^ 53 - 999)) None = (2 ^ 53 - 999, 2 ^ 53).
Proof. vm_compute. reflexivity. Qed.

Example sanitizeIntervals_at_1e17 :
  helpers.sanitizeIntervals (Some (10 ^ 17)) None = (10 ^ 17, 10 ^ 17 + 992).
Proof. vm_compute. reflexivity. Qed.

Example sanitizeIntervals_at_1e19 :
  helpers.sanitizeIntervals (Some (10 ^ 19)) None = (10 ^ 19, 10 ^ 19).
Proof. vm_compute. reflexivity. Qed.

(** The rounding of [Js.add] is the one of IEEE 754 binary64 addition,
    here on the two sums above: [10^17 = 6250000000000000 * 2^4] and
    [10^19 = 4882812500000000 * 2^11]. *)
Example add_1e17_binary64 :
  SFadd 53 1024 (S754_finite false 6250000000000000 4) (S754_finite false 1000 0)
  = S754_finite false 6250000000000062 4
  /\ Js.add (6250000000000000 * 2 ^ 4) 1000 = 6250000000000062 * 2 ^ 4.
Proof. vm_compute. split; reflexivity. Qed.

Example add_1e19_binary64 :
  SFadd 53 1024 (S754_finite false 4882812500000000 11) (S754_finite false 1000 0)
  = S754_finite false 4882812500000000 11
  /\ Js.add (4882812500000000 * 2 ^ 11) 1000 = 4882812500000000 * 2 ^ 11.
Proof. vm_compute. split; reflexivity. Qed.

Example sanitizeIntervals_missing :
  helpers.sanitizeIntervals None None = (30000, 110000).
Proof. reflexivity. Qed.

Example sanitizeIntervals_negative :
  helpers.sanitizeIntervals (Some (-5)) (Some (-7)) = (1000, 2000).
Proof. reflexivity. Qed.

(** After sanitisation the interval check of [validateQueueConfig]
    cannot fire while [minInterval] is at most [2^53 - 1000]. *)
Lemma interval_error_unreachable env queue url mi ma bh :
  (forall v, mi = Some v -> v <= 2 ^ 53 - 1000) ->
  ~ In "Minimum interval must be less than maximum interval"
       (MessageProcessor.validateQueueConfig env queue url mi ma bh).
Proof.
  intros Hsafe. unfold MessageProcessor.validateQueueConfig.
  pose proof (sanitizeIntervals_floor mi ma Hsafe) as Hb.
  destruct (helpers.sanitizeIntervals mi ma) as [mn mx].
  destruct Hb as [_ Hb]. cbn [fst snd] in Hb.
  replace (mx <=? mn) with false by (symmetry; apply Z.leb_gt; lia).
  intros Hin. rewrite !in_app_iff in Hin.
  destruct Hin as [Hin|[Hin|[Hin|Hin]]].
  - destruct (negb _); simpl in Hin; [destruct Hin as [Hin|[]]; discriminate Hin | contradiction].
  - destruct (negb _); simpl in Hin; [destruct Hin as [Hin|[]]; discriminate Hin | contradiction].
  - contradiction.
  - destruct bh as [bh|]; [|contradiction].
    destruct (_ || _); simpl in Hin; [destruct Hin as [Hin|[]]; discriminate Hin | contradiction].
Qed.

(** The business-hours check of [validateQueueConfig], in closed form. *)
Lemma business_hours_error_iff env queue url mi ma bh :
  In "Invalid business hours configuration"
     (MessageProcessor.validateQueueConfig env queue url mi ma (Some bh))
  <-> ~ (0 <= bh_start bh <= 23 /\ 0 <= bh_end bh <= 23 /\ bh_start bh < bh_end bh).
Proof.
  unfold MessageProcessor.validateQueueConfig.
  destruct (helpers.sanitizeIntervals mi ma) as [mn mx].
  rewrite !in_app_iff.
  split.
  - intros [Hin|[Hin|[Hin|Hin]]].
    + destruct (negb _); simpl in Hin; [destruct Hin as [Hin|[]]; discriminate Hin | contradiction].
    + destruct (negb _); simpl in Hin; [destruct Hin as [Hin|[]]; discriminate Hin | contradiction].
    + destruct (mx <=? mn); simpl in Hin; [destruct Hin as [Hin|[]]; discriminate Hin | contradiction].
    + destruct (_ || _) eqn:E; [|contradiction].
      rewrite !orb_true_iff in E. rewrite !Z.ltb_lt, Z.leb_le in E. lia.
  - intros Hn. right. right. right.
    destruct (_ || _) eqn:E; [now left|].
    rewrite !orb_false_iff in E. rewrite !Z.ltb_ge, Z.leb_gt in E. lia.
Qed.

(** C3: [validateQueueConfig] reports a business-hours error for every
    configuration whose end hour is 24, whatever the start hour; the
    data model admits [0 <= start < end <= 24] and the repository's own
    documentation shows a stored queue with hours 0 to 24. *)
Theorem validateQueueConfig_rejects_end_24 env queue url mi ma (start : Z) :
  In "Invalid business hours configuration"
     (MessageProcessor.validateQueueConfig env queue url mi ma (Some (mkHours start 24))).
Proof. apply business_hours_error_iff. simpl. lia. Qed.

Example validateQueueConfig_8_24 :
  MessageProcessor.validateQueueConfig Sample.env200 "orders" "https://example.com/hook"
    (Some 30000) (Some 110000) (Some (mkHours 8 24))
  = ["Invalid business hours configuration"].
Proof. reflexivity. Qed.

Example validateQueueConfig_8_23 :
  MessageProcessor.validateQueueConfig Sample.env200 "orders" "https://example.com/hook"
    (Some 30000) (Some 110000) (Some (mkHours 8 23))
  = [].
Proof. reflexivity. Qed.

(** ** The broker client: [ackMessage] and [nackMessage] *)

(** The whole effect of [ackMessage] on a delivery: the call on the
    channel when it is ready, nothing otherwise; the result is normal
    whether or not the channel raises. *)
Lemma ackMessage_eq env m s :
  RabbitMQService.ackMessage env (Some m) s =
  (Ok tt, if RabbitMQService.isChannelReady (rabbit s) then logOp (OpAck m) s else s).
Proof.
  unfold RabbitMQService.ackMessage, try_catch, bind, gets, RabbitMQService.channelCall,
    RabbitMQService.failing, modify. simpl.
  destruct (RabbitMQService.isChannelReady (rabbit s)); [|reflexivity].
  destruct (ackThrows env m) as [e|]; simpl; [|reflexivity].
  destruct (_ && _); reflexivity.
Qed.

Lemma nackMessage_eq env m allUpTo requeue s :
  RabbitMQService.nackMessage env (Some m) allUpTo requeue s =
  (Ok tt, if RabbitMQService.isChannelReady (rabbit s)
          then logOp (OpNack m allUpTo requeue) s else s).
Proof.
  unfold RabbitMQService.nackMessage, try_catch, bind, gets, RabbitMQService.channelCall,
    RabbitMQService.failing, modify. simpl.
  destruct (RabbitMQService.isChannelReady (rabbit s)); [|reflexivity].
  destruct (nackThrows env m) as [e|]; simpl; [|reflexivity].
  destruct (_ && _); reflexivity.
Qed.

Lemma ackMessage_null env s : RabbitMQService.ackMessage env None s = (Ok tt, s).
Proof. reflexivity. Qed.

Lemma nackMessage_null env allUpTo requeue s :
  RabbitMQService.nackMessage env None allUpTo requeue s = (Ok tt, s).
Proof. reflexivity. Qed.

Lemma returns_ackMessage env msg : returns (RabbitMQService.ackMessage env msg).
Proof.
  intros s. exists tt. destruct msg as [m|]; [now rewrite ackMessage_eq | reflexivity].
Qed.

Lemma returns_nackMessage env msg a r : returns (RabbitMQService.nackMessage env msg a r).
Proof.
  intros s. exists tt. destruct msg as [m|]; [now rewrite nackMessage_eq | reflexivity].
Qed.

(** C7: [ackMessage] and [nackMessage] leave the whole state untouched
    and return normally when the channel is not ready; when the channel
    raises AMQP 406 with a delivery-tag message they return normally,
    and nothing but the record of the call changes: no event is
    emitted and the reconnection controller is not touched. *)
Theorem ack_nack_not_ready_and_delivery_tag env (msg : option Message) (m : Message)
    (allUpTo requeue : bool) (s : Sys) :
  (RabbitMQService.isChannelReady (rabbit s) = false ->
     RabbitMQService.ackMessage env msg s = (Ok tt, s) /\
     RabbitMQService.nackMessage env msg allUpTo requeue s = (Ok tt, s))
  /\
  (forall e, isDeliveryTagError e -> ackThrows env m = Some e ->
     RabbitMQService.ackMessage env (Some m) s
       = (Ok tt, if RabbitMQService.isChannelReady (rabbit s) then logOp (OpAck m) s else s)
     /\ emitted (rabbit (snd (RabbitMQService.ackMessage env (Some m) s))) = emitted (rabbit s)
     /\ reconnection (snd (RabbitMQService.ackMessage env (Some m) s)) = reconnection s)
  /\
  (forall e, isDeliveryTagError e -> nackThrows env m = Some e ->
     RabbitMQService.nackMessage env (Some m) allUpTo requeue s
       = (Ok tt, if RabbitMQService.isChannelReady (rabbit s)
                 then logOp (OpNack m allUpTo requeue) s else s)
     /\ emitted (rabbit (snd (RabbitMQService.nackMessage env (Some m) allUpTo requeue s)))
        = emitted (rabbit s)
     /\ reconnection (snd (RabbitMQService.nackMessage env (Some m) allUpTo requeue s))
        = reconnection s).
Proof.
  repeat split.
  - destruct msg as [m'|]; [|reflexivity]. rewrite ackMessage_eq. now rewrite H.
  - destruct msg as [m'|]; [|reflexivity]. rewrite nackMessage_eq. now rewrite H.
  - apply ackMessage_eq.
  - rewrite ackMessage_eq. simpl. now destruct (RabbitMQService.isChannelReady (rabbit s)).
  - rewrite ackMessage_eq. simpl. now destruct (RabbitMQService.isChannelReady (rabbit s)).
  - apply nackMessage_eq.
  - rewrite nackMessage_eq. simpl. now destruct (RabbitMQService.isChannelReady (rabbit s)).
  - rewrite nackMessage_eq. simpl. now destruct (RabbitMQService.isChannelReady (rabbit s)).
Qed.

Lemma ack_nack_not_ready_and_delivery_tag_witness :
  (RabbitMQService.ackMessage Sample.env200 (Some Sample.msg1) Sample.sysDown
     = (Ok tt, Sample.sysDown) /\
   RabbitMQService.nackMessage Sample.env200 (Some Sample.msg1) false true Sample.sysDown
     = (Ok tt, Sample.sysDown))
  /\
  fst (RabbitMQService.ackMessage (SampleBroker.envRaising SampleBroker.unknownTag)
         (Some Sample.msg1) Sample.sys0) = Ok tt
  /\
  emitted (rabbit (snd (RabbitMQService.nackMessage
                          (SampleBroker.envRaising SampleBroker.unknownTag)
                          (Some Sample.msg1) false true Sample.sys0))) = [].
Proof.
  split; [|split].
  - apply (ack_nack_not_ready_and_delivery_tag Sample.env200 (Some Sample.msg1) Sample.msg1
             false true Sample.sysDown).
    reflexivity.
  - destruct (ack_nack_not_ready_and_delivery_tag
                (SampleBroker.envRaising SampleBroker.unknownTag) (Some Sample.msg1)
                Sample.msg1 false true Sample.sys0) as [_ [Hack _]].
    destruct (Hack SampleBroker.unknownTag) as [Heq _].
    + split; reflexivity.
    + reflexivity.
    + rewrite Heq. reflexivity.
  - destruct (ack_nack_not_ready_and_delivery_tag
                (SampleBroker.envRaising SampleBroker.unknownTag) (Some Sample.msg1)
                Sample.msg1 false true Sample.sys0) as [_ [_ Hnack]].
    destruct (Hnack SampleBroker.unknownTag) as [_ [Hem _]].
    + split; reflexivity.
    + reflexivity.
    + rewrite Hem. reflexivity.
Defined.

(** ** Errors of the channel and the reconnection classifier *)

Lemma safe_call_error {A} op (e : JsError) s :
  RabbitMQService.isChannelReady (rabbit s) = true ->
  RabbitMQService.safeChannelOperation (@RabbitMQService.channelCall A op (inl e)) s
  = (Throw (ThrownError e), classified op e s).
Proof.
  intros Hready.
  unfold RabbitMQService.safeChannelOperation, classified, bind, gets, try_catch,
    RabbitMQService.channelCall, modify, throw. simpl.
  rewrite Hready. simpl.
  destruct (RabbitMQService._shouldTriggerReconnection e); reflexivity.
Qed.

(** C10: whatever the channel raises on [ack] or [nack], [ackMessage]
    and [nackMessage] return normally and emit nothing, the
    reconnection controller being left as it was; an error raised under
    [checkQueue], [createConsumer] or [cancelConsumer] is thrown on to
    the caller after the classifier decided on [needsReconnection]. *)
Theorem ack_nack_swallow_every_error env (msg : option Message) (allUpTo requeue : bool)
    (s : Sys) :
  (fst (RabbitMQService.ackMessage env msg s) = Ok tt /\
   emitted (rabbit (snd (RabbitMQService.ackMessage env msg s))) = emitted (rabbit s) /\
   reconnection (snd (RabbitMQService.ackMessage env msg s)) = reconnection s)
  /\
  (fst (RabbitMQService.nackMessage env msg allUpTo requeue s) = Ok tt /\
   emitted (rabbit (snd (RabbitMQService.nackMessage env msg allUpTo requeue s)))
   = emitted (rabbit s) /\
   reconnection (snd (RabbitMQService.nackMessage env msg allUpTo requeue s))
   = reconnection s)
  /\
  (RabbitMQService.isChannelReady (rabbit s) = true ->
   forall name e,
     (checkQueueFails env name = Some e ->
      RabbitMQService.checkQueue env name s
      = (Throw (ThrownError e), classified (OpCheckQueue name) e s)) /\
     (consumeResult env name = inl e ->
      RabbitMQService.createConsumer env name s
      = (Throw (ThrownError e), classified (OpConsume name) e s)) /\
     (cancelFails env name = Some e ->
      RabbitMQService.cancelConsumer env name s
      = (Throw (ThrownError e), classified (OpCancel name) e s))).
Proof.
  split; [|split].
  - destruct msg as [m|]; [rewrite ackMessage_eq | rewrite ackMessage_null]; simpl;
      [destruct (RabbitMQService.isChannelReady (rabbit s))|]; auto.
  - destruct msg as [m|]; [rewrite nackMessage_eq | rewrite nackMessage_null]; simpl;
      [destruct (RabbitMQService.isChannelReady (rabbit s))|]; auto.
  - intros Hready name e. repeat split; intros He.
    + unfold RabbitMQService.checkQueue. rewrite He. now apply safe_call_error.
    + unfold RabbitMQService.createConsumer. rewrite He. now apply safe_call_error.
    + unfold RabbitMQService.cancelConsumer. rewrite He. now apply safe_call_error.
Qed.

Lemma ack_nack_swallow_every_error_witness :
  fst (RabbitMQService.ackMessage (SampleBroker.envRaising SampleBroker.channelGone)
         (Some Sample.msg1) Sample.sys0) = Ok tt
  /\
  RabbitMQService.checkQueue (SampleBroker.envRaising SampleBroker.channelGone)
    "orders" Sample.sys0
  = (Throw (ThrownError SampleBroker.channelGone),
     emitRabbit (needsReconnection SampleBroker.channelGone)
       (logOp (OpCheckQueue "orders") Sample.sys0)).
Proof.
  destruct (ack_nack_swallow_every_error (SampleBroker.envRaising SampleBroker.channelGone)
              (Some Sample.msg1) false true Sample.sys0) as [[Hack _] [_ Hsafe]].
  split; [exact Hack|].
  destruct (Hsafe eq_refl "orders" SampleBroker.channelGone) as [Hcheck _].
  exact (Hcheck eq_refl).
Defined.

Example classifier_channel_closed :
  RabbitMQService._shouldTriggerReconnection SampleBroker.channelGone = true.
Proof. reflexivity. Qed.

Example classifier_unknown_tag :
  RabbitMQService._shouldTriggerReconnection SampleBroker.unknownTag = false.
Proof. reflexivity. Qed.

Example classifier_queue_gone :
  RabbitMQService._shouldTriggerReconnection SampleBroker.queueGone = false.
Proof. reflexivity. Qed.

(** ** Frames: what the services leave alone *)

Section Frame.
Variable I : Sys -> Prop.

Section Broker.
Hypothesis I_rabbit : forall f s, I s -> I (set_rabbit f s).

Lemma frame_ackMessage env msg : preserves I (RabbitMQService.ackMessage env msg).
Proof.
  intros s H. destruct msg as [m|]; [rewrite ackMessage_eq | exact H].
  simpl. destruct (RabbitMQService.isChannelReady (rabbit s)); [now apply I_rabbit | exact H].
Qed.

Lemma frame_nackMessage env msg a r :
  preserves I (RabbitMQService.nackMessage env msg a r).
Proof.
  intros s H. destruct msg as [m|]; [rewrite nackMessage_eq | exact H].
  simpl. destruct (RabbitMQService.isChannelReady (rabbit s)); [now apply I_rabbit | exact H].
Qed.

Lemma frame_rabbit_emit ev : preserves I (RabbitMQService.emit ev).
Proof. apply preserves_modify. intros s H. now apply I_rabbit. Qed.

Lemma frame_channelCall {A} op (outcome : JsError + A) :
  preserves I (RabbitMQService.channelCall op outcome).
Proof.
  unfold RabbitMQService.channelCall.
  preserves_with ltac:(first [assumption | apply I_rabbit; assumption]).
Qed.

Lemma frame_safeChannelOperation {A} (operation : M A) :
  preserves I operation ->
  preserves I (RabbitMQService.safeChannelOperation operation).
Proof.
  intros H. unfold RabbitMQService.safeChannelOperation.
  preserves_with ltac:(first [assumption | apply H | apply frame_rabbit_emit]).
Qed.

Lemma frame_checkQueue env x : preserves I (RabbitMQService.checkQueue env x).
Proof. apply frame_safeChannelOperation, frame_channelCall. Qed.

Lemma frame_createConsumer env x : preserves I (RabbitMQService.createConsumer env x).
Proof. apply frame_safeChannelOperation, frame_channelCall. Qed.

Lemma frame_cancelConsumer env x : preserves I (RabbitMQService.cancelConsumer env x).
Proof. apply frame_safeChannelOperation, frame_channelCall. Qed.

End Broker.

Section Sender.
Hypothesis I_webhook : forall f s, I s -> I (set_webhook f s).

Lemma frame_sendWebhook env url : preserves I (WebhookService.sendWebhook env url).
Proof.
  unfold WebhookService.sendWebhook, WebhookService.axios_post, WebhookService._updateStats.
  preserves_with ltac:(first [assumption | apply I_webhook; assumption]).
Qed.

Lemma frame_retryLoop env url n :
  forall last, preserves I (WebhookService.retryLoop env url n last).
Proof.
  induction n as [|n IH]; intros last; simpl.
  - apply preserves_throw.
  - apply preserves_try_catch; [apply frame_sendWebhook|].
    intros t. unfold WebhookService.incrRetries.
    preserves_with ltac:(first [assumption | apply IH | apply I_webhook; assumption]).
Qed.

Lemma frame_sendWebhookWithRetry env url o :
  preserves I (WebhookService.sendWebhookWithRetry env url o).
Proof.
  unfold WebhookService.sendWebhookWithRetry.
  preserves_with ltac:(first [assumption | apply frame_retryLoop]).
Qed.

Lemma frame_sendToWebhook env url : preserves I (MessageProcessor.sendToWebhook env url).
Proof.
  unfold MessageProcessor.sendToWebhook.
  preserves_with ltac:(first [assumption | apply frame_sendWebhookWithRetry]).
Qed.

Lemma frame_notifyQueueFinish env : preserves I (WebhookService.notifyQueueFinish env).
Proof.
  unfold WebhookService.notifyQueueFinish.
  preserves_with ltac:(first [assumption | apply frame_sendWebhookWithRetry]).
Qed.

End Sender.

Section Processor.
Hypothesis I_rabbit : forall f s, I s -> I (set_rabbit f s).
Hypothesis I_webhook : forall f s, I s -> I (set_webhook f s).
Hypothesis I_stats : forall f s, I s -> I (set_stats f s).
Hypothesis I_markProcessing :
  forall x i s, I s -> I (set_dedup (DeduplicationService.markMessageProcessing x i) s).
Hypothesis I_markProcessed :
  forall x s, I s -> I (set_dedup (DeduplicationService.markMessageProcessed x) s).
Hypothesis I_removeFromProcessing :
  forall x s, I s -> I (set_dedup (DeduplicationService.removeMessageFromProcessing x) s).

(** [processMessage] keeps every property that its updates of the
    counters, of the two deduplication containers, of the sender and of
    the broker client keep. *)
Lemma frame_processMessage env msg qc :
  preserves I (MessageProcessor.processMessage env msg qc).
Proof.
  unfold MessageProcessor.processMessage, MessageProcessor.processBody,
    MessageProcessor.shouldRetryMessage, MessageProcessor.bump.
  preserves_with ltac:(first
    [ assumption
    | apply I_stats; assumption
    | apply I_markProcessing; assumption
    | apply I_markProcessed; assumption
    | apply I_removeFromProcessing; assumption
    | apply frame_ackMessage; exact I_rabbit
    | apply frame_nackMessage; exact I_rabbit
    | apply frame_sendToWebhook; exact I_webhook ]).
Qed.

End Processor.

End Frame.

(** ** The message processor *)

Lemma generateMessageId_nonempty m :
  DeduplicationService.is_empty (helpers.generateMessageId m) = false.
Proof.
  unfold helpers.generateMessageId, DeduplicationService.is_empty.
  destruct (pretty (deliveryTag m)); reflexivity.
Qed.

Ltac returns_tac :=
  repeat first
    [ apply returns_ret | apply returns_modify | apply returns_gets
    | apply returns_ackMessage | apply returns_nackMessage
    | apply returns_try_catch; intros
    | apply returns_bind; [|intros]
    | match goal with
      | |- returns (if ?b then _ else _) => destruct b
      | |- returns (match ?x with _ => _ end) => destruct x
      end ].

Lemma returns_bump f : returns (MessageProcessor.bump f).
Proof. apply returns_modify. Qed.

Lemma returns_sendToWebhook env url : returns (MessageProcessor.sendToWebhook env url).
Proof. unfold MessageProcessor.sendToWebhook. returns_tac. Qed.

Lemma throws_errors_shouldRetryMessage error :
  throws_errors (MessageProcessor.shouldRetryMessage error).
Proof. intros s. destruct error; simpl; discriminate. Qed.

Ltac throws_errors_tac :=
  repeat first
    [ apply throws_errors_shouldRetryMessage
    | apply returns_throws_errors;
      solve [ apply returns_sendToWebhook | apply returns_bump | returns_tac ]
    | apply throws_errors_bind; [|intros]
    | match goal with
      | |- throws_errors (if ?b then _ else _) => destruct b
      | |- throws_errors (match ?x with _ => _ end) => destruct x
      end ].

(** Inside the [try] of [processMessage] only a [TypeError] can be
    raised, never [undefined]. *)
Lemma throws_errors_processBody env m messageId qc :
  throws_errors (MessageProcessor.processBody env m messageId qc).
Proof. unfold MessageProcessor.processBody. throws_errors_tac. Qed.

Lemma returns_processMessage_try env m messageId qc :
  returns
    (try_catch (MessageProcessor.processBody env m messageId qc)
       (fun error =>
          RabbitMQService.nackMessage env (Some m) false true ;;;
          MessageProcessor.bump MessageProcessor.incr_failed ;;;
          match error with
          | ThrownUndefined => throw (TypeError "Cannot read properties of undefined")
          | ThrownError e =>
              ret (mkDisposition nack "unexpected_error" (Some error) None None)
          end)).
Proof.
  intros s. unfold try_catch.
  pose proof (throws_errors_processBody env m messageId qc s) as Hne.
  destruct (MessageProcessor.processBody env m messageId qc s) as [[d|t] s1].
  - now exists d.
  - destruct t as [|e]; [now elim Hne|].
    rewrite (bind_ok _ _ _ _ _ (nackMessage_eq env m false true s1)).
    eexists. reflexivity.
Qed.

(** C8: every call of [processMessage] returns one disposition, whose
    action is [ack], [nack] or [skip]; for a null delivery it is
    [skip] and the state is untouched, and for a delivery the
    fingerprint is absent from the in-flight map when the call returns,
    on whichever path it left the [try]. *)
Theorem processMessage_one_disposition_and_cleanup env (m : Message) (qc : QueueConfig)
    (s : Sys) :
  (exists d,
     fst (MessageProcessor.processMessage env (Some m) qc s) = Ok d /\
     In (action d) [ack; nack; skip] /\
     processingMessages (dedup (snd (MessageProcessor.processMessage env (Some m) qc s)))
       !! helpers.generateMessageId m = None)
  /\
  MessageProcessor.processMessage env None qc s = (Ok (disposition skip "null_message"), s).
Proof.
  split; [|reflexivity].
  unfold MessageProcessor.processMessage, try_finally.
  destruct (returns_processMessage_try env m (helpers.generateMessageId m) qc s) as [d Hd].
  match goal with
  | |- context [ try_catch ?c ?h s ] => destruct (try_catch c h s) as [r s1] eqn:E
  end.
  simpl in Hd. subst r. simpl.
  exists d. split; [reflexivity|]. split.
  - destruct (action d); simpl; auto.
  - unfold DeduplicationService.removeMessageFromProcessing.
    rewrite generateMessageId_nonempty. simpl. apply lookup_delete_eq.
Qed.

Lemma withCalls_nil r : withCalls [] r = r.
Proof. destruct r. unfold withCalls. simpl. now rewrite app_nil_r. Qed.

Lemma sendToWebhook_rabbit env url s :
  rabbit (snd (MessageProcessor.sendToWebhook env url s)) = rabbit s.
Proof.
  apply (frame_sendToWebhook (fun s' => rabbit s' = rabbit s)); [|reflexivity].
  intros f s' H. exact H.
Qed.

Ltac broker_calls_done :=
  eexists; split; [reflexivity|];
  cbn [snd action rabbit set_dedup set_stats];
  match goal with
  | |- context [RabbitMQService.isChannelReady ?r] =>
      destruct (RabbitMQService.isChannelReady r)
  end;
  cbn; rewrite ?withCalls_nil; reflexivity.

(** X5: one call of [processMessage] issues at most one call on the
    channel, the one that goes with the action of its disposition (and
    none while the channel is not ready); nothing else of the broker
    client changes. *)
Lemma processMessage_broker_calls env m qc s :
  exists d,
    fst (MessageProcessor.processMessage env (Some m) qc s) = Ok d /\
    rabbit (snd (MessageProcessor.processMessage env (Some m) qc s))
    = if RabbitMQService.isChannelReady (rabbit s)
      then withCalls (brokerCallOf m (action d)) (rabbit s)
      else rabbit s.
Proof.
  unfold MessageProcessor.processMessage, MessageProcessor.processBody,
    MessageProcessor.bump, MessageProcessor.shouldRetryMessage.
  msimpl.
  destruct (DeduplicationService.isMessageProcessed _ _); [broker_calls_done|].
  destruct (qc_paused qc); [rewrite nackMessage_eq; broker_calls_done|].
  destruct (negb _); [rewrite nackMessage_eq; broker_calls_done|].
  destruct (jsonParse env (content m)) as [parsed|];
    [|rewrite ackMessage_eq; broker_calls_done].
  match goal with
  | |- context [ MessageProcessor.sendToWebhook env ?u ?st ] =>
      pose proof (sendToWebhook_rabbit env u st) as Hr;
      destruct (returns_sendToWebhook env u st) as [wr Hwr];
      destruct (MessageProcessor.sendToWebhook env u st) as [r s2]
  end.
  simpl in Hwr, Hr. subst r. cbn [rabbit set_dedup] in Hr.
  destruct s2 as [r2 d2 st2 w2 c2 p2 rc2]. cbn [rabbit] in Hr. subst r2.
  destruct wr as [res|[|e]]; cbv beta iota.
  - rewrite ackMessage_eq. broker_calls_done.
  - rewrite nackMessage_eq. broker_calls_done.
  - destruct (negb _).
    + rewrite nackMessage_eq. broker_calls_done.
    + rewrite ackMessage_eq. broker_calls_done.
Qed.

(** ** The webhook sender *)

Lemma set_webhook_id s : set_webhook (fun w => w) s = s.
Proof. now destruct s. Qed.

(** A response below 500 resolves the POST: [validateStatus] accepts
    every 4xx status. *)
Lemma sendWebhook_resolves env url s status :
  helpers.isValidUrl (urlParses env) url = true ->
  http env (length (httpLog (webhook s))) = Response status ->
  status < 500 ->
  WebhookService.sendWebhook env url s
  = (Ok (mkWebhookResult status (responseTime env)),
     set_webhook (posted url true (responseTime env)) s).
Proof.
  intros Hurl Hhttp Hlt.
  unfold WebhookService.sendWebhook. rewrite Hurl. cbn [negb].
  unfold WebhookService.axios_post, WebhookService._updateStats. msimpl.
  rewrite Hhttp. unfold WebhookService.validateStatus.
  replace (status <? 500) with true by (symmetry; apply Z.ltb_lt; lia).
  reflexivity.
Qed.

Lemma sendWebhook_rejects env url s status :
  helpers.isValidUrl (urlParses env) url = true ->
  http env (length (httpLog (webhook s))) = Response status ->
  500 <= status ->
  WebhookService.sendWebhook env url s
  = (Throw (ThrownError (mkError None "Request failed with status code" (Some status))),
     set_webhook (posted url false (responseTime env)) s).
Proof.
  intros Hurl Hhttp Hlt.
  unfold WebhookService.sendWebhook. rewrite Hurl. cbn [negb].
  unfold WebhookService.axios_post, WebhookService._updateStats. msimpl.
  rewrite Hhttp. unfold WebhookService.validateStatus.
  replace (status <? 500) with false by (symmetry; apply Z.ltb_ge; lia).
  reflexivity.
Qed.

(** The object thrown by a failed POST never carries a 4xx status. *)
Lemma sendWebhook_fails env url s :
  helpers.isValidUrl (urlParses env) url = true ->
  retryable (http env (length (httpLog (webhook s)))) ->
  exists e,
    WebhookService.sendWebhook env url s
    = (Throw (ThrownError e), set_webhook (posted url false (responseTime env)) s) /\
    WebhookService.isClientError (err_status e) = false.
Proof.
  intros Hurl Hr.
  destruct (http env (length (httpLog (webhook s)))) as [status|msg] eqn:E; simpl in Hr.
  - eexists. split; [apply sendWebhook_rejects; [exact Hurl | exact E | exact Hr]|].
    simpl. replace (status <? 500) with false by (symmetry; apply Z.ltb_ge; lia).
    now rewrite andb_false_r.
  - exists (mkError None msg None). split; [|reflexivity].
    unfold WebhookService.sendWebhook. rewrite Hurl. cbn [negb].
    unfold WebhookService.axios_post, WebhookService._updateStats. msimpl.
    rewrite E. reflexivity.
Qed.

Lemma failedAttempts_retries url rt n w :
  wh_retries (Nat.iter n (failedAttempt url rt) w) = wh_retries w + Z.of_nat n.
Proof.
  induction n as [|n IH]; [simpl; lia|].
  rewrite Nat.iter_succ. cbn [failedAttempt wh_retries posted]. rewrite IH. lia.
Qed.

Lemma failedAttempts_httpLog url rt n w :
  length (httpLog (Nat.iter n (failedAttempt url rt) w)) = (length (httpLog w) + n)%nat.
Proof.
  induction n as [|n IH]; [simpl; lia|].
  rewrite Nat.iter_succ. cbn [failedAttempt httpLog posted].
  rewrite length_app, IH. simpl. lia.
Qed.

(** When every attempt fails with a retryable outcome the loop runs
    [n] times, and each iteration counts as a retry, the last one
    included. *)
Lemma retryLoop_exhausts env url n :
  helpers.isValidUrl (urlParses env) url = true ->
  forall s last,
    (forall i, (i < n)%nat -> retryable (http env (length (httpLog (webhook s)) + i)%nat)) ->
    exists t,
      WebhookService.retryLoop env url n last s
      = (Throw t, set_webhook (Nat.iter n (failedAttempt url (responseTime env))) s) /\
      match n with
      | O => t = last
      | S _ => exists e, t = ThrownError e /\ WebhookService.isClientError (err_status e) = false
      end.
Proof.
  intros Hurl. induction n as [|n IH]; intros s last Hall.
  - exists last. simpl. now rewrite set_webhook_id.
  - destruct (sendWebhook_fails env url s Hurl) as [e [Hsend Hce]].
    { specialize (Hall O). rewrite Nat.add_0_r in Hall. apply Hall. lia. }
    cbn [WebhookService.retryLoop]. unfold try_catch. rewrite Hsend.
    unfold WebhookService.incrRetries. msimpl. rewrite Hce.
    match goal with
    | |- context [ WebhookService.retryLoop env url n ?l ?st ] =>
        destruct (IH st l) as [t [Hloop Ht]]
    end.
    { intros i Hi. cbn [webhook set_webhook httpLog posted]. rewrite length_app. simpl.
      replace (length (httpLog (webhook s)) + 1 + i)%nat
        with (length (httpLog (webhook s)) + S i)%nat by lia.
      apply Hall. lia. }
    rewrite Hloop. exists t. split.
    { unfold set_webhook.
      cbn [rabbit dedup stats webhook consumer persistence reconnection].
      rewrite Nat.iter_succ_r. reflexivity. }
    destruct n; [subst t; eauto | exact Ht].
Qed.

(** ** Dispatch and the HTTP status *)

Lemma has_set_add x l : DeduplicationService.has x (DeduplicationService.set_add x l) = true.
Proof.
  unfold DeduplicationService.set_add.
  destruct (DeduplicationService.has x l) eqn:E; [exact E|].
  unfold DeduplicationService.has. rewrite existsb_app. simpl.
  rewrite String.eqb_refl. now rewrite orb_true_r.
Qed.

Lemma processed_removeMessageFromProcessing x d :
  processedMessages (DeduplicationService.removeMessageFromProcessing x d)
  = processedMessages d.
Proof. unfold DeduplicationService.removeMessageFromProcessing. now destruct (_ x). Qed.

Lemma processed_markMessageProcessing x i d :
  processedMessages (DeduplicationService.markMessageProcessing x i d)
  = processedMessages d.
Proof. unfold DeduplicationService.markMessageProcessing. now destruct (_ x). Qed.

Lemma processed_markMessageProcessed x d :
  DeduplicationService.is_empty x = false ->
  processedMessages (DeduplicationService.markMessageProcessed x d)
  = DeduplicationService.set_add x (processedMessages d).
Proof. intros H. unfold DeduplicationService.markMessageProcessed. now rewrite H. Qed.

(** C1: what the code does with a 4xx response.  The POST resolves,
    because [validateStatus] accepts every status below 500, so the
    delivery is acked and marked processed with disposition
    [{ack, success}]; [processed] is incremented and [failed] is not.
    The branch that returns [webhook_permanent_error] is never reached
    by an HTTP response. *)
Theorem client_error_response_acked_as_success env m qc s (status : Z) parsed n :
  DeduplicationService.isMessageProcessed (helpers.generateMessageId m) (dedup s) = false ->
  qc_paused qc = false ->
  helpers.isWithinBusinessHours (localHour env) (qc_businessHours qc) = true ->
  jsonParse env (content m) = Some parsed ->
  helpers.isValidUrl (urlParses env) (qc_webhook qc) = true ->
  retryAttempts (webhook s) = S n ->
  http env (length (httpLog (webhook s))) = Response status ->
  400 <= status < 500 ->
  let r := MessageProcessor.processMessage env (Some m) qc s in
  fst r = Ok (mkDisposition ack "success" None (Some parsed)
                (Some (mkWebhookResult status (responseTime env)))) /\
  mp_failed (stats (snd r)) = mp_failed (stats s) /\
  mp_processed (stats (snd r)) = mp_processed (stats s) + 1 /\
  DeduplicationService.has (helpers.generateMessageId m) (processedMessages (dedup (snd r)))
  = true /\
  brokerLog (rabbit (snd r))
  = if RabbitMQService.isChannelReady (rabbit s)
    then List.app (brokerLog (rabbit s)) [OpAck m] else brokerLog (rabbit s).
Proof.
  intros Hdup Hpaused Hhours Hjson Hurl Hn Hhttp Hst r. subst r.
  unfold MessageProcessor.processMessage, MessageProcessor.processBody,
    MessageProcessor.sendToWebhook, WebhookService.sendWebhookWithRetry,
    MessageProcessor.bump.
  set (id := helpers.generateMessageId m) in *.
  msimpl. rewrite Hdup, Hpaused, Hhours. cbn [negb]. rewrite Hjson.
  cbn [webhook set_dedup WebhookService.maxAttemptsOf]. rewrite Hn.
  cbn [WebhookService.retryLoop]. msimpl.
  rewrite sendWebhook_resolves with (status := status); [|assumption|assumption|lia].
  rewrite ackMessage_eq. cbn [rabbit set_webhook set_dedup].
  destruct (RabbitMQService.isChannelReady (rabbit s)); cbn;
    (repeat split; try reflexivity);
    rewrite processed_removeMessageFromProcessing,
      (processed_markMessageProcessed _ _ (generateMessageId_nonempty m));
    apply has_set_add.
Qed.

Lemma client_error_response_acked_as_success_witness :
  let r := MessageProcessor.processMessage (Sample.envWith 404) (Some Sample.msg1)
             Sample.orders Sample.sys0 in
  fst r = Ok (mkDisposition ack "success" None (Some (JCompound "{ }"))
                (Some (mkWebhookResult 404 5))) /\
  mp_failed (stats (snd r)) = 0 /\
  mp_processed (stats (snd r)) = 1 /\
  DeduplicationService.has "1_eyB9" (processedMessages (dedup (snd r))) = true /\
  brokerLog (rabbit (snd r)) = [OpAck Sample.msg1].
Proof.
  apply (client_error_response_acked_as_success (Sample.envWith 404) Sample.msg1
           Sample.orders Sample.sys0 404 (JCompound "{ }") 2);
    try reflexivity.
  lia.
Defined.

(** C4: what the code does when every attempt fails with a retryable
    outcome.  With [N] attempts configured there are exactly [N] POSTs
    and the disposition is [{nack, webhook_retry}] with the processor's
    [failed] raised by one; the sender's [retries] counter is raised by
    [N], once per failed attempt, and not by [N - 1]. *)
Theorem all_attempts_fail_counts_every_attempt env m qc s (n : nat) parsed :
  DeduplicationService.isMessageProcessed (helpers.generateMessageId m) (dedup s) = false ->
  qc_paused qc = false ->
  helpers.isWithinBusinessHours (localHour env) (qc_businessHours qc) = true ->
  jsonParse env (content m) = Some parsed ->
  helpers.isValidUrl (urlParses env) (qc_webhook qc) = true ->
  retryAttempts (webhook s) = S n ->
  (forall i, (i < S n)%nat ->
             retryable (http env (length (httpLog (webhook s)) + i)%nat)) ->
  let r := MessageProcessor.processMessage env (Some m) qc s in
  (exists e, fst r = Ok (mkDisposition nack "webhook_retry" (Some (ThrownError e)) None None)) /\
  length (httpLog (webhook (snd r))) = (length (httpLog (webhook s)) + S n)%nat /\
  mp_failed (stats (snd r)) = mp_failed (stats s) + 1 /\
  wh_retries (webhook (snd r)) = wh_retries (webhook s) + Z.of_nat (S n).
Proof.
  intros Hdup Hpaused Hhours Hjson Hurl Hn Hall r. subst r.
  unfold MessageProcessor.processMessage, MessageProcessor.processBody,
    MessageProcessor.sendToWebhook, WebhookService.sendWebhookWithRetry,
    MessageProcessor.bump.
  set (id := helpers.generateMessageId m) in *.
  msimpl. rewrite Hdup, Hpaused, Hhours. cbn [negb]. rewrite Hjson.
  cbn [webhook set_dedup WebhookService.maxAttemptsOf]. rewrite Hn.
  match goal with
  | |- context [ WebhookService.retryLoop env ?u (S n) ?l ?st ] =>
      destruct (retryLoop_exhausts env u (S n) Hurl st l) as [t [Hloop [e [Ht Hce]]]];
        [exact Hall|]
  end.
  rewrite Hloop. subst t. unfold MessageProcessor.shouldRetryMessage. msimpl.
  rewrite Hce. cbn [negb]. rewrite nackMessage_eq.
  cbn [rabbit set_webhook set_dedup].
  split; [exists e; reflexivity|].
  destruct (RabbitMQService.isChannelReady (rabbit s));
    cbn [snd webhook stats set_dedup set_stats set_webhook logOp set_rabbit
         MessageProcessor.incr_failed mp_failed];
    rewrite failedAttempts_httpLog, failedAttempts_retries; auto.
Qed.

Lemma all_attempts_fail_counts_every_attempt_witness :
  let r := MessageProcessor.processMessage (Sample.envWith 500) (Some Sample.msg1)
             Sample.orders Sample.sys0 in
  (exists e, fst r = Ok (mkDisposition nack "webhook_retry" (Some (ThrownError e)) None None)) /\
  length (httpLog (webhook (snd r))) = 3%nat /\
  mp_failed (stats (snd r)) = 1 /\
  wh_retries (webhook (snd r)) = 3.
Proof.
  apply (all_attempts_fail_counts_every_attempt (Sample.envWith 500) Sample.msg1
           Sample.orders Sample.sys0 2 (JCompound "{ }"));
    try reflexivity.
  intros i _. simpl. lia.
Defined.

(** The same run, evaluated: three POSTs, three retries counted. *)
Example retries_after_three_failures :
  let r := MessageProcessor.processMessage (Sample.envWith 500) (Some Sample.msg1)
             Sample.orders Sample.sys0 in
  wh_retries (webhook (snd r)) = 3 /\ httpLog (webhook (snd r))
  = ["https://example.com/hook"; "https://example.com/hook"; "https://example.com/hook"].
Proof. vm_compute. split; reflexivity. Qed.

(** With no attempt configured the loop throws [undefined], reading its
    status raises, and the [catch] of [processMessage] answers. *)
Example unexpected_error_path :
  let s := set_webhook (fun w => mkWebhook 0 0 0 0 0 0 []) Sample.sys0 in
  let r := MessageProcessor.processMessage Sample.env200 (Some Sample.msg1) Sample.orders s in
  option_map action (match fst r with Ok d => Some d | Throw _ => None end) = Some nack /\
  option_map reason (match fst r with Ok d => Some d | Throw _ => None end)
  = Some "unexpected_error".
Proof. vm_compute. split; reflexivity. Qed.

(** ** Duplicates *)

Lemma has_set_add_mono x y l :
  DeduplicationService.has x l = true ->
  DeduplicationService.has x (DeduplicationService.set_add y l) = true.
Proof.
  intros H. unfold DeduplicationService.set_add.
  destruct (DeduplicationService.has y l); [exact H|].
  unfold DeduplicationService.has in *. rewrite existsb_app, H. reflexivity.
Qed.

Lemma stillProcessed_set_dedup f g s :
  (forall d, DeduplicationService.has f (processedMessages d) = true ->
             DeduplicationService.has f (processedMessages (g d)) = true) ->
  stillProcessed f s -> stillProcessed f (set_dedup g s).
Proof. intros Hg H. unfold stillProcessed in *. simpl. now apply Hg. Qed.

Lemma stillProcessed_markMessageProcessed f x s :
  stillProcessed f s ->
  stillProcessed f (set_dedup (DeduplicationService.markMessageProcessed x) s).
Proof.
  apply stillProcessed_set_dedup. intros d H.
  unfold DeduplicationService.markMessageProcessed.
  destruct (DeduplicationService.is_empty x); [exact H|]. simpl. now apply has_set_add_mono.
Qed.

Lemma stillProcessed_markMessageProcessing f x i s :
  stillProcessed f s ->
  stillProcessed f (set_dedup (DeduplicationService.markMessageProcessing x i) s).
Proof.
  apply stillProcessed_set_dedup. intros d H. now rewrite processed_markMessageProcessing.
Qed.

Lemma stillProcessed_removeMessageFromProcessing f x s :
  stillProcessed f s ->
  stillProcessed f (set_dedup (DeduplicationService.removeMessageFromProcessing x) s).
Proof.
  apply stillProcessed_set_dedup. intros d H. now rewrite processed_removeMessageFromProcessing.
Qed.

(** Once a fingerprint is in the processed set, [processMessage] keeps
    it there, whatever delivery it is called on. *)
Lemma preserves_processMessage_dedup f env msg qc :
  preserves (stillProcessed f) (MessageProcessor.processMessage env msg qc).
Proof.
  apply frame_processMessage.
  - intros g s H. exact H.
  - intros g s H. exact H.
  - intros g s H. exact H.
  - intros x i s. apply stillProcessed_markMessageProcessing.
  - intros x s. apply stillProcessed_markMessageProcessed.
  - intros x s. apply stillProcessed_removeMessageFromProcessing.
Qed.

(** The duplicate branch, in closed form: the two counters move and
    nothing else does apart from the [finally]. *)
Lemma processMessage_duplicate env m qc s :
  stillProcessed (helpers.generateMessageId m) s ->
  MessageProcessor.processMessage env (Some m) qc s
  = (Ok (disposition skip "duplicate"), skippedAsDuplicate (helpers.generateMessageId m) s).
Proof.
  intros H. unfold MessageProcessor.processMessage, MessageProcessor.processBody,
    MessageProcessor.bump. msimpl.
  unfold DeduplicationService.isMessageProcessed.
  rewrite generateMessageId_nonempty. unfold stillProcessed in H. rewrite H.
  reflexivity.
Qed.

(** A cleanup tick changes nothing while the processed set is within
    its bound; above it the oldest fingerprints are dropped. *)
Lemma cleanupOldMessages_within_bound d :
  (N.of_nat (length (processedMessages d)) <= maxProcessedMessages d)%N ->
  DeduplicationService.cleanupOldMessages d = d.
Proof.
  intros H. unfold DeduplicationService.cleanupOldMessages.
  replace (_ <? _)%N with false by (symmetry; apply N.ltb_ge; exact H).
  reflexivity.
Qed.

(** ** The reconnection controller *)

(** X17: the version with the channel check: while the channel is ready,
    [shouldAttemptReconnection] answers false and neither scheduling,
    nor an attempt, nor a broker event changes anything. *)
Lemma first_version_idle_while_ready env s :
  RabbitMQService.isChannelReady (rabbit s) = true ->
  ReconnectionService.shouldAttemptReconnection env s = (Ok false, s) /\
  ReconnectionService.scheduleReconnection env s = (Ok tt, s) /\
  ReconnectionService.attemptReconnection env s = (Ok tt, s) /\
  ReconnectionService.handleBrokerEvent env s = (Ok tt, s).
Proof.
  intros Hready.
  assert (H : ReconnectionService.shouldAttemptReconnection env s = (Ok false, s)).
  { unfold ReconnectionService.shouldAttemptReconnection. msimpl.
    destruct (rc_shuttingDown (reconnection s)); [reflexivity|].
    destruct (isReconnecting (reconnection s)); [reflexivity|].
    now rewrite Hready. }
  split; [exact H|].
  unfold ReconnectionService.scheduleReconnection, ReconnectionService.attemptReconnection,
    ReconnectionService.handleBrokerEvent, ReconnectionCommon.handleBrokerEvent,
    ReconnectionCommon.scheduleReconnection, ReconnectionCommon.attemptReconnection.
  repeat split.
  - rewrite (bind_ok _ _ _ _ _ H). reflexivity.
  - rewrite (bind_ok _ _ _ _ _ H). reflexivity.
  - msimpl. destruct (rc_shuttingDown (reconnection s)); [reflexivity|].
    cbn [negb].
    change (ReconnectionCommon.scheduleReconnection
              ReconnectionService.shouldAttemptReconnection env s = (Ok tt, s)).
    unfold ReconnectionCommon.scheduleReconnection.
    rewrite (bind_ok _ _ _ _ _ H). reflexivity.
Qed.

(** The first version refuses while the channel is ready. *)
Lemma shouldAttemptReconnection_ready env s :
  RabbitMQService.isChannelReady (rabbit s) = true ->
  ReconnectionService.shouldAttemptReconnection env s = (Ok false, s).
Proof.
  intros Hready. unfold ReconnectionService.shouldAttemptReconnection. msimpl.
  destruct (rc_shuttingDown (reconnection s)); [reflexivity|].
  destruct (isReconnecting (reconnection s)); [reflexivity|].
  now rewrite Hready.
Qed.

(** C6: the controller that the application loads (the first class of
    ReconnectionService.js, required by app.js).  Whenever the channel
    is ready, [shouldAttemptReconnection] answers false, and no
    operation of the controller schedules or starts a reconnection:
    scheduling, an attempt (also the one of a timer armed earlier), a
    forced reconnection and every broker event return normally, leave
    the broker client untouched (no cleanup, no connect), emit nothing
    (no [reconnectionStarted]), keep the attempt counter and the
    [isReconnecting] flag, and arm no timer: the timer field is what
    it was, or cleared by the forced reconnection. *)
Theorem no_reconnection_while_channel_ready env s (op : Env -> M unit) :
  RabbitMQService.isChannelReady (rabbit s) = true ->
  In op (controllerOperations ReconnectionService.shouldAttemptReconnection) ->
  ReconnectionService.shouldAttemptReconnection env s = (Ok false, s) /\
  fst (op env s) = Ok tt /\
  rabbit (snd (op env s)) = rabbit s /\
  rc_emitted (reconnection (snd (op env s))) = rc_emitted (reconnection s) /\
  reconnectAttempts (reconnection (snd (op env s))) = reconnectAttempts (reconnection s) /\
  isReconnecting (reconnection (snd (op env s))) = isReconnecting (reconnection s) /\
  lastReconnectTime (reconnection (snd (op env s))) = lastReconnectTime (reconnection s) /\
  (reconnectTimeout (reconnection (snd (op env s))) = reconnectTimeout (reconnection s) \/
   reconnectTimeout (reconnection (snd (op env s))) = None).
Proof.
  intros Hready Hop.
  pose proof (shouldAttemptReconnection_ready env s Hready) as H.
  split; [exact H|].
  assert (Hschedule : ReconnectionCommon.scheduleReconnection
                        ReconnectionService.shouldAttemptReconnection env s = (Ok tt, s)).
  { unfold ReconnectionCommon.scheduleReconnection.
    rewrite (bind_ok _ _ _ _ _ H). reflexivity. }
  assert (Hattempt : forall s1,
            RabbitMQService.isChannelReady (rabbit s1) = true ->
            ReconnectionCommon.attemptReconnection
              ReconnectionService.shouldAttemptReconnection env s1 = (Ok tt, s1)).
  { intros s1 H1. unfold ReconnectionCommon.attemptReconnection.
    rewrite (bind_ok _ _ _ _ _ (shouldAttemptReconnection_ready env s1 H1)). reflexivity. }
  destruct Hop as [<-|[<-|[<-|[<-|[]]]]].
  - rewrite Hschedule. repeat split. now left.
  - rewrite (Hattempt s Hready). repeat split. now left.
  - unfold ReconnectionCommon.forceReconnection, ReconnectionCommon.setTimer. msimpl.
    rewrite Hattempt by exact Hready. repeat split. now right.
  - unfold ReconnectionCommon.handleBrokerEvent. msimpl.
    destruct (rc_shuttingDown (reconnection s)); cbn [negb].
    + repeat split. now left.
    + rewrite Hschedule. repeat split. now left.
Qed.

Lemma no_reconnection_while_channel_ready_witness :
  ReconnectionService.shouldAttemptReconnection Sample.env200 Sample.sys0
  = (Ok false, Sample.sys0) /\
  fst (ReconnectionService.forceReconnection Sample.env200 Sample.sys0) = Ok tt /\
  rabbit (snd (ReconnectionService.forceReconnection Sample.env200 Sample.sys0))
  = rabbit Sample.sys0 /\
  rc_emitted (reconnection (snd (ReconnectionService.forceReconnection Sample.env200
                                   Sample.sys0))) = [].
Proof.
  destruct (no_reconnection_while_channel_ready Sample.env200 Sample.sys0
              ReconnectionService.forceReconnection)
    as (H1 & H2 & H3 & H4 & _).
  - reflexivity.
  - right. right. left. reflexivity.
  - split; [exact H1|]. split; [exact H2|]. split; [exact H3 | exact H4].
Defined.

(** The second class in ReconnectionService.js, which no module
    requires, has no channel check.  With the channel ready, and the
    controller neither shutting down nor reconnecting, past the
    debounce window and below the attempt limit, its
    [shouldAttemptReconnection] answers true, a broker event arms the
    timer and an attempt is started. *)
Lemma second_version_reconnects_while_ready env s :
  RabbitMQService.isChannelReady (rabbit s) = true ->
  rc_shuttingDown (reconnection s) = false ->
  isReconnecting (reconnection s) = false ->
  debounceMs (reconnection s) <= now env - lastReconnectTime (reconnection s) ->
  reconnectAttempts (reconnection s) < maxAttempts (reconnection s) ->
  ReconnectionService2.shouldAttemptReconnection env s = (Ok true, s) /\
  reconnectTimeout (reconnection (snd (ReconnectionService2.handleBrokerEvent env s)))
  = Some (helpers.calculateBackoffDelay (reconnectAttempts (reconnection s) + 1)) /\
  In (reconnectionStarted (reconnectAttempts (reconnection s) + 1))
     (rc_emitted (reconnection (snd (ReconnectionService2.attemptReconnection env s)))).
Proof.
  intros Hready Hdown Hrec Hdeb Hmax.
  assert (H : ReconnectionService2.shouldAttemptReconnection env s = (Ok true, s)).
  { unfold ReconnectionService2.shouldAttemptReconnection,
      ReconnectionCommon.debounceAndLimit. msimpl.
    rewrite Hdown, Hrec.
    replace (_ <? _) with false by (symmetry; apply Z.ltb_ge; lia).
    replace (_ <=? _) with false by (symmetry; apply Z.leb_gt; lia).
    reflexivity. }
  split; [exact H|]. split.
  - unfold ReconnectionService2.handleBrokerEvent, ReconnectionCommon.handleBrokerEvent,
      ReconnectionCommon.scheduleReconnection.
    unfold bind at 1, gets at 1. rewrite Hdown. cbn [negb].
    rewrite (bind_ok _ _ _ _ _ H). reflexivity.
  - unfold ReconnectionService2.attemptReconnection, ReconnectionCommon.attemptReconnection.
    rewrite (bind_ok _ _ _ _ _ H). cbn [negb].
    unfold ReconnectionCommon.beginAttempt, ReconnectionCommon.emit,
      ReconnectionCommon.scheduleReconnection, ReconnectionCommon.setReconnecting,
      ReconnectionCommon.resetReconnectionState, RabbitMQService.cleanup,
      RabbitMQService.connect, RabbitMQService.emit,
      ReconnectionService2.shouldAttemptReconnection.
    msimpl. cbn [reconnection set_reconnection set_rabbit rc_shuttingDown isReconnecting].
    rewrite Hdown.
    destruct (connectFails env); cbn; rewrite ?Hdown; cbn;
      rewrite !in_app_iff; simpl; tauto.
Qed.

Example second_version_on_a_ready_channel :
  ReconnectionService2.shouldAttemptReconnection Sample.env200 Sample.sys0
  = (Ok true, Sample.sys0).
Proof. reflexivity. Qed.

(** On the same state the first version stays idle. *)
Example first_version_on_the_same_state :
  ReconnectionService.shouldAttemptReconnection Sample.env200 Sample.sys0
  = (Ok false, Sample.sys0).
Proof. reflexivity. Qed.

(** ** The persistence store *)

Section Store.
Variable q : string.

Lemma preserves_keeps_unless {A} (C : Prop) (c : M A) :
  preserves (stored q) c -> keeps_unless q C c.
Proof. intros H s Hs. left. now apply H. Qed.

Lemma keeps_unless_weaken {A} (C C' : Prop) (c : M A) :
  (C -> C') -> keeps_unless q C c -> keeps_unless q C' c.
Proof. intros HC H s Hs. destruct (H s Hs); [now left | right; auto]. Qed.

(** The continuation may use that its argument was returned by [c]. *)
Lemma keeps_unless_bind {A B} (C : Prop) (c : M A) (k : A -> M B) :
  keeps_unless q C c ->
  (forall a, (exists s0 s1, c s0 = (Ok a, s1)) -> keeps_unless q C (k a)) ->
  keeps_unless q C (bind c k).
Proof.
  intros Hc Hk s Hs. unfold bind. specialize (Hc s Hs).
  destruct (c s) as [[a|t] s'] eqn:E; simpl in *.
  - destruct Hc as [Hc|Hc]; [|now right]. apply (Hk a); eauto.
  - exact Hc.
Qed.

(** The handler may use that its argument was thrown by [c]. *)
Lemma keeps_unless_try_catch {A} (C : Prop) (c : M A) (h : Thrown -> M A) :
  keeps_unless q C c ->
  (forall t, (exists s0 s1, c s0 = (Throw t, s1)) -> keeps_unless q C (h t)) ->
  keeps_unless q C (try_catch c h).
Proof.
  intros Hc Hh s Hs. unfold try_catch. specialize (Hc s Hs).
  destruct (c s) as [[a|t] s'] eqn:E; simpl in *.
  - exact Hc.
  - destruct Hc as [Hc|Hc]; [|now right]. apply (Hh t); eauto.
Qed.

Lemma keeps_unless_for_each {A} (C : Prop) (xs : list A) (body : A -> M unit) :
  (forall x, In x xs -> keeps_unless q C (body x)) ->
  keeps_unless q C (for_each xs body).
Proof.
  induction xs as [|x xs IH]; intros H; simpl.
  - apply preserves_keeps_unless, preserves_ret.
  - apply keeps_unless_bind; [apply H; now left|].
    intros _ _. apply IH. intros y Hy. apply H. now right.
Qed.

Lemma bind_ret_throws {A B} (c : M A) (b : B) t s0 s1 :
  (c ;;; ret b) s0 = (Throw t, s1) -> c s0 = (Throw t, s1).
Proof.
  unfold bind, ret. destruct (c s0) as [[a|t'] s']; intros H; [discriminate | congruence].
Qed.

(** *** Operations of the store *)

Lemma stored_insert x cfg s :
  stored q s ->
  stored q (set_persistence
              (fun p => mkPersistence (isReady p) (<[x := cfg]> (queues p))) s).
Proof.
  unfold stored. simpl. intros H.
  destruct (decide (x = q)) as [->|Hne].
  - rewrite lookup_insert_eq. eauto.
  - now rewrite lookup_insert_ne.
Qed.

Lemma stored_delete_ne x s :
  x <> q ->
  stored q s ->
  stored q (set_persistence (fun p => mkPersistence (isReady p) (delete x (queues p))) s).
Proof. unfold stored. simpl. intros Hne H. now rewrite lookup_delete_ne. Qed.

Lemma stored_setProperty x cfg s :
  stored q s ->
  stored q (set_persistence
              (fun p => mkPersistence (isReady p) (Js.setProperty x cfg (queues p))) s).
Proof.
  intros H. pose proof (stored_insert x cfg s H) as Hi.
  unfold stored in *. simpl in *. unfold Js.setProperty.
  destruct (_ && _); assumption.
Qed.

Lemma preserves_saveQueueConfig env x cfg :
  preserves (stored q) (PersistenceService.saveQueueConfig env x cfg).
Proof.
  unfold PersistenceService.saveQueueConfig, PersistenceService.setQueues.
  preserves_with ltac:(first [assumption | apply stored_setProperty; assumption]).
Qed.

Lemma preserves_loadQueueConfigs env :
  preserves (stored q) (PersistenceService.loadQueueConfigs env).
Proof. unfold PersistenceService.loadQueueConfigs. preserves_with assumption. Qed.

(** The guarded removal used by the engine removes the entry of its
    argument and no other. *)
Lemma keeps_unless_removeFromPersistence env x :
  keeps_unless q (x = q) (ConsumerService.removeFromPersistence env x).
Proof.
  destruct (decide (x = q)) as [Heq|Hne]; [intros s _; now right|].
  apply preserves_keeps_unless.
  unfold ConsumerService.removeFromPersistence, PersistenceService.removeQueueConfig,
    PersistenceService.setQueues.
  preserves_with ltac:(first [assumption | apply stored_delete_ne; assumption]).
Qed.

Lemma keeps_unless_removeQueueConfig env x :
  keeps_unless q (x = q) (PersistenceService.removeQueueConfig env x).
Proof.
  destruct (decide (x = q)) as [Heq|Hne]; [intros s _; now right|].
  apply preserves_keeps_unless.
  unfold PersistenceService.removeQueueConfig, PersistenceService.setQueues.
  preserves_with ltac:(first [assumption | apply stored_delete_ne; assumption]).
Qed.

(** *** Operations that never write the store *)

Lemma preserves_ackMessage_store env msg :
  preserves (stored q) (RabbitMQService.ackMessage env msg).
Proof. apply frame_ackMessage. now intros. Qed.

Lemma preserves_nackMessage_store env msg a r :
  preserves (stored q) (RabbitMQService.nackMessage env msg a r).
Proof. apply frame_nackMessage. now intros. Qed.

Lemma preserves_rabbit_emit_store ev : preserves (stored q) (RabbitMQService.emit ev).
Proof. apply frame_rabbit_emit. now intros. Qed.

Lemma preserves_checkQueue env x : preserves (stored q) (RabbitMQService.checkQueue env x).
Proof. apply frame_checkQueue. now intros. Qed.

Lemma preserves_createConsumer env x :
  preserves (stored q) (RabbitMQService.createConsumer env x).
Proof. apply frame_createConsumer. now intros. Qed.

Lemma preserves_cancelConsumer env x :
  preserves (stored q) (RabbitMQService.cancelConsumer env x).
Proof. apply frame_cancelConsumer. now intros. Qed.

Lemma preserves_notifyQueueFinish_store env :
  preserves (stored q) (WebhookService.notifyQueueFinish env).
Proof. apply frame_notifyQueueFinish. now intros. Qed.

Lemma preserves_processMessage_store env msg qc :
  preserves (stored q) (MessageProcessor.processMessage env msg qc).
Proof. apply frame_processMessage; now intros. Qed.

Lemma preserves_emit_store env ev : preserves (stored q) (ConsumerService.emit env ev).
Proof. unfold ConsumerService.emit. preserves_with assumption. Qed.

Lemma preserves_setActive_store f : preserves (stored q) (ConsumerService.setActive f).
Proof. unfold ConsumerService.setActive. preserves_with assumption. Qed.

Lemma preserves_setIntervals_store f : preserves (stored q) (ConsumerService.setIntervals f).
Proof. unfold ConsumerService.setIntervals. preserves_with assumption. Qed.

End Store.

Ltac store_leaf :=
  first
    [ assumption
    | apply preserves_ret | apply preserves_throw | apply preserves_gets
    | apply preserves_modify; intros; assumption
    | apply preserves_ackMessage_store | apply preserves_nackMessage_store
    | apply preserves_rabbit_emit_store
    | apply preserves_checkQueue | apply preserves_createConsumer
    | apply preserves_cancelConsumer
    | apply preserves_notifyQueueFinish_store | apply preserves_processMessage_store
    | apply preserves_emit_store | apply preserves_setActive_store
    | apply preserves_setIntervals_store
    | apply preserves_saveQueueConfig | apply preserves_loadQueueConfigs ].

Ltac keeps_with tac :=
  repeat first
    [ solve [tac]
    | apply preserves_keeps_unless; solve [preserves_with store_leaf]
    | apply keeps_unless_bind; [|intros ? ?]
    | apply keeps_unless_try_catch; [|intros ? ?]
    | match goal with
      | |- keeps_unless _ _ (if ?b then _ else _) => destruct b eqn:?
      | |- keeps_unless _ _ (match ?x with _ => _ end) => destruct x eqn:?
      end ].

Section Engine.
Variable q : string.
Variable env : Env.

Lemma preserves_startConsuming x w mi ma bh :
  preserves (stored q) (ConsumerService.startConsuming env x w mi ma bh).
Proof. unfold ConsumerService.startConsuming. preserves_with store_leaf. Qed.

Lemma preserves_stopConsuming_other x reason :
  String.eqb reason "manual" = false ->
  preserves (stored q) (ConsumerService.stopConsuming env x reason).
Proof.
  intros H. unfold ConsumerService.stopConsuming. rewrite H.
  preserves_with store_leaf.
Qed.

Lemma keeps_unless_stopConsuming x reason :
  keeps_unless q (x = q /\ reason = "manual") (ConsumerService.stopConsuming env x reason).
Proof.
  destruct (String.eqb reason "manual") eqn:E.
  - apply String.eqb_eq in E.
    apply (keeps_unless_weaken q (x = q)); [intros ->; now split|].
    unfold ConsumerService.stopConsuming.
    keeps_with ltac:(apply keeps_unless_removeFromPersistence).
  - apply preserves_keeps_unless. now apply preserves_stopConsuming_other.
Qed.

Lemma preserves_pauseConsuming x :
  preserves (stored q) (ConsumerService.pauseConsuming env x).
Proof. unfold ConsumerService.pauseConsuming. preserves_with store_leaf. Qed.

Lemma preserves_resumeConsuming x :
  preserves (stored q) (ConsumerService.resumeConsuming env x).
Proof. unfold ConsumerService.resumeConsuming. preserves_with store_leaf. Qed.

(** A delivery that is not null never reaches the store. *)
Lemma preserves_handler_delivery x w mi ma bh m :
  preserves (stored q) (ConsumerService.createMessageHandler env x w mi ma bh (Some m)).
Proof.
  unfold ConsumerService.createMessageHandler, ConsumerService.afterProcessing.
  preserves_with store_leaf.
Qed.

(** The null delivery removes the entry of the handler's queue. *)
Lemma keeps_unless_handler_null x w mi ma bh :
  keeps_unless q (x = q) (ConsumerService.createMessageHandler env x w mi ma bh None).
Proof.
  unfold ConsumerService.createMessageHandler.
  keeps_with ltac:(apply keeps_unless_removeFromPersistence).
Qed.

Lemma keeps_unless_handleExternallyDeletedQueue x :
  keeps_unless q (x = q) (ConsumerService.handleExternallyDeletedQueue env x).
Proof.
  unfold ConsumerService.handleExternallyDeletedQueue.
  keeps_with ltac:(apply keeps_unless_removeFromPersistence).
Qed.

Lemma keeps_unless_healthLoop activeQueues :
  keeps_unless q (probeNotFound env q) (ConsumerService.healthLoop env activeQueues).
Proof.
  induction activeQueues as [|x rest IH]; simpl.
  - apply preserves_keeps_unless, preserves_ret.
  - apply keeps_unless_bind.
    + apply keeps_unless_try_catch.
      * apply preserves_keeps_unless. preserves_with store_leaf.
      * intros t [s0 [s1 Hthrow]]. apply bind_ret_throws in Hthrow.
        destruct (ConsumerService.isNotFound t) eqn:E.
        -- apply keeps_unless_bind; [|intros; apply preserves_keeps_unless, preserves_ret].
           apply (keeps_unless_weaken q (x = q)).
           ++ intros ->. now exists t, s0, s1.
           ++ apply keeps_unless_handleExternallyDeletedQueue.
        -- apply preserves_keeps_unless. unfold RabbitMQService.emit.
           preserves_with store_leaf.
    + intros stop _. destruct stop; [apply preserves_keeps_unless, preserves_ret | exact IH].
Qed.

Lemma keeps_unless_healthCheck :
  keeps_unless q (probeNotFound env q) (ConsumerService.healthCheck env).
Proof.
  unfold ConsumerService.healthCheck, RabbitMQService.emit.
  keeps_with ltac:(apply keeps_unless_healthLoop).
Qed.

Lemma preserves_reestablishBody x cfg :
  preserves (stored q) (ConsumerService.reestablishBody env x cfg).
Proof.
  unfold ConsumerService.reestablishBody.
  preserves_with ltac:(first [apply preserves_startConsuming | store_leaf]).
Qed.

Lemma keeps_unless_reestablish entry :
  keeps_unless q (reestablishNotFound env q) (ConsumerService.reestablish env entry).
Proof.
  unfold ConsumerService.reestablish.
  apply keeps_unless_try_catch.
  - apply preserves_keeps_unless, preserves_reestablishBody.
  - intros t [s0 [s1 Hthrow]].
    destruct (Js.includes "does not exist" (ConsumerService.message_of t)) eqn:E.
    + apply (keeps_unless_weaken q (fst entry = q)).
      * intros <-. now exists (snd entry), t, s0, s1.
      * apply keeps_unless_removeFromPersistence.
    + apply preserves_keeps_unless, preserves_ret.
Qed.

Lemma keeps_unless_handleReconnectionSuccess :
  keeps_unless q (reestablishNotFound env q) (ConsumerService.handleReconnectionSuccess env).
Proof.
  unfold ConsumerService.handleReconnectionSuccess.
  keeps_with ltac:(first
    [ apply keeps_unless_for_each; intros; apply keeps_unless_reestablish ]).
Qed.

(** Every name the restore loop marks for removal failed to start with
    a not-found error. *)
Lemma restoreOne_marks entry s l s' :
  ConsumerService.restoreOne env entry s = (Ok l, s') ->
  forall x, In x l -> restoreNotFound env x.
Proof.
  unfold ConsumerService.restoreOne. unfold bind at 1, gets at 1.
  destruct (bool_decide _).
  - intros [= <- _] x [].
  - unfold try_catch, bind.
    destruct (ConsumerService.startConsuming env (fst entry) (pc_webhook (snd entry))
                (pc_minInterval (snd entry)) (pc_maxInterval (snd entry))
                (pc_businessHours (snd entry)) s) as [[a|t] s1] eqn:E.
    + intros [= <- _] x [].
    + unfold ret. destruct (ConsumerService.isNotFound t) eqn:Ht.
      * intros [= <- _] x [<-|[]]. now exists (snd entry), t, s, s1.
      * intros [= <- _] x [].
Qed.

Lemma restoreLoop_marks entries :
  forall s l s',
    ConsumerService.restoreLoop env entries s = (Ok l, s') ->
    forall x, In x l -> restoreNotFound env x.
Proof.
  induction entries as [|entry rest IH]; intros s l s'; simpl.
  - intros [= <- _] x [].
  - unfold bind at 1.
    destruct (ConsumerService.restoreOne env entry s) as [[r|t] s1] eqn:E1; [|discriminate].
    unfold bind at 1.
    destruct (ConsumerService.restoreLoop env rest s1) as [[rs|t] s2] eqn:E2; [|discriminate].
    intros [= <- _] x Hx. apply in_app_or in Hx. destruct Hx as [Hx|Hx].
    + exact (restoreOne_marks _ _ _ _ E1 x Hx).
    + exact (IH _ _ _ E2 x Hx).
Qed.

Lemma preserves_restoreLoop entries :
  preserves (stored q) (ConsumerService.restoreLoop env entries).
Proof.
  induction entries as [|entry rest IH]; simpl.
  - apply preserves_ret.
  - unfold ConsumerService.restoreOne.
    preserves_with ltac:(first [apply preserves_startConsuming | apply IH | store_leaf]).
Qed.

Lemma keeps_unless_restorePersistedQueues :
  keeps_unless q (restoreNotFound env q) (ConsumerService.restorePersistedQueues env).
Proof.
  unfold ConsumerService.restorePersistedQueues.
  apply keeps_unless_try_catch; [|intros; apply preserves_keeps_unless, preserves_ret].
  apply keeps_unless_bind; [apply preserves_keeps_unless, preserves_loadQueueConfigs|].
  intros saved _. destruct (map_to_list saved) as [|entry entries].
  - apply preserves_keeps_unless, preserves_ret.
  - apply keeps_unless_bind; [apply preserves_keeps_unless, preserves_restoreLoop|].
    intros toRemove [s0 [s1 Hloop]].
    apply keeps_unless_bind; [|intros; apply preserves_keeps_unless, preserves_emit_store].
    apply keeps_unless_for_each. intros x Hx.
    apply (keeps_unless_weaken q (x = q)); [|apply keeps_unless_removeFromPersistence].
    intros <-. exact (restoreLoop_marks _ _ _ _ Hloop x Hx).
Qed.

Lemma preserves_shutdown : preserves (stored q) (ConsumerService.shutdown env).
Proof.
  unfold ConsumerService.shutdown, ConsumerService.setShuttingDown,
    ConsumerService.stopForShutdown.
  preserves_with ltac:(first
    [ apply preserves_stopConsuming_other; reflexivity | store_leaf ]).
Qed.

(** The [consumerCancelled] event removes the entry of the queue whose
    consumer carries the tag. *)
Lemma handleConsumerCancelled_store tag s :
  stored q s ->
  stored q (snd (ConsumerService.handleConsumerCancelled env tag s)) \/
  exists c, activeConsumers (consumer s) !! q = Some c /\ consumerTag c = tag.
Proof.
  intros Hs. unfold ConsumerService.handleConsumerCancelled.
  unfold bind at 1, gets at 1.
  destruct (find _ _) as [[x c]|] eqn:F; [|now left].
  apply find_some in F. destruct F as [Hin Htag]. simpl in Htag.
  apply String.eqb_eq in Htag.
  assert (Hk : keeps_unless q (x = q)
                 (try_catch (WebhookService.notifyQueueFinish env) (fun _ => ret tt) ;;;
                  ConsumerService.setActive (delete x) ;;;
                  ConsumerService.setIntervals (delete x) ;;;
                  ConsumerService.removeFromPersistence env x ;;;
                  ConsumerService.emit env (consumerCancelled x))).
  { keeps_with ltac:(apply keeps_unless_removeFromPersistence). }
  destruct (Hk s Hs) as [H|H]; [now left|right].
  subst x. exists c. split; [|exact Htag].
  apply elem_of_map_to_list. now apply list_elem_of_In.
Qed.

(** *** The control plane *)

Lemma preserves_api_stop x : preserves (stored q) (QueueController.stopConsuming env x).
Proof.
  unfold QueueController.stopConsuming, QueueController.respond.
  preserves_with ltac:(first
    [ apply preserves_stopConsuming_other; reflexivity | store_leaf ]).
Qed.

Lemma preserves_api_pause x : preserves (stored q) (QueueController.pauseConsuming env x).
Proof.
  unfold QueueController.pauseConsuming, QueueController.respond.
  preserves_with ltac:(first [apply preserves_pauseConsuming | store_leaf]).
Qed.

Lemma preserves_api_resume x : preserves (stored q) (QueueController.resumeConsuming env x).
Proof.
  unfold QueueController.resumeConsuming, QueueController.respond.
  preserves_with ltac:(first [apply preserves_resumeConsuming | store_leaf]).
Qed.

Lemma keeps_unless_cleanupOne x :
  keeps_unless q (probeNotFound env q) (QueueController.cleanupOne env x).
Proof.
  unfold QueueController.cleanupOne.
  apply keeps_unless_bind.
  - apply preserves_keeps_unless. preserves_with store_leaf.
  - intros queueExists [s0 [s1 Hprobe]]. destruct queueExists; simpl.
    + apply preserves_keeps_unless, preserves_ret.
    + apply (keeps_unless_weaken q (x = q)); [|apply keeps_unless_removeFromPersistence].
      intros <-. unfold try_catch in Hprobe.
      destruct ((RabbitMQService.checkQueue env x ;;; ret true) s0) as [[b|t] s2] eqn:E.
      * unfold bind, ret in E.
        destruct (RabbitMQService.checkQueue env x s0) as [[u|t] s3]; congruence.
      * apply bind_ret_throws in E. exists t, s0, s2. split; [exact E|].
        unfold ret in Hprobe. injection Hprobe as Hb _.
        now destruct (ConsumerService.isNotFound t).
Qed.

Lemma keeps_unless_cleanupOrphanedConfigs :
  keeps_unless q (probeNotFound env q) (QueueController.cleanupOrphanedConfigs env).
Proof.
  unfold QueueController.cleanupOrphanedConfigs, QueueController.respond.
  keeps_with ltac:(first
    [ apply keeps_unless_for_each; intros; apply keeps_unless_cleanupOne ]).
Qed.

Lemma keeps_unless_removePersistedQueue x :
  keeps_unless q (x = q) (QueueController.removePersistedQueue env x).
Proof.
  unfold QueueController.removePersistedQueue, QueueController.respond,
    PersistenceService.loadQueueConfig.
  keeps_with ltac:(apply keeps_unless_removeQueueConfig).
Qed.

Lemma keeps_unless_restoreFromBackup :
  keeps_unless q (exists qs, backup env = Some qs /\ qs !! q = None)
    (QueueController.restoreFromBackup env).
Proof.
  intros s Hs.
  unfold QueueController.restoreFromBackup, QueueController.respond,
    PersistenceService.restoreFromBackup, PersistenceService.setQueues.
  msimpl. destruct (backup env) as [qs|] eqn:E; [|now left].
  simpl. destruct (qs !! q) as [cfg|] eqn:Eq.
  - left. unfold stored. simpl. rewrite Eq. eauto.
  - right. now exists qs.
Qed.

End Engine.

Lemma keeps_unless_ignore {A} q (C : Prop) (c : M A) :
  keeps_unless q C c -> keeps_unless q C (ignore c).
Proof.
  intros H. unfold ignore. apply keeps_unless_bind; [exact H|].
  intros. apply preserves_keeps_unless, preserves_ret.
Qed.

Lemma keeps_unless_removed {A} q (C : Prop) (c : M A) s :
  keeps_unless q C c -> stored q s -> ~ stored q (snd (c s)) -> C.
Proof. intros H Hs Hn. destruct (H s Hs); [contradiction | assumption]. Qed.

Lemma keeps_unless_ignore_start q env x w mi ma bh s :
  stored q s ->
  stored q (snd (ignore (ConsumerService.startConsuming env x w mi ma bh) s)).
Proof.
  intros Hs.
  destruct (keeps_unless_ignore q False _
              (preserves_keeps_unless q _ _ (preserves_startConsuming q env x w mi ma bh))
              s Hs); [assumption | contradiction].
Qed.

(** C5, as the code has it: a transition removes the stored
    configuration of [q] only when it is a stop of [q] with reason
    [manual], the handling of an external deletion of [q] (directly,
    or in the health check, the restore or the re-establish loop after
    a not-found error for [q]), a cancellation of the consumer of [q]
    (the null delivery to its handler or the [consumerCancelled] event
    with its tag), clear-configs, a cleanup-orphans probe of [q] that
    is not found, the DELETE of the entry of [q], or restore-backup
    from a backup without [q].  Every other transition keeps it: starts,
    deliveries, pause and resume, stops with any other reason (such as
    [queue_empty] or [shutdown]) and shutdown. *)
Theorem stored_config_removed_only_by env (t : Transition) (s : Sys) (q : string) :
  stored q s -> ~ stored q (after env t s) -> removalCause env s t q.
Proof.
  intros Hs Hn. unfold after in Hn.
  destruct t as [x w mi ma bh | x w mi ma bh [m|] | tag | x reason | x | x
                 | | x | | | | | | x | ]; simpl in *.
  - elim Hn. now apply keeps_unless_ignore_start.
  - elim Hn. now apply preserves_handler_delivery.
  - exact (keeps_unless_removed q _ _ s (keeps_unless_handler_null q env x w mi ma bh) Hs Hn).
  - destruct (handleConsumerCancelled_store q env tag s Hs); [contradiction | assumption].
  - exact (keeps_unless_removed q _ _ s
             (keeps_unless_ignore q _ _ (keeps_unless_stopConsuming q env x reason)) Hs Hn).
  - exact (keeps_unless_removed q False _ s
             (keeps_unless_ignore q _ _
                (preserves_keeps_unless q _ _ (preserves_api_pause q env x))) Hs Hn).
  - exact (keeps_unless_removed q False _ s
             (keeps_unless_ignore q _ _
                (preserves_keeps_unless q _ _ (preserves_api_resume q env x))) Hs Hn).
  - exact (keeps_unless_removed q _ _ s (keeps_unless_healthCheck q env) Hs Hn).
  - exact (keeps_unless_removed q _ _ s
             (keeps_unless_handleExternallyDeletedQueue q env x) Hs Hn).
  - exact (keeps_unless_removed q _ _ s (keeps_unless_handleReconnectionSuccess q env) Hs Hn).
  - exact (keeps_unless_removed q _ _ s (keeps_unless_restorePersistedQueues q env) Hs Hn).
  - elim Hn. now apply preserves_shutdown.
  - exact I.
  - exact (keeps_unless_removed q _ _ s
             (keeps_unless_ignore q _ _ (keeps_unless_cleanupOrphanedConfigs q env)) Hs Hn).
  - exact (keeps_unless_removed q _ _ s
             (keeps_unless_ignore q _ _ (keeps_unless_removePersistedQueue q env x)) Hs Hn).
  - exact (keeps_unless_removed q _ _ s
             (keeps_unless_ignore q _ _ (keeps_unless_restoreFromBackup q env)) Hs Hn).
Qed.

(** The null delivery (the broker cancelled the consumer) removes the
    stored configuration, although it is none of the causes the
    specification lists. *)
Lemma null_delivery_removes_stored_config :
  ~ (forall env t s q,
       stored q s -> ~ stored q (after env t s) -> listedCause env s t q).
Proof.
  intros H.
  apply (H Sample.env200
           (Delivery "orders" "https://example.com/hook" 30000 110000
                     (Some (mkHours 8 21)) None)
           Sample.sysOrders "orders").
  - vm_compute. eauto.
  - intros [cfg Hcfg]. vm_compute in Hcfg. discriminate Hcfg.
Qed.

(** The same happens on the [consumerCancelled] event of the broker
    client. *)
Example consumerCancelled_event_removes_stored_config :
  queues (persistence (after Sample.env200 (ConsumerCancelledEvent "ctag-orders")
                         Sample.sysOrders)) !! "orders" = None.
Proof. vm_compute. reflexivity. Qed.

(** A stop with another reason keeps the entry. *)
Example queue_empty_stop_keeps_stored_config :
  queues (persistence (after Sample.env200 (StopConsuming "orders" "queue_empty")
                         Sample.sysOrders)) !! "orders"
  = Some Sample.ordersPersisted
  /\ activeConsumers (consumer (after Sample.env200 (StopConsuming "orders" "queue_empty")
                                  Sample.sysOrders)) !! "orders" = None.
Proof. vm_compute. split; reflexivity. Qed.

Lemma stored_config_removed_only_by_witness :
  removalCause Sample.env200 Sample.sysOrders (StopConsuming "orders" "manual") "orders".
Proof.
  apply (stored_config_removed_only_by Sample.env200 (StopConsuming "orders" "manual")
           Sample.sysOrders "orders").
  - vm_compute. eauto.
  - intros [cfg Hcfg]. vm_compute in Hcfg. discriminate Hcfg.
Defined.

(** ** Scenarios *)

(** A delivery whose webhook answers 200: acked, counted as processed,
    fingerprint remembered. *)
Example happy_path :
  let r := MessageProcessor.processMessage Sample.env200 (Some Sample.msg1)
             Sample.orders Sample.sys0 in
  option_map action (match fst r with Ok d => Some d | Throw _ => None end) = Some ack /\
  option_map reason (match fst r with Ok d => Some d | Throw _ => None end) = Some "success" /\
  mp_processed (stats (snd r)) = 1 /\
  processedMessages (dedup (snd r)) = ["1_eyB9"] /\
  brokerLog (rabbit (snd r)) = [OpAck Sample.msg1].
Proof. vm_compute. repeat split; reflexivity. Qed.

(** The same delivery again: skipped, no call on the channel. *)
Example duplicate_suppression :
  let s1 := snd (MessageProcessor.processMessage Sample.env200 (Some Sample.msg1)
                   Sample.orders Sample.sys0) in
  let r := MessageProcessor.processMessage Sample.env200 (Some Sample.msg1)
             Sample.orders s1 in
  fst r = Ok (disposition skip "duplicate") /\
  mp_duplicates (stats (snd r)) = 1 /\
  mp_skipped (stats (snd r)) = 1 /\
  brokerLog (rabbit (snd r)) = [OpAck Sample.msg1].
Proof. vm_compute. repeat split; reflexivity. Qed.

(** A timeout under [checkQueue] reaches the classifier and asks for a
    reconnection. *)
Example classifier_timeout :
  RabbitMQService._shouldTriggerReconnection SampleBroker.timedOut = true.
Proof. reflexivity. Qed.

(** * Further properties of the services *)

(** ** Fingerprints *)

Lemma bytes_of_app p x : Js.bytes_of (p +:+ x) = List.app (Js.bytes_of p) (Js.bytes_of x).
Proof.
  unfold Js.bytes_of. induction p as [|c p IH]; [reflexivity|].
  simpl. now rewrite IH.
Qed.

Lemma substring_0_0 s : String.substring 0 0 s = "".
Proof. now destruct s. Qed.

(** X1: the fingerprint of a delivery reads the first fifteen bytes of
    the payload only (twenty base64 characters): two deliveries with
    the same delivery tag whose payloads agree on their first fifteen
    characters have the same fingerprint, whatever follows. *)
Theorem fingerprint_ignores_payload_after_15_bytes (tag : N) (p x y : string) :
  String.length p = 15%nat ->
  helpers.generateMessageId (mkMessage tag (p +:+ x))
  = helpers.generateMessageId (mkMessage tag (p +:+ y)).
Proof.
  intros Hlen. unfold helpers.generateMessageId, Js.base64. cbn [content deliveryTag].
  rewrite !bytes_of_app.
  do 15 (destruct p as [|? p]; [discriminate Hlen|]).
  destruct p; [|discriminate Hlen].
  cbn [Js.bytes_of list_ascii_of_string map List.app Js.base64_bytes Js.slice0
       config.deduplication_messageIdTruncateLength String.substring].
  now rewrite !substring_0_0.
Qed.

Lemma fingerprint_ignores_payload_after_15_bytes_witness :
  helpers.generateMessageId (mkMessage 7 ("0123456789abcde" +:+ "first"))
  = helpers.generateMessageId (mkMessage 7 ("0123456789abcde" +:+ "second")).
Proof.
  apply (fingerprint_ignores_payload_after_15_bytes 7 "0123456789abcde" "first" "second").
  reflexivity.
Defined.

Lemma pretty_N_char_no_underscore (n : N) : Ascii.eqb (pretty_N_char n) "_" = false.
Proof. unfold pretty_N_char. repeat case_match; reflexivity. Qed.

Lemma beforeUnderscore_pretty_N_go (x : N) :
  forall s r,
    beforeUnderscore (s +:+ String "_" r) = s ->
    beforeUnderscore (pretty_N_go x s +:+ String "_" r) = pretty_N_go x s.
Proof.
  induction (N.lt_wf_0 x) as [x _ IH]. intros s r Hs.
  assert (x = 0 \/ 0 < x)%N as [->|Hpos] by lia.
  - now rewrite pretty_N_go_0.
  - rewrite pretty_N_go_step by exact Hpos.
    apply IH; [now apply N.div_lt|].
    change (String ?c s +:+ ?t) with (String c (s +:+ t)).
    cbn [beforeUnderscore]. rewrite Hs.
    now rewrite pretty_N_char_no_underscore.
Qed.

(** The decimal text of a delivery tag holds no underscore. *)
Lemma beforeUnderscore_pretty (x : N) r :
  beforeUnderscore (pretty x +:+ String "_" r) = pretty x.
Proof.
  unfold pretty, pretty_N. destruct (decide (x = 0%N)); [reflexivity|].
  now apply beforeUnderscore_pretty_N_go.
Qed.

Lemma generateMessageId_tag (m1 m2 : Message) :
  helpers.generateMessageId m1 = helpers.generateMessageId m2 ->
  deliveryTag m1 = deliveryTag m2.
Proof.
  intros Heq. unfold helpers.generateMessageId in Heq.
  apply (f_equal beforeUnderscore) in Heq.
  change ("_" +:+ ?r) with (String "_" r) in Heq.
  rewrite !beforeUnderscore_pretty in Heq.
  now apply pretty_N_inj in Heq.
Qed.

Lemma has_set_add_ne x y l :
  x <> y ->
  DeduplicationService.has x (DeduplicationService.set_add y l) = DeduplicationService.has x l.
Proof.
  intros Hne. unfold DeduplicationService.set_add.
  destruct (DeduplicationService.has y l); [reflexivity|].
  unfold DeduplicationService.has. rewrite existsb_app. simpl.
  replace (String.eqb x y) with false by (symmetry; now apply String.eqb_neq).
  now rewrite !orb_false_r.
Qed.

(** X2: deliveries with different delivery tags have different
    fingerprints, whatever their payloads; so marking one delivery as
    processed never makes a delivery with another tag a duplicate, a
    redelivery of the same payload under a new tag included. *)
Theorem fingerprints_of_distinct_tags_differ (m1 m2 : Message) (d : Dedup) :
  deliveryTag m1 <> deliveryTag m2 ->
  helpers.generateMessageId m1 <> helpers.generateMessageId m2 /\
  DeduplicationService.isMessageProcessed (helpers.generateMessageId m2)
    (DeduplicationService.markMessageProcessed (helpers.generateMessageId m1) d)
  = DeduplicationService.isMessageProcessed (helpers.generateMessageId m2) d.
Proof.
  intros Hne.
  assert (Hids : helpers.generateMessageId m1 <> helpers.generateMessageId m2).
  { intros Heq. apply Hne. unfold helpers.generateMessageId in Heq.
    apply (f_equal beforeUnderscore) in Heq.
    change ("_" +:+ ?r) with (String "_" r) in Heq.
    rewrite !beforeUnderscore_pretty in Heq.
    now apply pretty_N_inj in Heq. }
  split; [exact Hids|].
  unfold DeduplicationService.isMessageProcessed.
  rewrite generateMessageId_nonempty.
  rewrite (processed_markMessageProcessed _ _ (generateMessageId_nonempty m1)).
  apply has_set_add_ne. intros Heq. now apply Hids.
Qed.

Lemma fingerprints_of_distinct_tags_differ_witness :
  helpers.generateMessageId Sample.msg1 <> helpers.generateMessageId Sample.msg2 /\
  DeduplicationService.isMessageProcessed (helpers.generateMessageId Sample.msg2)
    (DeduplicationService.markMessageProcessed (helpers.generateMessageId Sample.msg1)
       (dedup Sample.sys0))
  = DeduplicationService.isMessageProcessed (helpers.generateMessageId Sample.msg2)
      (dedup Sample.sys0).
Proof.
  apply (fingerprints_of_distinct_tags_differ Sample.msg1 Sample.msg2 (dedup Sample.sys0)).
  discriminate.
Defined.

(** ** Validation and backoff *)

Lemma isValid_nil errors : MessageProcessor.isValid errors = true -> errors = [].
Proof. now destruct errors. Qed.


(** An interval of [10^19] ms alone makes the configuration invalid. *)
Example validateQueueConfig_at_1e19 :
  MessageProcessor.validateQueueConfig Sample.env200 "orders" "https://example.com/hook"
    (Some (10 ^ 19)) None None
  = ["Minimum interval must be less than maximum interval"].
Proof. vm_compute. reflexivity. Qed.

(** A name of no-break spaces is blank to [trim]; a name that holds a
    letter is not. *)
Example isValidQueueName_unicode_space :
  helpers.isValidQueueName (String (ascii_of_N 194) (String (ascii_of_N 160) " ")) = false /\
  helpers.isValidQueueName (String (ascii_of_N 194) (String (ascii_of_N 160) "a")) = true.
Proof. split; reflexivity. Qed.

Example hours_0_to_23_miss_the_last_hour :
  MessageProcessor.validateQueueConfig Sample.env200 "orders" "https://example.com/hook"
    None None (Some (mkHours 0 23)) = [] /\
  helpers.isWithinBusinessHours 23 (Some (mkHours 0 23)) = false.
Proof. split; reflexivity. Qed.

(** X4: from the first attempt on, the reconnection delay lies between
    the base delay and the maximum delay, and it never decreases from
    one attempt to the next. *)
Theorem calculateBackoffDelay_bounds (attempt attempt' : Z) :
  1 <= attempt -> attempt <= attempt' ->
  (inject_Z config.reconnection_baseDelay <= helpers.calculateBackoffDelay attempt)%Q /\
  (helpers.calculateBackoffDelay attempt <= helpers.calculateBackoffDelay attempt')%Q /\
  (helpers.calculateBackoffDelay attempt' <= inject_Z config.reconnection_maxDelay)%Q.
Proof.
  intros H1 Hle. unfold helpers.calculateBackoffDelay.
  assert (Hq : (1 <= config.reconnection_backoffMultiplier)%Q) by (vm_compute; discriminate).
  split; [|split].
  - apply Q.min_glb; [|vm_compute; discriminate].
    rewrite <- (Qmult_1_r (inject_Z config.reconnection_baseDelay)) at 1.
    apply Qmult_le_l; [reflexivity|].
    apply Qpower_1_le; [exact Hq | lia].
  - apply Q.min_le_compat_r.
    apply Qmult_le_l; [reflexivity|].
    apply Qpower_le_compat_l; [lia | exact Hq].
  - apply Q.le_min_r.
Qed.

Lemma calculateBackoffDelay_bounds_witness :
  (inject_Z config.reconnection_baseDelay <= helpers.calculateBackoffDelay 1)%Q /\
  (helpers.calculateBackoffDelay 1 <= helpers.calculateBackoffDelay 10)%Q /\
  (helpers.calculateBackoffDelay 10 <= inject_Z config.reconnection_maxDelay)%Q.
Proof. apply (calculateBackoffDelay_bounds 1 10); lia. Defined.

Example calculateBackoffDelay_values :
  (helpers.calculateBackoffDelay 1 == 5000)%Q /\
  (helpers.calculateBackoffDelay 2 == 7500)%Q /\
  (helpers.calculateBackoffDelay 7 == 455625 # 8)%Q /\
  (helpers.calculateBackoffDelay 8 == 60000)%Q.
Proof. repeat split. Qed.

(** ** The processed set and the in-flight map *)

(** X6: a cleanup tick leaves at most [maxProcessedMessages]
    fingerprints; what it drops is the oldest part of the set, as many
    as exceed the bound, the newer ones being kept in order; the
    in-flight map is not touched, and a second tick changes nothing. *)
Theorem cleanupOldMessages_bounds_the_set (d : Dedup) :
  let d' := DeduplicationService.cleanupOldMessages d in
  (N.of_nat (length (processedMessages d')) <= maxProcessedMessages d)%N /\
  (exists oldest, processedMessages d = List.app oldest (processedMessages d') /\
     length oldest
     = (length (processedMessages d) - N.to_nat (maxProcessedMessages d))%nat) /\
  processingMessages d' = processingMessages d /\
  DeduplicationService.cleanupOldMessages d' = d'.
Proof.
  intros d'. subst d'. unfold DeduplicationService.cleanupOldMessages.
  destruct (N.ltb_spec (maxProcessedMessages d) (N.of_nat (length (processedMessages d))))
    as [Hlt|Hge].
  - cbn [processedMessages processingMessages maxProcessedMessages].
    rewrite length_drop.
    set (k := N.to_nat (N.of_nat (length (processedMessages d)) - maxProcessedMessages d)).
    assert (Hk : k = (length (processedMessages d) - N.to_nat (maxProcessedMessages d))%nat)
      by (subst k; lia).
    split; [lia|]. split; [|split; [reflexivity|]].
    + exists (take k (processedMessages d)). split.
      * symmetry. apply take_drop.
      * rewrite length_take. lia.
    + replace (_ <? _)%N with false by (symmetry; apply N.ltb_ge; lia). reflexivity.
  - split; [exact Hge|]. split; [|split; [reflexivity|]].
    + exists []. split; [reflexivity|]. simpl. lia.
    + replace (_ <? _)%N with false by (symmetry; apply N.ltb_ge; lia). reflexivity.
Qed.

Lemma has_app x l1 l2 :
  DeduplicationService.has x (List.app l1 l2)
  = DeduplicationService.has x l1 || DeduplicationService.has x l2.
Proof. apply existsb_app. Qed.

Lemma In_drop {A} (x : A) k l : In x (drop k l) -> In x l.
Proof.
  revert l. induction k as [|k IH]; intros [|y l] H; simpl in *; auto.
Qed.

Lemma has_drop_middle x older newer k :
  ~ In x newer ->
  DeduplicationService.has x (drop k (List.app older (x :: newer))) = true
  <-> (k <= length older)%nat.
Proof.
  intros Hn. split.
  - intros H. destruct (le_gt_dec k (length older)) as [Hle|Hgt]; [exact Hle|].
    exfalso. rewrite drop_app_ge in H by lia.
    assert (Hin : In x (drop (k - length older) (x :: newer))).
    { unfold DeduplicationService.has in H. apply existsb_exists in H as [y [Hy Hxy]].
      apply String.eqb_eq in Hxy. now subst. }
    destruct (k - length older)%nat as [|j] eqn:Ej; [lia|].
    simpl in Hin. apply Hn. now apply In_drop in Hin.
  - intros Hle. rewrite drop_app_le by exact Hle. rewrite has_app.
    simpl. rewrite String.eqb_refl. cbn. now rewrite orb_true_r.
Qed.

(** X7: which fingerprints a cleanup tick forgets.  A fingerprint of
    the processed set is still recognised after the tick exactly when
    fewer than [maxProcessedMessages] fingerprints were added after it;
    otherwise a later delivery with that fingerprint is no duplicate
    any more. *)
Theorem fingerprint_survives_cleanup_iff (d : Dedup) (f : string) (older newer : list string) :
  f <> "" ->
  processedMessages d = List.app older (f :: newer) ->
  ~ In f newer ->
  DeduplicationService.isMessageProcessed f (DeduplicationService.cleanupOldMessages d) = true
  <-> (N.of_nat (length newer) < maxProcessedMessages d)%N.
Proof.
  intros Hf Hd Hn. unfold DeduplicationService.isMessageProcessed.
  replace (DeduplicationService.is_empty f) with false
    by (symmetry; apply String.eqb_neq; exact Hf).
  unfold DeduplicationService.cleanupOldMessages.
  assert (Hlen : length (processedMessages d) = (length older + S (length newer))%nat).
  { rewrite Hd, length_app. reflexivity. }
  destruct (N.ltb_spec (maxProcessedMessages d) (N.of_nat (length (processedMessages d))))
    as [Hlt|Hge].
  - cbn [processedMessages]. rewrite Hd at 2. rewrite has_drop_middle by exact Hn. lia.
  - rewrite Hd, has_app. simpl. rewrite String.eqb_refl. cbn. rewrite orb_true_r.
    split; [lia | reflexivity].
Qed.

Lemma fingerprint_survives_cleanup_iff_witness :
  DeduplicationService.isMessageProcessed "b"
    (DeduplicationService.cleanupOldMessages (mkDedup ["a"; "b"; "c"] ∅ 2)) = true
  <-> (N.of_nat (length ["c"]) < 2)%N.
Proof.
  apply (fingerprint_survives_cleanup_iff (mkDedup ["a"; "b"; "c"] ∅ 2) "b" ["a"] ["c"]).
  - discriminate.
  - reflexivity.
  - simpl. intros [H|[]]. discriminate H.
Defined.

(** With a bound of two, the oldest of three fingerprints is
    forgotten. *)
Example oldest_fingerprint_forgotten :
  DeduplicationService.isMessageProcessed "a"
    (DeduplicationService.cleanupOldMessages (mkDedup ["a"; "b"; "c"] ∅ 2)) = false.
Proof. reflexivity. Qed.

Lemma removeMessageFromProcessing_lookup x d id :
  processingMessages (DeduplicationService.removeMessageFromProcessing x d) !! id
  = if DeduplicationService.is_empty x then processingMessages d !! id
    else if String.eqb x id then None else processingMessages d !! id.
Proof.
  unfold DeduplicationService.removeMessageFromProcessing.
  destruct (DeduplicationService.is_empty x); [reflexivity|].
  cbn [processingMessages]. destruct (String.eqb_spec x id) as [->|Hne].
  - apply lookup_delete_eq.
  - now apply lookup_delete_ne.
Qed.

Lemma fold_remove_lookup (l : list StaleMessage) : forall d id,
  processingMessages
    (fold_left (fun d' sm => DeduplicationService.removeMessageFromProcessing (sm_messageId sm) d')
       l d) !! id
  = if existsb (fun sm => String.eqb (sm_messageId sm) id) l
       && negb (DeduplicationService.is_empty id)
    then None else processingMessages d !! id.
Proof.
  induction l as [|sm l IH]; intros d id; [reflexivity|].
  cbn [fold_left existsb]. rewrite IH, removeMessageFromProcessing_lookup.
  destruct (String.eqb_spec (sm_messageId sm) id) as [->|Hne]; cbn [orb].
  - destruct (DeduplicationService.is_empty id); cbn [negb andb].
    + now rewrite andb_false_r.
    + now destruct (existsb _ l).
  - destruct (DeduplicationService.is_empty (sm_messageId sm)); reflexivity.
Qed.

Lemma fold_remove_processed (l : list StaleMessage) : forall d,
  processedMessages
    (fold_left (fun d' sm => DeduplicationService.removeMessageFromProcessing (sm_messageId sm) d')
       l d)
  = processedMessages d.
Proof.
  induction l as [|sm l IH]; intros d; [reflexivity|].
  cbn [fold_left]. rewrite IH. apply processed_removeMessageFromProcessing.
Qed.

(** The stale list names exactly the entries older than the bound. *)
Lemma stale_listed env maxAgeMs d id :
  existsb (fun sm => String.eqb (sm_messageId sm) id)
    (DeduplicationService.getStaleProcessingMessages env maxAgeMs d)
  = match processingMessages d !! id with
    | Some info =>
        match maxAgeMs with Some a => a | None => 300000 end <? now env - startTime info
    | None => false
    end.
Proof.
  unfold DeduplicationService.getStaleProcessingMessages.
  set (maxAge := match maxAgeMs with Some a => a | None => 300000 end).
  destruct (existsb _ _) eqn:E.
  - apply existsb_exists in E as [sm [Hin Heq]].
    apply in_map_iff in Hin as [[k info] [<- Hin]]. cbn [sm_messageId fst] in Heq.
    apply String.eqb_eq in Heq. subst k.
    apply filter_In in Hin as [Hin Hst]. cbn [snd] in Hst.
    apply list_elem_of_In, elem_of_map_to_list in Hin. now rewrite Hin, Hst.
  - destruct (processingMessages d !! id) as [info|] eqn:L; [|reflexivity].
    destruct (maxAge <? now env - startTime info) eqn:Hst; [|reflexivity].
    assert (existsb (fun sm => String.eqb (sm_messageId sm) id)
              (map (fun e => mkStaleMessage (fst e) (now env - startTime (snd e)) (snd e))
                 (List.filter (fun e => maxAge <? now env - startTime (snd e))
                    (map_to_list (processingMessages d)))) = true); [|congruence].
    apply existsb_exists. exists (mkStaleMessage id (now env - startTime info) info).
    split; [|apply String.eqb_refl].
    apply in_map_iff. exists (id, info). split; [reflexivity|].
    apply filter_In. split; [|exact Hst].
    now apply list_elem_of_In, elem_of_map_to_list.
Qed.

(** X8: [cleanupStaleProcessingMessages] removes from the in-flight map
    exactly the entries that are older than [maxAgeMs] (five minutes
    when no bound is given) and leaves every other entry, and the
    processed set, as they were.  An entry under the empty id, which
    [markMessageProcessing] never creates, would stay:
    [removeMessageFromProcessing] refuses the empty id. *)
Theorem cleanupStaleProcessingMessages_drops_the_stale env maxAgeMs (d : Dedup) (id : string) :
  let maxAge := match maxAgeMs with Some a => a | None => 300000 end in
  let d' := snd (DeduplicationService.cleanupStaleProcessingMessages env maxAgeMs d) in
  processingMessages d' !! id
  = match processingMessages d !! id with
    | Some info =>
        if (maxAge <? now env - startTime info) && negb (DeduplicationService.is_empty id)
        then None else Some info
    | None => None
    end
  /\ processedMessages d' = processedMessages d.
Proof.
  intros maxAge d'. subst d'. unfold DeduplicationService.cleanupStaleProcessingMessages.
  cbn [snd]. rewrite fold_remove_lookup, fold_remove_processed, stale_listed.
  split; [|reflexivity].
  destruct (processingMessages d !! id) as [info|]; reflexivity.
Qed.

(** One entry is six minutes old, the other one minute. *)
Example stale_entry_dropped :
  let info t := mkProcessingInfo t "orders" 1 "https://example.com/hook" in
  let d := mkDedup [] (<["old" := info 1699999640000]> (<["new" := info 1699999940000]> ∅))
             10000 in
  let r := DeduplicationService.cleanupStaleProcessingMessages Sample.env200 None d in
  fst r = 1%nat /\
  processingMessages (snd r) !! "old" = None /\
  processingMessages (snd r) !! "new" = Some (info 1699999940000).
Proof. vm_compute. repeat split. Qed.

(** ** The webhook sender: attempts, POSTs and counters *)

Lemma failedAttempts_counters url rt n w :
  wh_sent (Nat.iter n (failedAttempt url rt) w) = wh_sent w /\
  wh_failed (Nat.iter n (failedAttempt url rt) w) = wh_failed w + Z.of_nat n /\
  retryAttempts (Nat.iter n (failedAttempt url rt) w) = retryAttempts w.
Proof.
  induction n as [|n IH]; [simpl; repeat split; lia|].
  rewrite Nat.iter_succ. cbn [failedAttempt wh_sent wh_failed retryAttempts posted].
  destruct IH as (-> & -> & ->). repeat split; lia.
Qed.

Lemma failedAttempts_log url rt n w :
  httpLog (Nat.iter n (failedAttempt url rt) w) = List.app (httpLog w) (repeat url n).
Proof.
  induction n as [|n IH]; [simpl; now rewrite app_nil_r|].
  rewrite Nat.iter_succ. cbn [failedAttempt httpLog posted].
  rewrite IH, <- app_assoc. f_equal. symmetry. apply (repeat_cons n url).
Qed.

(** The loop returns at the first attempt that the webhook answers
    with a status below 500. *)
Lemma retryLoop_first_success env url (k : nat) :
  helpers.isValidUrl (urlParses env) url = true ->
  forall s n last status,
    (k < n)%nat ->
    (forall i, (i < k)%nat -> retryable (http env (length (httpLog (webhook s)) + i)%nat)) ->
    http env (length (httpLog (webhook s)) + k)%nat = Response status ->
    status < 500 ->
    WebhookService.retryLoop env url n last s
    = (Ok (mkWebhookResult status (responseTime env)),
       set_webhook (fun w => posted url true (responseTime env)
                               (Nat.iter k (failedAttempt url (responseTime env)) w)) s).
Proof.
  intros Hurl. induction k as [|k IH]; intros s n last status Hk Hfail Hok Hst.
  - destruct n as [|n]; [lia|]. rewrite Nat.add_0_r in Hok.
    cbn [WebhookService.retryLoop]. unfold try_catch.
    now rewrite (sendWebhook_resolves env url s status Hurl Hok Hst).
  - destruct n as [|n]; [lia|].
    destruct (sendWebhook_fails env url s Hurl) as [e [Hsend Hce]].
    { specialize (Hfail O). rewrite Nat.add_0_r in Hfail. apply Hfail. lia. }
    cbn [WebhookService.retryLoop]. unfold try_catch. rewrite Hsend.
    unfold WebhookService.incrRetries. msimpl. rewrite Hce.
    match goal with
    | |- context [ WebhookService.retryLoop env url n ?l ?st ] =>
        rewrite (IH st n l status)
    end.
    + unfold set_webhook.
      cbn [rabbit dedup stats webhook consumer persistence reconnection].
      rewrite Nat.iter_succ_r. reflexivity.
    + lia.
    + intros i Hi. cbn [webhook set_webhook httpLog posted]. rewrite length_app. simpl.
      replace (length (httpLog (webhook s)) + 1 + i)%nat
        with (length (httpLog (webhook s)) + S i)%nat by lia.
      apply Hfail. lia.
    + cbn [webhook set_webhook httpLog posted]. rewrite length_app. simpl.
      replace (length (httpLog (webhook s)) + 1 + k)%nat
        with (length (httpLog (webhook s)) + S k)%nat by lia.
      exact Hok.
    + exact Hst.
Qed.

(** X9: [sendWebhookWithRetry] stops at the first attempt that is
    answered with a status below 500.  When the first [k] attempts fail
    with a retryable outcome and attempt [k + 1] is within the
    configured number, the result carries that status, exactly [k + 1]
    POSTs went to the URL, [retries] and [failed] are raised by [k] and
    [sent] by one. *)
Theorem sendWebhookWithRetry_stops_at_first_success env url o s (k : nat) (status : Z) :
  helpers.isValidUrl (urlParses env) url = true ->
  (k < WebhookService.maxAttemptsOf o (webhook s))%nat ->
  (forall i, (i < k)%nat -> retryable (http env (length (httpLog (webhook s)) + i)%nat)) ->
  http env (length (httpLog (webhook s)) + k)%nat = Response status ->
  status < 500 ->
  let r := WebhookService.sendWebhookWithRetry env url o s in
  fst r = Ok (mkWebhookResult status (responseTime env)) /\
  httpLog (webhook (snd r)) = List.app (httpLog (webhook s)) (repeat url (S k)) /\
  wh_retries (webhook (snd r)) = wh_retries (webhook s) + Z.of_nat k /\
  wh_failed (webhook (snd r)) = wh_failed (webhook s) + Z.of_nat k /\
  wh_sent (webhook (snd r)) = wh_sent (webhook s) + 1.
Proof.
  intros Hurl Hk Hfail Hok Hst r. subst r.
  unfold WebhookService.sendWebhookWithRetry. msimpl.
  rewrite (retryLoop_first_success env url k Hurl s _ ThrownUndefined status Hk Hfail Hok Hst).
  cbn [fst snd webhook set_webhook posted httpLog wh_retries wh_failed wh_sent].
  pose proof (failedAttempts_counters url (responseTime env) k (webhook s)) as (Hs & Hf & _).
  rewrite failedAttempts_retries, Hs, Hf.
  repeat split.
  rewrite failedAttempts_log, <- app_assoc. f_equal.
  symmetry. apply (repeat_cons k url).
Qed.

Lemma sendWebhookWithRetry_stops_at_first_success_witness :
  let r := WebhookService.sendWebhookWithRetry SampleOutage.envFlaky
             "https://example.com/hook" None Sample.sys0 in
  fst r = Ok (mkWebhookResult 200 5) /\
  httpLog (webhook (snd r)) = ["https://example.com/hook"; "https://example.com/hook"] /\
  wh_retries (webhook (snd r)) = 1 /\
  wh_failed (webhook (snd r)) = 1 /\
  wh_sent (webhook (snd r)) = 1.
Proof.
  apply (sendWebhookWithRetry_stops_at_first_success SampleOutage.envFlaky
           "https://example.com/hook" None Sample.sys0 1 200).
  - reflexivity.
  - vm_compute. lia.
  - intros i Hi. assert (i = O) as -> by lia. vm_compute. discriminate.
  - reflexivity.
  - lia.
Defined.

Lemma postedTimes_refl url rt w : postedTimes url rt 0 w w.
Proof. unfold postedTimes. simpl. rewrite app_nil_r. repeat split; lia. Qed.

Lemma postedTimes_trans url rt n1 n2 w1 w2 w3 :
  postedTimes url rt n1 w1 w2 -> postedTimes url rt n2 w2 w3 ->
  postedTimes url rt (n1 + n2) w1 w3.
Proof.
  intros (H1 & H2 & H3 & H4 & H5) (G1 & G2 & G3 & G4 & G5). unfold postedTimes.
  rewrite G1, H1, <- app_assoc, repeat_app. repeat split; lia.
Qed.

Lemma postedTimes_posted url rt b w : postedTimes url rt 1 w (posted url b rt w).
Proof. unfold postedTimes, posted. destruct b; simpl; repeat split; lia. Qed.

Lemma sendWebhook_posts env url s :
  exists n, (n <= 1)%nat /\
    postedTimes url (responseTime env) n (webhook s)
      (webhook (snd (WebhookService.sendWebhook env url s))).
Proof.
  unfold WebhookService.sendWebhook.
  destruct (helpers.isValidUrl (urlParses env) url); cbn [negb].
  - exists 1%nat. split; [lia|].
    unfold WebhookService.axios_post, WebhookService._updateStats. msimpl.
    destruct (http env _) as [status|msg].
    + destruct (WebhookService.validateStatus status); cbn [snd webhook set_webhook].
      * apply (postedTimes_posted url (responseTime env) true).
      * apply (postedTimes_posted url (responseTime env) false).
    + apply (postedTimes_posted url (responseTime env) false).
  - exists 0%nat. split; [lia|]. apply postedTimes_refl.
Qed.

Lemma retryLoop_posts env url k : forall last s,
  exists n, (n <= k)%nat /\
    postedTimes url (responseTime env) n (webhook s)
      (webhook (snd (WebhookService.retryLoop env url k last s))).
Proof.
  induction k as [|k IH]; intros last s.
  - exists 0%nat. split; [lia|]. apply postedTimes_refl.
  - cbn [WebhookService.retryLoop]. unfold try_catch.
    destruct (sendWebhook_posts env url s) as [n1 [Hn1 H1]].
    destruct (WebhookService.sendWebhook env url s) as [[r|t] s1].
    + exists n1. split; [lia | exact H1].
    + unfold WebhookService.incrRetries. msimpl. cbn [snd] in H1.
      destruct t as [|e].
      * exists n1. split; [lia | exact H1].
      * destruct (WebhookService.isClientError (err_status e)).
        { exists n1. split; [lia | exact H1]. }
        match goal with
        | |- context [ WebhookService.retryLoop env url k ?l ?st ] =>
            destruct (IH l st) as [n2 [Hn2 H2]]
        end.
        exists (n1 + n2)%nat. split; [lia|].
        eapply postedTimes_trans; [|exact H2]. exact H1.
Qed.

Lemma sendToWebhook_posts env url s :
  exists n, (n <= retryAttempts (webhook s))%nat /\
    postedTimes url (responseTime env) n (webhook s)
      (webhook (snd (MessageProcessor.sendToWebhook env url s))).
Proof.
  unfold MessageProcessor.sendToWebhook, WebhookService.sendWebhookWithRetry. msimpl.
  cbn [WebhookService.maxAttemptsOf].
  destruct (retryLoop_posts env url (retryAttempts (webhook s)) ThrownUndefined s)
    as [n [Hn H]].
  exists n. split; [exact Hn|].
  destruct (WebhookService.retryLoop env url _ _ s) as [[r|t] s1]; exact H.
Qed.

(** The sender after [processMessage] is the sender as it was, or the
    sender after the one call of [sendToWebhook]. *)
Lemma processMessage_webhook env msg qc s :
  webhook (snd (MessageProcessor.processMessage env msg qc s)) = webhook s \/
  exists s0, webhook s0 = webhook s /\
    webhook (snd (MessageProcessor.processMessage env msg qc s))
    = webhook (snd (MessageProcessor.sendToWebhook env (qc_webhook qc) s0)).
Proof.
  destruct msg as [m|]; [|now left].
  unfold MessageProcessor.processMessage, MessageProcessor.processBody,
    MessageProcessor.bump, MessageProcessor.shouldRetryMessage.
  msimpl.
  destruct (DeduplicationService.isMessageProcessed _ _); [now left|].
  destruct (qc_paused qc).
  { rewrite nackMessage_eq. left.
    destruct (RabbitMQService.isChannelReady (rabbit s)); reflexivity. }
  destruct (negb _).
  { rewrite nackMessage_eq. left.
    destruct (RabbitMQService.isChannelReady (rabbit s)); reflexivity. }
  destruct (jsonParse env (content m)) as [parsed|].
  2:{ rewrite ackMessage_eq. left. cbn [rabbit set_dedup].
      destruct (RabbitMQService.isChannelReady (rabbit s)); reflexivity. }
  right.
  match goal with
  | |- context [ MessageProcessor.sendToWebhook env ?u ?st ] =>
      exists st; split; [reflexivity|];
      destruct (returns_sendToWebhook env u st) as [wr Hwr];
      destruct (MessageProcessor.sendToWebhook env u st) as [r s2]
  end.
  simpl in Hwr. subst r. cbn [snd].
  destruct wr as [res|[|e]]; cbv beta iota.
  - rewrite ackMessage_eq.
    destruct (RabbitMQService.isChannelReady (rabbit s2)); reflexivity.
  - rewrite nackMessage_eq.
    destruct (RabbitMQService.isChannelReady (rabbit s2)); reflexivity.
  - destruct (negb _).
    + rewrite nackMessage_eq.
      destruct (RabbitMQService.isChannelReady (rabbit s2)); reflexivity.
    + rewrite ackMessage_eq.
      destruct (RabbitMQService.isChannelReady (rabbit s2)); reflexivity.
Qed.

(** X10: one call of [processMessage] issues at most [retryAttempts]
    POSTs, all of them to the webhook of the queue; each POST is
    counted exactly once, as sent or as failed, and adds its response
    time to the total; [sent] never goes down. *)
Theorem processMessage_posts_at_most_retryAttempts env msg qc s :
  exists n, (n <= retryAttempts (webhook s))%nat /\
    postedTimes (qc_webhook qc) (responseTime env) n (webhook s)
      (webhook (snd (MessageProcessor.processMessage env msg qc s))).
Proof.
  destruct (processMessage_webhook env msg qc s) as [H|[s0 [H0 H]]].
  - exists 0%nat. split; [lia|]. rewrite H. apply postedTimes_refl.
  - destruct (sendToWebhook_posts env (qc_webhook qc) s0) as [n [Hn Hp]].
    exists n. rewrite H, <- H0. split; assumption.
Qed.






(** X12: the connectivity test reports success for every response
    with a status below 500, a 404 or a 401 included, and failure from
    500 on; [POST /webhook/test] answers 200 and 400 accordingly.  The
    test POST is a request like any other: it is recorded and counted
    by the sender. *)
Theorem testWebhook_accepts_every_status_below_500 env url s (status : Z) :
  helpers.isValidUrl (urlParses env) url = true ->
  http env (length (httpLog (webhook s))) = Response status ->
  fst (WebhookService.testWebhook env url s)
  = Ok (mkTestResult (status <? 500) (Some status)) /\
  fst (QueueController.testWebhook env url s) = Ok (if status <? 500 then 200 else 400) /\
  httpLog (webhook (snd (QueueController.testWebhook env url s)))
  = List.app (httpLog (webhook s)) [url] /\
  wh_sent (webhook (snd (QueueController.testWebhook env url s)))
  + wh_failed (webhook (snd (QueueController.testWebhook env url s)))
  = wh_sent (webhook s) + wh_failed (webhook s) + 1.
Proof.
  intros Hurl Hhttp.
  unfold QueueController.testWebhook, QueueController.respond, WebhookService.testWebhook.
  rewrite Hurl. cbn [negb]. unfold try_catch, bind.
  destruct (Z.ltb_spec status 500) as [Hlt|Hge].
  - rewrite (sendWebhook_resolves env url s status Hurl Hhttp Hlt). cbn. repeat split; lia.
  - rewrite (sendWebhook_rejects env url s status Hurl Hhttp Hge). cbn. repeat split; lia.
Qed.

Lemma testWebhook_accepts_every_status_below_500_witness :
  fst (WebhookService.testWebhook (Sample.envWith 404) "https://example.com/hook" Sample.sys0)
  = Ok (mkTestResult true (Some 404)) /\
  fst (QueueController.testWebhook (Sample.envWith 404) "https://example.com/hook" Sample.sys0)
  = Ok 200 /\
  httpLog (webhook (snd (QueueController.testWebhook (Sample.envWith 404)
                           "https://example.com/hook" Sample.sys0)))
  = ["https://example.com/hook"] /\
  wh_sent (webhook (snd (QueueController.testWebhook (Sample.envWith 404)
                           "https://example.com/hook" Sample.sys0)))
  + wh_failed (webhook (snd (QueueController.testWebhook (Sample.envWith 404)
                               "https://example.com/hook" Sample.sys0)))
  = 1.
Proof.
  apply (testWebhook_accepts_every_status_below_500 (Sample.envWith 404)
           "https://example.com/hook" Sample.sys0 404); reflexivity.
Defined.

(** ** The message processor: what one delivery changes *)

(** The sender changes nothing but its own fields. *)
Lemma sendToWebhook_frame env url s :
  let s' := snd (MessageProcessor.sendToWebhook env url s) in
  rabbit s' = rabbit s /\ dedup s' = dedup s /\ stats s' = stats s /\
  consumer s' = consumer s /\ persistence s' = persistence s /\
  reconnection s' = reconnection s.
Proof.
  apply (frame_sendToWebhook
           (fun s' => rabbit s' = rabbit s /\ dedup s' = dedup s /\ stats s' = stats s /\
                      consumer s' = consumer s /\ persistence s' = persistence s /\
                      reconnection s' = reconnection s)).
  - intros f s' H. exact H.
  - repeat split.
Qed.

(** The paths of [processMessage] on a delivery; [leaf] closes the goal
    at the end of each. *)
Ltac processMessage_paths_after_dedup env m leaf :=
  destruct (qc_paused _); [rewrite nackMessage_eq; leaf|];
  destruct (negb _); [rewrite nackMessage_eq; leaf|];
  destruct (jsonParse env (content m)) as [?parsed|]; [|rewrite ackMessage_eq; leaf];
  match goal with
  | |- context [ MessageProcessor.sendToWebhook env ?u ?st ] =>
      let Hfr := fresh "Hfr" in
      let Hwr := fresh "Hwr" in
      let wr := fresh "wr" in
      let r := fresh "r" in
      let s2 := fresh "s2" in
      pose proof (sendToWebhook_frame env u st) as Hfr;
      destruct (returns_sendToWebhook env u st) as [wr Hwr];
      destruct (MessageProcessor.sendToWebhook env u st) as [r s2];
      simpl in Hwr; subst r;
      destruct s2 as [?r2 ?d2 ?st2 ?w2 ?c2 ?p2 ?rc2];
      cbn [snd rabbit dedup stats consumer persistence reconnection set_dedup] in Hfr;
      destruct Hfr as (-> & -> & -> & -> & -> & ->);
      destruct wr as [?res|[|?e]]; cbv beta iota;
      [ rewrite ackMessage_eq; leaf
      | rewrite nackMessage_eq; leaf
      | destruct (negb _); [rewrite nackMessage_eq; leaf | rewrite ackMessage_eq; leaf] ]
  end.

Ltac processMessage_paths env m leaf :=
  unfold MessageProcessor.processMessage, MessageProcessor.processBody,
    MessageProcessor.bump, MessageProcessor.shouldRetryMessage;
  msimpl;
  destruct (DeduplicationService.isMessageProcessed _ _); [leaf|];
  processMessage_paths_after_dedup env m leaf.

Lemma markMessageProcessed_nonempty x d :
  DeduplicationService.is_empty x = false ->
  DeduplicationService.markMessageProcessed x d
  = mkDedup (DeduplicationService.set_add x (processedMessages d))
            (processingMessages d) (maxProcessedMessages d).
Proof. intros H. unfold DeduplicationService.markMessageProcessed. now rewrite H. Qed.

Lemma markMessageProcessing_nonempty x i d :
  DeduplicationService.is_empty x = false ->
  DeduplicationService.markMessageProcessing x i d
  = mkDedup (processedMessages d) (<[x := i]> (processingMessages d)) (maxProcessedMessages d).
Proof. intros H. unfold DeduplicationService.markMessageProcessing. now rewrite H. Qed.

Lemma removeMessageFromProcessing_nonempty x d :
  DeduplicationService.is_empty x = false ->
  DeduplicationService.removeMessageFromProcessing x d
  = mkDedup (processedMessages d) (delete x (processingMessages d)) (maxProcessedMessages d).
Proof. intros H. unfold DeduplicationService.removeMessageFromProcessing. now rewrite H. Qed.

Ltac dedup_leaf Hid :=
  eexists; split; [reflexivity|];
  cbn [snd action disposition dedup set_dedup set_stats TypeError];
  match goal with
  | |- context [RabbitMQService.isChannelReady ?r] =>
      destruct (RabbitMQService.isChannelReady r)
  | _ => idtac
  end;
  cbn [snd dedup set_dedup set_stats set_rabbit logOp];
  repeat first
    [ rewrite (removeMessageFromProcessing_nonempty _ _ Hid)
    | rewrite (markMessageProcessed_nonempty _ _ Hid)
    | rewrite (markMessageProcessing_nonempty _ _ _ Hid)
    | progress cbn [processedMessages processingMessages maxProcessedMessages] ];
  rewrite ?delete_insert_eq; reflexivity.

(** The deduplication service after one call of [processMessage], in
    closed form. *)
Lemma processMessage_dedup env (m : Message) (qc : QueueConfig) (s : Sys) :
  exists d,
    fst (MessageProcessor.processMessage env (Some m) qc s) = Ok d /\
    dedup (snd (MessageProcessor.processMessage env (Some m) qc s))
    = mkDedup
        (match action d with
         | ack => DeduplicationService.set_add (helpers.generateMessageId m)
                    (processedMessages (dedup s))
         | _ => processedMessages (dedup s)
         end)
        (delete (helpers.generateMessageId m) (processingMessages (dedup s)))
        (maxProcessedMessages (dedup s)).
Proof.
  pose proof (generateMessageId_nonempty m) as Hid.
  processMessage_paths env m ltac:(dedup_leaf Hid).
Qed.

(** X13: what one call of [processMessage] does to the deduplication
    service.  The fingerprint of the delivery is added to the processed
    set exactly when the disposition is an ack (success, parse error,
    permanent error); a nack or a skip leaves the set as it was, so a
    requeued delivery is processed again.  Of the in-flight map only
    the entry of this fingerprint is touched, and it is absent
    afterwards. *)
Theorem processMessage_remembers_exactly_the_acked env (m : Message) (qc : QueueConfig)
    (s : Sys) :
  exists d,
    fst (MessageProcessor.processMessage env (Some m) qc s) = Ok d /\
    dedup (snd (MessageProcessor.processMessage env (Some m) qc s))
    = mkDedup
        (match action d with
         | ack => DeduplicationService.set_add (helpers.generateMessageId m)
                    (processedMessages (dedup s))
         | _ => processedMessages (dedup s)
         end)
        (delete (helpers.generateMessageId m) (processingMessages (dedup s)))
        (maxProcessedMessages (dedup s)).
Proof. exact (processMessage_dedup env m qc s). Qed.

Ltac stats_leaf :=
  eexists; split; [reflexivity|];
  cbn [snd action reason disposition stats set_dedup set_stats TypeError];
  match goal with
  | |- context [RabbitMQService.isChannelReady ?r] =>
      destruct (RabbitMQService.isChannelReady r)
  | _ => idtac
  end;
  cbn [snd stats set_dedup set_stats set_rabbit logOp];
  unfold MessageProcessor.getStats_total;
  cbn [mp_processed mp_failed mp_skipped mp_duplicates mp_outsideBusinessHours mp_paused
       MessageProcessor.incr_processed MessageProcessor.incr_failed
       MessageProcessor.incr_skipped MessageProcessor.incr_duplicates
       MessageProcessor.incr_outsideBusinessHours MessageProcessor.incr_paused
       String.eqb Ascii.eqb Bool.eqb];
  repeat split; lia.

(** X14: every delivery is counted once.  One call of [processMessage]
    on a delivery raises the [total] of [getStats]
    ([processed + failed + skipped]) by exactly one; [processed] goes
    up exactly on reason [success]; and what [skipped] gains is what
    [duplicates], [outsideBusinessHours] and [paused] gain together. *)
Theorem processMessage_counts_each_delivery_once env (m : Message) (qc : QueueConfig)
    (s : Sys) :
  exists d,
    fst (MessageProcessor.processMessage env (Some m) qc s) = Ok d /\
    let p := stats s in
    let p' := stats (snd (MessageProcessor.processMessage env (Some m) qc s)) in
    MessageProcessor.getStats_total p' = MessageProcessor.getStats_total p + 1 /\
    mp_processed p' = mp_processed p + (if String.eqb (reason d) "success" then 1 else 0) /\
    mp_skipped p' - mp_skipped p
    = (mp_duplicates p' - mp_duplicates p)
      + (mp_outsideBusinessHours p' - mp_outsideBusinessHours p)
      + (mp_paused p' - mp_paused p).
Proof.
  processMessage_paths env m stats_leaf.
Qed.

(** ** Duplicates and the cleanup timer *)

Lemma remembered_stillProcessed f k s : remembered f k s -> stillProcessed f s.
Proof.
  intros (older & newer & Hl & _). unfold stillProcessed. rewrite Hl, has_app.
  unfold DeduplicationService.has at 2. simpl. rewrite String.eqb_refl.
  apply orb_true_r.
Qed.

(** A call of [processMessage] adds at most one fingerprint, at the
    end of the set, and leaves the bound alone. *)
Lemma remembered_call f k env msg qc s :
  remembered f k s ->
  remembered f (S k) (later (LaterCall env msg qc) s) /\
  maxProcessedMessages (dedup (later (LaterCall env msg qc) s))
  = maxProcessedMessages (dedup s).
Proof.
  intros (older & newer & Hl & Hk). cbn [later].
  destruct msg as [m|];
    [|split; [exists older, newer; split; [exact Hl | simpl; lia] | reflexivity]].
  destruct (processMessage_dedup env m qc s) as (d & _ & Hd).
  split; [|rewrite Hd; reflexivity].
  unfold remembered. rewrite Hd. cbn [processedMessages].
  destruct (action d); try (exists older, newer; split; [exact Hl | lia]).
  unfold DeduplicationService.set_add.
  destruct (DeduplicationService.has _ _); [exists older, newer; split; [exact Hl | lia]|].
  exists older, (List.app newer [helpers.generateMessageId m]). split.
  - rewrite Hl, <- app_assoc. reflexivity.
  - rewrite length_app. simpl. lia.
Qed.

(** A tick of the cleanup timer keeps a fingerprint that has fewer
    than [maxProcessedMessages] fingerprints behind it. *)
Lemma remembered_tick f k s :
  remembered f k s ->
  (N.of_nat k < maxProcessedMessages (dedup s))%N ->
  remembered f k (later CleanupTick s) /\
  maxProcessedMessages (dedup (later CleanupTick s)) = maxProcessedMessages (dedup s).
Proof.
  intros (older & newer & Hl & Hk) Hmax.
  assert (Hd : dedup (later CleanupTick s)
               = DeduplicationService.cleanupOldMessages (dedup s)) by reflexivity.
  unfold remembered. rewrite Hd. clear Hd.
  unfold DeduplicationService.cleanupOldMessages.
  destruct (_ <? _)%N eqn:E; cbn [processedMessages maxProcessedMessages].
  - split; [|reflexivity].
    set (n := N.to_nat (N.of_nat (length (processedMessages (dedup s)))
                        - maxProcessedMessages (dedup s))).
    assert (Hn : (n <= length older)%nat).
    { subst n. rewrite Hl, length_app. simpl. lia. }
    exists (drop n older), newer. split; [|exact Hk].
    rewrite Hl. now apply drop_app_le.
  - split; [|reflexivity]. exists older, newer. now split.
Qed.

Lemma remembered_laterRun f run :
  forall k s,
    remembered f k s ->
    (N.of_nat (k + callsIn run) < maxProcessedMessages (dedup s))%N ->
    remembered f (k + callsIn run) (laterRun run s).
Proof.
  induction run as [|[env msg qc|] run IH]; intros k s H Hmax; cbn [laterRun callsIn] in *.
  - now rewrite Nat.add_0_r.
  - destruct (remembered_call f k env msg qc s H) as [H1 Hm].
    replace (k + S (callsIn run))%nat with (S k + callsIn run)%nat in * by lia.
    apply IH; [exact H1 | now rewrite Hm].
  - destruct (remembered_tick f k s H) as [H1 Hm]; [lia|].
    apply IH; [exact H1 | now rewrite Hm].
Qed.

(** C2, as amended: once [markMessageProcessed f] was called, [f] sits
    in the processed set with the fingerprints added since behind it.
    After any run of further calls of [processMessage] and ticks of
    the cleanup timer, as long as the fingerprints behind [f] and the
    calls of the run together are fewer than [maxProcessedMessages], a
    delivery with fingerprint [f] gets disposition [{skip, duplicate}];
    [duplicates] and [skipped] go up by one and the broker client is
    left exactly as it was, so no ack and no nack is issued.  The same
    holds for the whole message handler of a consumed queue, also when
    a listener raises after [processMessage] returned: its [catch] does
    not nack a skipped delivery. *)
Theorem duplicate_skipped_while_remembered env (m : Message) (qc : QueueConfig)
    (s0 : Sys) (older newer : list string) (run : list Later) :
  let f := helpers.generateMessageId m in
  processedMessages (dedup s0) = List.app older (f :: newer) ->
  (N.of_nat (length newer + callsIn run) < maxProcessedMessages (dedup s0))%N ->
  let s := laterRun run s0 in
  MessageProcessor.processMessage env (Some m) qc s
  = (Ok (disposition skip "duplicate"), skippedAsDuplicate f s)
  /\ mp_duplicates (stats (skippedAsDuplicate f s)) = mp_duplicates (stats s) + 1
  /\ mp_skipped (stats (skippedAsDuplicate f s)) = mp_skipped (stats s) + 1
  /\ rabbit (skippedAsDuplicate f s) = rabbit s
  /\ forall queueName webhookUrl minInterval maxInterval businessHours,
       is_Some (activeConsumers (consumer s) !! queueName) ->
       rabbit (snd (ConsumerService.createMessageHandler env queueName webhookUrl
                      minInterval maxInterval businessHours (Some m) s))
       = rabbit s.
Proof.
  intros f Hl Hmax s.
  assert (Hs : stillProcessed f s).
  { apply (remembered_stillProcessed f (length newer + callsIn run)).
    apply remembered_laterRun; [|exact Hmax].
    exists older, newer. split; [exact Hl | lia]. }
  split; [now apply processMessage_duplicate|].
  repeat split.
  intros queueName webhookUrl minInterval maxInterval businessHours [c Hc].
  unfold ConsumerService.createMessageHandler. msimpl. rewrite Hc.
  rewrite processMessage_duplicate by exact Hs.
  unfold ConsumerService.afterProcessing, ConsumerService.setActive, ConsumerService.emit.
  msimpl. cbn [action disposition].
  destruct (listenerThrows env (messageProcessed queueName)); reflexivity.
Qed.

(** The fingerprint of [Sample.msg1] is marked, another delivery is
    processed and the cleanup timer fires: the delivery is still a
    duplicate, also for the handler when every listener raises. *)
Lemma duplicate_skipped_while_remembered_witness :
  let s := laterRun [LaterCall Sample.env200 (Some Sample.msg2) Sample.orders; CleanupTick]
             (set_dedup (DeduplicationService.markMessageProcessed "1_eyB9") Sample.sysOrders) in
  fst (MessageProcessor.processMessage Sample.envListenersRaise (Some Sample.msg1)
         Sample.orders s) = Ok (disposition skip "duplicate")
  /\ brokerLog (rabbit (snd (ConsumerService.createMessageHandler Sample.envListenersRaise
                               "orders" "https://example.com/hook" 30000 110000
                               (Some (mkHours 8 21)) (Some Sample.msg1) s)))
     = [OpAck Sample.msg2].
Proof.
  destruct (duplicate_skipped_while_remembered Sample.envListenersRaise Sample.msg1
              Sample.orders
              (set_dedup (DeduplicationService.markMessageProcessed "1_eyB9") Sample.sysOrders)
              [] []
              [LaterCall Sample.env200 (Some Sample.msg2) Sample.orders; CleanupTick])
    as [Hskip [_ [_ [_ Hhandler]]]].
  - reflexivity.
  - vm_compute. reflexivity.
  - split.
    + cbv zeta. now rewrite Hskip.
    + cbv zeta. rewrite Hhandler.
      * reflexivity.
      * vm_compute. eauto.
Defined.

(** A delivery whose fingerprint is not in the processed set is not
    skipped as a duplicate. *)
Lemma processMessage_fresh env (m : Message) (qc : QueueConfig) (s : Sys) :
  DeduplicationService.isMessageProcessed (helpers.generateMessageId m) (dedup s) = false ->
  fst (MessageProcessor.processMessage env (Some m) qc s) <> Ok (disposition skip "duplicate").
Proof.
  intros Hfresh.
  unfold MessageProcessor.processMessage, MessageProcessor.processBody,
    MessageProcessor.bump, MessageProcessor.shouldRetryMessage.
  msimpl.
  replace (DeduplicationService.isMessageProcessed (helpers.generateMessageId m) (dedup s))
    with false.
  processMessage_paths_after_dedup env m ltac:(cbn [fst TypeError]; discriminate).
Qed.

(** The fingerprint of [Sample.msg1] is not among the others. *)
Lemma others_fresh :
  DeduplicationService.has (helpers.generateMessageId Sample.msg1) SampleDedup.others = false.
Proof.
  apply not_true_is_false. intros H.
  unfold DeduplicationService.has in H. apply existsb_exists in H as (x & Hin & Hx).
  apply String.eqb_eq in Hx. subst x.
  unfold SampleDedup.others in Hin. apply in_map_iff in Hin as (n & Hn & Hin).
  apply in_seq in Hin. apply generateMessageId_tag in Hn. cbn in Hn. lia.
Qed.

(** Calls of [markMessageProcessed] on fingerprints that are new and
    distinct add them to the set in the order of the calls. *)
Lemma marking_appends ids :
  forall l p m,
    (forall x, In x ids -> DeduplicationService.is_empty x = false) ->
    List.NoDup (List.app l ids) ->
    fold_left (fun d id => DeduplicationService.markMessageProcessed id d) ids (mkDedup l p m)
    = mkDedup (List.app l ids) p m.
Proof.
  induction ids as [|x ids IH]; intros l p m Hne Hnd; cbn [fold_left].
  - now rewrite app_nil_r.
  - rewrite (markMessageProcessed_nonempty x _ (Hne x (or_introl eq_refl))).
    cbn [processedMessages processingMessages maxProcessedMessages].
    assert (Hx : DeduplicationService.has x l = false).
    { apply not_true_is_false. intros H. unfold DeduplicationService.has in H.
      apply existsb_exists in H as (y & Hin & Hy). apply String.eqb_eq in Hy. subst y.
      apply NoDup_remove_2 in Hnd. apply Hnd, in_or_app. now left. }
    unfold DeduplicationService.set_add. rewrite Hx.
    replace (List.app l (x :: ids)) with (List.app (List.app l [x]) ids) in *
      by (rewrite <- app_assoc; reflexivity).
    apply IH; [|exact Hnd]. intros y Hy. apply Hne. now right.
Qed.

(** [SampleDedup.sysFull] is the state of the deduplication service
    after [markMessageProcessed] was called on the fingerprint of
    [Sample.msg1] and then on those of deliveries 2 to 10001. *)
Lemma sysFull_by_marking :
  fold_left (fun d id => DeduplicationService.markMessageProcessed id d)
            (helpers.generateMessageId Sample.msg1 :: SampleDedup.others)
            (dedup Sample.sys0)
  = dedup SampleDedup.sysFull.
Proof.
  change (dedup Sample.sys0) with (mkDedup [] ∅ 10000).
  rewrite marking_appends; [reflexivity| |].
  - intros x [<-|Hin]; [apply generateMessageId_nonempty|].
    unfold SampleDedup.others in Hin. apply in_map_iff in Hin as (n & <- & _).
    apply generateMessageId_nonempty.
  - cbn [List.app].
    change (helpers.generateMessageId Sample.msg1 :: SampleDedup.others)
      with (map (fun n => helpers.generateMessageId (mkMessage (N.of_nat n) "{ }"))
                (seq 1 (S (N.to_nat 10000)))).
    apply Finite.Injective_map_NoDup; [|apply seq_NoDup].
    intros n n' Heq. apply generateMessageId_tag in Heq. cbn in Heq. lia.
Qed.

(** The claim without the bound fails.  In [SampleDedup.sysFull] the
    processed set holds 10001 fingerprints, the one of [Sample.msg1]
    being the oldest; [markMessageProcessed] is called on it (the set
    keeps it where it is) and the cleanup timer ticks: the oldest
    fingerprint is dropped, and the delivery [Sample.msg1] is not
    skipped any more.  ([sysFull_by_marking]: the state is the one
    that the calls of [markMessageProcessed] produce.) *)
Lemma duplicate_forgotten_after_cleanup :
  ~ (forall env (m : Message) (qc : QueueConfig) (s0 : Sys) (run : list Later),
       let f := helpers.generateMessageId m in
       let s := laterRun run (set_dedup (DeduplicationService.markMessageProcessed f) s0) in
       fst (MessageProcessor.processMessage env (Some m) qc s)
       = Ok (disposition skip "duplicate")
       /\ rabbit (snd (MessageProcessor.processMessage env (Some m) qc s)) = rabbit s).
Proof.
  intros H.
  destruct (H Sample.env200 Sample.msg1 Sample.orders SampleDedup.sysFull [CleanupTick])
    as [H1 _].
  revert H1. apply processMessage_fresh.
  cbn [laterRun later].
  assert (Hd : dedup (set_dedup DeduplicationService.cleanupOldMessages
                        (set_dedup (DeduplicationService.markMessageProcessed
                                      (helpers.generateMessageId Sample.msg1))
                                   SampleDedup.sysFull))
               = mkDedup SampleDedup.others ∅ 10000).
  { change (DeduplicationService.cleanupOldMessages
              (DeduplicationService.markMessageProcessed
                 (helpers.generateMessageId Sample.msg1)
                 (mkDedup (helpers.generateMessageId Sample.msg1 :: SampleDedup.others)
                          ∅ 10000))
            = mkDedup SampleDedup.others ∅ 10000).
    rewrite (markMessageProcessed_nonempty _ _ (generateMessageId_nonempty Sample.msg1)).
    cbn [processedMessages processingMessages maxProcessedMessages].
    unfold DeduplicationService.set_add, DeduplicationService.has at 1.
    cbn [existsb]. rewrite String.eqb_refl. cbn [orb].
    unfold DeduplicationService.cleanupOldMessages.
    cbn [processedMessages processingMessages maxProcessedMessages length].
    unfold SampleDedup.others at 1 2. rewrite !length_map, !length_seq.
    reflexivity. }
  rewrite Hd. unfold DeduplicationService.isMessageProcessed.
  rewrite generateMessageId_nonempty. exact others_fresh.
Qed.

(** The same with a bound of two instead of ten thousand, evaluated
    in full: the redelivery is posted and acked. *)
Example redelivery_after_cleanup_processed_again :
  let small := set_dedup (fun d => mkDedup ["1_eyB9"; "2_eyB9"; "3_eyB9"] ∅ 2) Sample.sys0 in
  let s := laterRun [CleanupTick] small in
  processedMessages (dedup s) = ["2_eyB9"; "3_eyB9"] /\
  brokerLog (rabbit (snd (MessageProcessor.processMessage Sample.env200 (Some Sample.msg1)
                            Sample.orders s))) = [OpAck Sample.msg1] /\
  httpLog (webhook (snd (MessageProcessor.processMessage Sample.env200 (Some Sample.msg1)
                           Sample.orders s))) = ["https://example.com/hook"].
Proof. vm_compute. repeat split. Qed.

(** X15: a delivery for a paused queue, or one that arrives outside the
    business hours, is nacked with requeue and nothing else: no POST is
    issued, the fingerprint is not remembered, [skipped] goes up and
    [failed] does not.  The pause is looked at first. *)
Theorem paused_or_closed_queue_requeues_without_post env (m : Message) (qc : QueueConfig)
    (s : Sys) :
  DeduplicationService.isMessageProcessed (helpers.generateMessageId m) (dedup s) = false ->
  qc_paused qc = true \/
  helpers.isWithinBusinessHours (localHour env) (qc_businessHours qc) = false ->
  let r := MessageProcessor.processMessage env (Some m) qc s in
  fst r = Ok (disposition nack
                (if qc_paused qc then "paused" else "outside_business_hours")) /\
  webhook (snd r) = webhook s /\
  processedMessages (dedup (snd r)) = processedMessages (dedup s) /\
  rabbit (snd r)
  = (if RabbitMQService.isChannelReady (rabbit s)
     then withCalls [OpNack m false true] (rabbit s) else rabbit s) /\
  mp_skipped (stats (snd r)) = mp_skipped (stats s) + 1 /\
  mp_failed (stats (snd r)) = mp_failed (stats s).
Proof.
  intros Hdup Hgate r. subst r.
  unfold MessageProcessor.processMessage, MessageProcessor.processBody, MessageProcessor.bump.
  msimpl. rewrite Hdup.
  destruct (qc_paused qc) eqn:Hp.
  - rewrite nackMessage_eq.
    destruct (RabbitMQService.isChannelReady (rabbit s)); cbn;
      rewrite ?processed_removeMessageFromProcessing, ?withCalls_nil; repeat split.
  - destruct Hgate as [Hgate|Hgate]; [discriminate|]. rewrite Hgate. cbn [negb].
    rewrite nackMessage_eq.
    destruct (RabbitMQService.isChannelReady (rabbit s)); cbn;
      rewrite ?processed_removeMessageFromProcessing, ?withCalls_nil; repeat split.
Qed.

Lemma paused_or_closed_queue_requeues_without_post_witness :
  let r := MessageProcessor.processMessage Sample.env200 (Some Sample.msg1)
             SampleOutage.ordersPaused Sample.sys0 in
  fst r = Ok (disposition nack "paused") /\
  webhook (snd r) = webhook Sample.sys0 /\
  processedMessages (dedup (snd r)) = [] /\
  rabbit (snd r) = withCalls [OpNack Sample.msg1 false true] Sample.rabbit0 /\
  mp_skipped (stats (snd r)) = 1 /\
  mp_failed (stats (snd r)) = 0.
Proof.
  apply (paused_or_closed_queue_requeues_without_post Sample.env200 Sample.msg1
           SampleOutage.ordersPaused Sample.sys0).
  - reflexivity.
  - left. reflexivity.
Defined.

(** X16: a payload that is not JSON is acked and remembered without
    any POST: the disposition is [{ack, parse_error}], [failed] goes up
    by one, the sender is not touched, and the same delivery coming
    again is skipped as a duplicate. *)
Theorem unparsable_payload_is_acked_and_remembered env (m : Message) (qc : QueueConfig)
    (s : Sys) :
  DeduplicationService.isMessageProcessed (helpers.generateMessageId m) (dedup s) = false ->
  qc_paused qc = false ->
  helpers.isWithinBusinessHours (localHour env) (qc_businessHours qc) = true ->
  jsonParse env (content m) = None ->
  let r := MessageProcessor.processMessage env (Some m) qc s in
  (exists e, fst r = Ok (mkDisposition ack "parse_error" (Some e) None None)) /\
  webhook (snd r) = webhook s /\
  DeduplicationService.isMessageProcessed (helpers.generateMessageId m) (dedup (snd r))
  = true /\
  rabbit (snd r)
  = (if RabbitMQService.isChannelReady (rabbit s)
     then withCalls [OpAck m] (rabbit s) else rabbit s) /\
  mp_failed (stats (snd r)) = mp_failed (stats s) + 1 /\
  fst (MessageProcessor.processMessage env (Some m) qc (snd r))
  = Ok (disposition skip "duplicate").
Proof.
  intros Hdup Hp Hh Hjson r.
  assert (E : exists s',
             MessageProcessor.processMessage env (Some m) qc s
             = (Ok (mkDisposition ack "parse_error"
                      (Some (ThrownError (plainError "Unexpected token"))) None None), s') /\
             webhook s' = webhook s /\
             stillProcessed (helpers.generateMessageId m) s' /\
             rabbit s' = (if RabbitMQService.isChannelReady (rabbit s)
                          then withCalls [OpAck m] (rabbit s) else rabbit s) /\
             mp_failed (stats s') = mp_failed (stats s) + 1).
  { unfold MessageProcessor.processMessage, MessageProcessor.processBody,
      MessageProcessor.bump. msimpl. rewrite Hdup, Hp, Hh. cbn [negb]. rewrite Hjson.
    rewrite ackMessage_eq. eexists. split; [reflexivity|].
    unfold stillProcessed. cbn [rabbit set_dedup].
    destruct (RabbitMQService.isChannelReady (rabbit s));
      cbn [webhook rabbit dedup stats set_dedup set_stats logOp set_rabbit withCalls
           MessageProcessor.incr_failed mp_failed brokerLog connection channel shuttingDown
           emitted];
      rewrite ?withCalls_nil, processed_removeMessageFromProcessing,
        (processed_markMessageProcessed _ _ (generateMessageId_nonempty m));
      (repeat split); apply has_set_add. }
  destruct E as (s' & E & Hw & Hs & Hrb & Hf). subst r. rewrite E. cbn [fst snd].
  split; [eauto|]. split; [exact Hw|]. split; [|split; [exact Hrb|split; [exact Hf|]]].
  - unfold DeduplicationService.isMessageProcessed.
    rewrite generateMessageId_nonempty. exact Hs.
  - now rewrite processMessage_duplicate.
Qed.

Lemma unparsable_payload_is_acked_and_remembered_witness :
  let m := mkMessage 3 "not json" in
  let r := MessageProcessor.processMessage Sample.env200 (Some m) Sample.orders Sample.sys0 in
  (exists e, fst r = Ok (mkDisposition ack "parse_error" (Some e) None None)) /\
  webhook (snd r) = webhook Sample.sys0 /\
  DeduplicationService.isMessageProcessed (helpers.generateMessageId m) (dedup (snd r))
  = true /\
  rabbit (snd r) = withCalls [OpAck m] Sample.rabbit0 /\
  mp_failed (stats (snd r)) = 1 /\
  fst (MessageProcessor.processMessage Sample.env200 (Some m) Sample.orders (snd r))
  = Ok (disposition skip "duplicate").
Proof.
  apply (unparsable_payload_is_acked_and_remembered Sample.env200 (mkMessage 3 "not json")
           Sample.orders Sample.sys0); reflexivity.
Defined.

(** ** The reconnection controller: failures and limits *)

Lemma first_version_idle_while_ready_witness :
  ReconnectionService.shouldAttemptReconnection Sample.env200 Sample.sys0
  = (Ok false, Sample.sys0) /\
  ReconnectionService.scheduleReconnection Sample.env200 Sample.sys0 = (Ok tt, Sample.sys0) /\
  ReconnectionService.attemptReconnection Sample.env200 Sample.sys0 = (Ok tt, Sample.sys0) /\
  ReconnectionService.handleBrokerEvent Sample.env200 Sample.sys0 = (Ok tt, Sample.sys0).
Proof.
  apply (first_version_idle_while_ready Sample.env200 Sample.sys0). reflexivity.
Defined.

Lemma shouldAttempt_true env s should :
  In should controllerVersions ->
  RabbitMQService.isChannelReady (rabbit s) = false ->
  rc_shuttingDown (reconnection s) = false ->
  isReconnecting (reconnection s) = false ->
  debounceMs (reconnection s) <= now env - lastReconnectTime (reconnection s) ->
  reconnectAttempts (reconnection s) < maxAttempts (reconnection s) ->
  should env s = (Ok true, s).
Proof.
  intros Hin Hready Hdown Hrec Hdeb Hmax.
  destruct Hin as [<-|[<-|[]]];
    unfold ReconnectionService.shouldAttemptReconnection,
      ReconnectionService2.shouldAttemptReconnection, ReconnectionCommon.debounceAndLimit;
    msimpl; rewrite Hdown, Hrec, ?Hready;
    replace (_ <? _) with false by (symmetry; apply Z.ltb_ge; lia);
    replace (_ <=? _) with false by (symmetry; apply Z.leb_gt; lia);
    reflexivity.
Qed.

Lemma shouldAttempt_while_reconnecting env s should :
  In should controllerVersions ->
  isReconnecting (reconnection s) = true ->
  should env s = (Ok false, s).
Proof.
  intros Hin Hrec.
  destruct Hin as [<-|[<-|[]]];
    unfold ReconnectionService.shouldAttemptReconnection,
      ReconnectionService2.shouldAttemptReconnection;
    msimpl; rewrite Hrec; now destruct (rc_shuttingDown (reconnection s)).
Qed.

(** X18: a failed reconnection attempt schedules nothing.  In both
    versions the [catch] of [attemptReconnection] calls
    [scheduleReconnection] while [isReconnecting] is still true, so
    [shouldAttemptReconnection] answers false and no timer is armed:
    after the attempt the timer field is what it was, the attempt is
    counted, [reconnectionStarted] and [reconnectionFailed] are the
    events emitted, and the channel is not ready. *)
Theorem failed_attempt_arms_no_timer env s e should :
  In should controllerVersions ->
  RabbitMQService.isChannelReady (rabbit s) = false ->
  rc_shuttingDown (reconnection s) = false ->
  isReconnecting (reconnection s) = false ->
  debounceMs (reconnection s) <= now env - lastReconnectTime (reconnection s) ->
  reconnectAttempts (reconnection s) < maxAttempts (reconnection s) ->
  connectFails env = Some e ->
  let s' := snd (ReconnectionCommon.attemptReconnection should env s) in
  reconnectTimeout (reconnection s') = reconnectTimeout (reconnection s) /\
  reconnectAttempts (reconnection s') = reconnectAttempts (reconnection s) + 1 /\
  isReconnecting (reconnection s') = false /\
  lastReconnectTime (reconnection s') = now env /\
  rc_emitted (reconnection s')
  = List.app (rc_emitted (reconnection s))
      [reconnectionStarted (reconnectAttempts (reconnection s) + 1); reconnectionFailed] /\
  RabbitMQService.isChannelReady (rabbit s') = false.
Proof.
  intros Hin Hready Hdown Hrec Hdeb Hmax Hfail s'. subst s'.
  unfold ReconnectionCommon.attemptReconnection.
  rewrite (bind_ok _ _ _ _ _ (shouldAttempt_true env s should Hin Hready Hdown Hrec Hdeb Hmax)).
  cbn [negb].
  unfold ReconnectionCommon.beginAttempt, ReconnectionCommon.emit,
    ReconnectionCommon.setReconnecting, ReconnectionCommon.resetReconnectionState,
    RabbitMQService.cleanup, RabbitMQService.connect, RabbitMQService.emit,
    ReconnectionCommon.scheduleReconnection.
  rewrite Hfail. msimpl.
  match goal with
  | |- context [ should env ?st ] =>
      rewrite (shouldAttempt_while_reconnecting env st should Hin eq_refl)
  end.
  cbn. rewrite <- app_assoc. repeat split.
Qed.

Lemma failed_attempt_arms_no_timer_witness :
  let s' := snd (ReconnectionService.attemptReconnection SampleOutage.envUnreachable
                   Sample.sysDown) in
  reconnectTimeout (reconnection s') = None /\
  reconnectAttempts (reconnection s') = 1 /\
  isReconnecting (reconnection s') = false /\
  lastReconnectTime (reconnection s') = 1700000000000 /\
  rc_emitted (reconnection s') = [reconnectionStarted 1; reconnectionFailed] /\
  RabbitMQService.isChannelReady (rabbit s') = false.
Proof.
  apply (failed_attempt_arms_no_timer SampleOutage.envUnreachable Sample.sysDown
           SampleBroker.timedOut ReconnectionService.shouldAttemptReconnection);
    try reflexivity.
  - left. reflexivity.
  - vm_compute. discriminate.
Defined.

Lemma idleStep_refl s : idleStep s s.
Proof.
  unfold idleStep. repeat split; auto. exists 0%nat. simpl. now rewrite app_nil_r.
Qed.

Lemma idleStep_trans s1 s2 s3 : idleStep s1 s2 -> idleStep s2 s3 -> idleStep s1 s3.
Proof.
  unfold idleStep.
  intros (A1 & A2 & A3 & A4 & A5 & A6 & A7 & A8 & k1 & A9)
         (B1 & B2 & B3 & B4 & B5 & B6 & B7 & B8 & k2 & B9).
  repeat split; try congruence.
  - destruct B8 as [B8|B8]; [rewrite B8; exact A8 | now right].
  - exists (k1 + k2)%nat. rewrite B9, A9, <- app_assoc, repeat_app. reflexivity.
Qed.

Lemma idleStep_exhausted s s' : idleStep s s' -> exhausted s -> exhausted s'.
Proof.
  unfold idleStep, exhausted. intros (_ & _ & Ha & Hm & Hd & _) H.
  rewrite Ha, Hm, Hd. exact H.
Qed.

Lemma idleStep_clear_timer s :
  idleStep s (snd (ReconnectionCommon.setTimer None s)).
Proof.
  unfold idleStep. cbn. repeat split; auto. exists 0%nat. simpl. now rewrite app_nil_r.
Qed.

Lemma shouldAttempt_exhausted env s should :
  In should controllerVersions ->
  exhausted s ->
  fst (should env s) = Ok false /\ idleStep s (snd (should env s)).
Proof.
  intros Hin Hex.
  destruct Hin as [<-|[<-|[]]];
    unfold ReconnectionService.shouldAttemptReconnection,
      ReconnectionService2.shouldAttemptReconnection, ReconnectionCommon.debounceAndLimit,
      ReconnectionCommon.emit;
    msimpl.
  - destruct (rc_shuttingDown (reconnection s)) eqn:Hd; [split; [reflexivity|apply idleStep_refl]|].
    destruct Hex as [Hex|Hex]; [|congruence].
    destruct (isReconnecting (reconnection s)); [split; [reflexivity|apply idleStep_refl]|].
    destruct (RabbitMQService.isChannelReady (rabbit s));
      [split; [reflexivity|apply idleStep_refl]|].
    destruct (_ <? _); [split; [reflexivity|apply idleStep_refl]|].
    replace (_ <=? _) with true by (symmetry; apply Z.leb_le; lia).
    split; [reflexivity|]. unfold idleStep. cbn. repeat split; auto.
    now exists 1%nat.
  - destruct (rc_shuttingDown (reconnection s)) eqn:Hd; [split; [reflexivity|apply idleStep_refl]|].
    destruct Hex as [Hex|Hex]; [|congruence].
    destruct (isReconnecting (reconnection s)); [split; [reflexivity|apply idleStep_refl]|].
    destruct (_ <? _); [split; [reflexivity|apply idleStep_refl]|].
    replace (_ <=? _) with true by (symmetry; apply Z.leb_le; lia).
    split; [reflexivity|]. unfold idleStep. cbn. repeat split; auto.
    now exists 1%nat.
Qed.

(** X19: once the attempts are used up ([reconnectAttempts >=
    maxAttempts]), or once the controller is stopped, no operation of
    either version connects again: scheduling, an attempt, a forced
    reconnection and every broker event return normally, leave the
    broker client and the attempt counter as they are, arm no timer and
    emit at most [maxAttemptsReached]; and the controller is still
    exhausted afterwards.  Nothing but a successful attempt resets the
    counter, so the state is final. *)
Theorem exhausted_controller_never_attempts env s should op :
  In should controllerVersions ->
  In op (controllerOperations should) ->
  exhausted s ->
  fst (op env s) = Ok tt /\ idleStep s (snd (op env s)) /\ exhausted (snd (op env s)).
Proof.
  intros Hin Hop Hex.
  assert (Hsched : forall s0, exhausted s0 ->
            fst (ReconnectionCommon.scheduleReconnection should env s0) = Ok tt /\
            idleStep s0 (snd (ReconnectionCommon.scheduleReconnection should env s0))).
  { intros s0 H0. unfold ReconnectionCommon.scheduleReconnection, bind.
    destruct (shouldAttempt_exhausted env s0 should Hin H0) as [Hf Hi].
    destruct (should env s0) as [r s1]. cbn [fst snd] in *. subst r. now split. }
  assert (Hatt : forall s0, exhausted s0 ->
            fst (ReconnectionCommon.attemptReconnection should env s0) = Ok tt /\
            idleStep s0 (snd (ReconnectionCommon.attemptReconnection should env s0))).
  { intros s0 H0. unfold ReconnectionCommon.attemptReconnection, bind.
    destruct (shouldAttempt_exhausted env s0 should Hin H0) as [Hf Hi].
    destruct (should env s0) as [r s1]. cbn [fst snd] in *. subst r. now split. }
  assert (H : fst (op env s) = Ok tt /\ idleStep s (snd (op env s))).
  { destruct Hop as [<-|[<-|[<-|[<-|[]]]]].
    - now apply Hsched.
    - now apply Hatt.
    - unfold ReconnectionCommon.forceReconnection.
      pose proof (idleStep_clear_timer s) as Hc.
      rewrite (bind_ok _ _ s tt (snd (ReconnectionCommon.setTimer None s)) eq_refl).
      destruct (Hatt _ (idleStep_exhausted _ _ Hc Hex)) as [Hf Hi].
      split; [exact Hf|]. exact (idleStep_trans _ _ _ Hc Hi).
    - unfold ReconnectionCommon.handleBrokerEvent. msimpl.
      destruct (rc_shuttingDown (reconnection s)); cbn [negb].
      + split; [reflexivity | apply idleStep_refl].
      + now apply Hsched. }
  destruct H as [Hf Hi]. split; [exact Hf|]. split; [exact Hi|].
  eapply idleStep_exhausted; eassumption.
Qed.

Lemma exhausted_controller_never_attempts_witness :
  fst (ReconnectionService.forceReconnection Sample.env200 SampleOutage.sysGaveUp) = Ok tt /\
  idleStep SampleOutage.sysGaveUp
    (snd (ReconnectionService.forceReconnection Sample.env200 SampleOutage.sysGaveUp)) /\
  exhausted (snd (ReconnectionService.forceReconnection Sample.env200 SampleOutage.sysGaveUp)).
Proof.
  apply (exhausted_controller_never_attempts Sample.env200 SampleOutage.sysGaveUp
           ReconnectionService.shouldAttemptReconnection
           (ReconnectionCommon.forceReconnection ReconnectionService.shouldAttemptReconnection)).
  - left. reflexivity.
  - right. right. left. reflexivity.
  - left. vm_compute. discriminate.
Defined.

(** After ten failed attempts a forced reconnection only reports the
    limit. *)
Example forced_reconnection_after_the_limit :
  let s' := snd (ReconnectionService.forceReconnection Sample.env200 SampleOutage.sysGaveUp) in
  rc_emitted (reconnection s') = [maxAttemptsReached] /\
  RabbitMQService.isChannelReady (rabbit s') = false.
Proof. vm_compute. split; reflexivity. Qed.

(** ** The persistence store: round trips and property names *)

Lemma inherited_proto q : Js.inherited q = false -> String.eqb q "__proto__" = false.
Proof.
  intros H. destruct (String.eqb_spec q "__proto__") as [->|]; [|reflexivity].
  vm_compute in H. discriminate H.
Qed.

Lemma setProperty_insert {V} q (v : V) (o : gmap string V) :
  String.eqb q "__proto__" = false -> Js.setProperty q v o = <[q := v]> o.
Proof. intros H. unfold Js.setProperty. now rewrite H. Qed.

Lemma getProperty_own {V} q (v : V) (o : gmap string V) :
  o !! q = Some v -> Js.getProperty o q = Some (Js.Own v).
Proof. intros H. unfold Js.getProperty. now rewrite H. Qed.

Lemma getProperty_none {V} q (o : gmap string V) :
  o !! q = None ->
  Js.getProperty o q = if Js.inherited q then Some (Js.Inherited q) else None.
Proof. intros H. unfold Js.getProperty. now rewrite H. Qed.

Lemma set_persistence_same f s :
  f (queues (persistence s)) = queues (persistence s) ->
  set_persistence (fun p => mkPersistence (isReady p) (f (queues p))) s = s.
Proof.
  intros H. destruct s as [r d st w c [rd qs] rc]. unfold set_persistence.
  cbn in *. now rewrite H.
Qed.

Lemma saveQueueConfig_ok env q cfg s :
  isReady (persistence s) = true -> loadFails env = false -> saveFails env q = false ->
  PersistenceService.saveQueueConfig env q cfg s
  = (Ok tt,
     set_persistence
       (fun p => mkPersistence (isReady p) (Js.setProperty q cfg (queues p))) s).
Proof.
  intros Hready Hload Hsave. unfold PersistenceService.saveQueueConfig. msimpl.
  now rewrite Hready, Hload, Hsave.
Qed.

Lemma loadQueueConfig_ok env q s :
  isReady (persistence s) = true -> loadFails env = false ->
  PersistenceService.loadQueueConfig env q s
  = (Ok (Js.getProperty (queues (persistence s)) q), s).
Proof.
  intros Hready Hload.
  unfold PersistenceService.loadQueueConfig, PersistenceService.loadQueueConfigs. msimpl.
  now rewrite Hready, Hload.
Qed.

Lemma removeQueueConfig_ok env q s :
  isReady (persistence s) = true -> loadFails env = false -> removeFails env q = false ->
  PersistenceService.removeQueueConfig env q s
  = match Js.getProperty (queues (persistence s)) q with
    | Some _ =>
        (Ok true,
         set_persistence (fun p => mkPersistence (isReady p) (delete q (queues p))) s)
    | None => (Ok false, s)
    end.
Proof.
  intros Hready Hload Hremove. unfold PersistenceService.removeQueueConfig. msimpl.
  rewrite Hready, Hload. cbn [negb].
  destruct (Js.getProperty _ _); [|reflexivity].
  now rewrite Hremove.
Qed.

(** X20: round trips of the store, while it is ready and the file can
    be read and written, for a queue name that is no property name of
    [Object.prototype].  A saved configuration is what
    [loadQueueConfig] returns, the entries of other queues are not
    affected; removing it answers [true], after which the queue has no
    entry and a second removal answers [false] and writes nothing; and
    saving then removing a queue that had no entry gives back the
    state before. *)
Theorem store_round_trips env (q : string) (cfg : PersistedConfig) (s : Sys) :
  Js.inherited q = false ->
  isReady (persistence s) = true ->
  loadFails env = false ->
  saveFails env q = false ->
  removeFails env q = false ->
  let s1 := snd (PersistenceService.saveQueueConfig env q cfg s) in
  let s2 := snd (PersistenceService.removeQueueConfig env q s1) in
  fst (PersistenceService.saveQueueConfig env q cfg s) = Ok tt /\
  PersistenceService.loadQueueConfig env q s1 = (Ok (Some (Js.Own cfg)), s1) /\
  (forall q', q' <> q ->
     fst (PersistenceService.loadQueueConfig env q' s1)
     = fst (PersistenceService.loadQueueConfig env q' s)) /\
  fst (PersistenceService.removeQueueConfig env q s1) = Ok true /\
  PersistenceService.loadQueueConfig env q s2 = (Ok None, s2) /\
  PersistenceService.removeQueueConfig env q s2 = (Ok false, s2) /\
  (queues (persistence s) !! q = None -> s2 = s).
Proof.
  intros Hname Hready Hload Hsave Hremove s1 s2. subst s2 s1.
  rewrite (saveQueueConfig_ok env q cfg s Hready Hload Hsave). cbn [fst snd].
  set (s1 := set_persistence _ s).
  assert (Hr1 : isReady (persistence s1) = true) by exact Hready.
  assert (Hq1 : queues (persistence s1) = <[q := cfg]> (queues (persistence s))).
  { subst s1. cbn. apply setProperty_insert, inherited_proto, Hname. }
  rewrite (removeQueueConfig_ok env q s1 Hr1 Hload Hremove).
  rewrite Hq1, (getProperty_own q cfg) by apply lookup_insert_eq. cbn [fst snd].
  set (s2 := set_persistence _ s1).
  assert (Hr2 : isReady (persistence s2) = true) by exact Hready.
  assert (Hq2 : queues (persistence s2) = delete q (<[q := cfg]> (queues (persistence s)))).
  { change (delete q (queues (persistence s1)) = delete q (<[q := cfg]> (queues (persistence s)))).
    now rewrite Hq1. }
  rewrite (removeQueueConfig_ok env q s2 Hr2 Hload Hremove).
  rewrite (loadQueueConfig_ok env q s1 Hr1 Hload), (loadQueueConfig_ok env q s2 Hr2 Hload).
  rewrite Hq2, Hq1, (getProperty_own q cfg) by apply lookup_insert_eq.
  rewrite getProperty_none by apply lookup_delete_eq. rewrite Hname.
  repeat split.
  - intros q' Hne.
    rewrite (loadQueueConfig_ok env q' s1 Hr1 Hload), (loadQueueConfig_ok env q' s Hready Hload).
    cbn [fst]. unfold Js.getProperty. now rewrite Hq1, lookup_insert_ne.
  - intros Hnone. subst s2 s1.
    assert (Hs1 : set_persistence
                    (fun p => mkPersistence (isReady p) (Js.setProperty q cfg (queues p))) s
                  = set_persistence
                      (fun p => mkPersistence (isReady p) (<[q := cfg]> (queues p))) s).
    { unfold set_persistence. now rewrite (setProperty_insert q cfg _ (inherited_proto q Hname)). }
    rewrite Hs1. destruct s as [r d st w c [rd qs] rc].
    unfold set_persistence. cbn in *. now rewrite delete_insert_id.
Qed.

Lemma store_round_trips_witness :
  let s1 := snd (PersistenceService.saveQueueConfig Sample.env200 "orders"
                   Sample.ordersPersisted Sample.sys0) in
  PersistenceService.loadQueueConfig Sample.env200 "orders" s1
  = (Ok (Some (Js.Own Sample.ordersPersisted)), s1) /\
  snd (PersistenceService.removeQueueConfig Sample.env200 "orders" s1) = Sample.sys0.
Proof.
  destruct (store_round_trips Sample.env200 "orders" Sample.ordersPersisted Sample.sys0)
    as (_ & Hload & _ & _ & _ & _ & Hback); try reflexivity.
  split; [exact Hload | apply Hback; reflexivity].
Defined.

(** X21: the store looks names up as properties of a plain object.
    [hasQueueConfig] never throws and never writes; it answers [true]
    exactly when the store is ready, the file can be read and the name
    is a key of the document or a property name of [Object.prototype]
    ([toString], [constructor], [__proto__], ...), also on an empty
    store.  For a name without a key of its own, [removeQueueConfig]
    changes nothing and answers [true] exactly for those property
    names, every time it is called; and saving under [__proto__]
    returns normally and stores nothing.  On a store that is not ready
    or cannot be read, saving and removing throw before any write. *)
Theorem store_looks_names_up_as_properties env (q : string) (cfg : PersistedConfig)
    (s : Sys) :
  PersistenceService.hasQueueConfig env q s
  = (Ok (isReady (persistence s) && negb (loadFails env)
         && (bool_decide (is_Some (queues (persistence s) !! q)) || Js.inherited q)), s) /\
  (isReady (persistence s) = true -> loadFails env = false ->
   queues (persistence s) !! q = None ->
   (removeFails env q = false ->
    PersistenceService.removeQueueConfig env q s = (Ok (Js.inherited q), s)) /\
   (saveFails env q = false -> q = "__proto__" ->
    PersistenceService.saveQueueConfig env q cfg s = (Ok tt, s))) /\
  (isReady (persistence s) = false \/ loadFails env = true ->
   (exists t, PersistenceService.saveQueueConfig env q cfg s = (Throw t, s)) /\
   (exists t, PersistenceService.removeQueueConfig env q s = (Throw t, s))).
Proof.
  split; [|split].
  - unfold PersistenceService.hasQueueConfig, PersistenceService.loadQueueConfig,
      PersistenceService.loadQueueConfigs, Js.getProperty.
    msimpl.
    destruct (isReady (persistence s)); cbn [negb andb]; [|reflexivity].
    destruct (loadFails env); cbn [negb andb]; [reflexivity|].
    destruct (queues (persistence s) !! q) as [v|] eqn:E.
    + rewrite !bool_decide_eq_true_2 by eauto. reflexivity.
    + rewrite (bool_decide_eq_false_2 (is_Some None)) by (intros [x Hx]; discriminate Hx).
      destruct (Js.inherited q).
      * rewrite bool_decide_eq_true_2 by eauto. reflexivity.
      * rewrite bool_decide_eq_false_2 by (intros [x Hx]; discriminate Hx). reflexivity.
  - intros Hready Hload Hnone. split.
    + intros Hremove. rewrite (removeQueueConfig_ok env q s Hready Hload Hremove).
      rewrite (getProperty_none q _ Hnone).
      destruct (Js.inherited q); [|reflexivity].
      f_equal. apply set_persistence_same. now apply delete_id.
    + intros Hsave ->. rewrite (saveQueueConfig_ok env _ cfg s Hready Hload Hsave).
      f_equal. apply set_persistence_same.
      unfold Js.setProperty. rewrite Hnone.
      rewrite bool_decide_eq_false_2 by (intros [x Hx]; discriminate Hx). reflexivity.
  - unfold PersistenceService.saveQueueConfig, PersistenceService.removeQueueConfig. msimpl.
    intros [Hn|Hl].
    + rewrite Hn. cbn [negb]. split; eexists; reflexivity.
    + rewrite Hl. destruct (isReady (persistence s)); cbn [negb orb];
        split; eexists; reflexivity.
Qed.

(** On the empty store of [Sample.sys0]: [toString] has a
    configuration, is removed with success twice and is still there;
    a configuration saved under [__proto__] is not stored. *)
Example store_toString :
  fst (PersistenceService.hasQueueConfig Sample.env200 "toString" Sample.sys0) = Ok true /\
  PersistenceService.removeQueueConfig Sample.env200 "toString" Sample.sys0
  = (Ok true, Sample.sys0) /\
  fst (QueueController.removePersistedQueue Sample.env200 "toString" Sample.sys0) = Ok 200 /\
  queues (persistence (snd (PersistenceService.saveQueueConfig Sample.env200 "__proto__"
                              Sample.ordersPersisted Sample.sys0))) = ∅.
Proof. vm_compute. repeat split. Qed.

(** ** The engine: starting, stopping, pausing *)

Lemma safe_call_ok {A} op (a : A) s :
  RabbitMQService.isChannelReady (rabbit s) = true ->
  RabbitMQService.safeChannelOperation (RabbitMQService.channelCall op (inr a)) s
  = (Ok a, logOp op s).
Proof.
  intros Hready.
  unfold RabbitMQService.safeChannelOperation, RabbitMQService.channelCall. msimpl.
  now rewrite Hready.
Qed.

(** While the channel is not ready no operation is run: the call
    fails with "Channel not ready" after asking for a reconnection. *)
Lemma safe_call_not_ready {A} (operation : M A) s :
  RabbitMQService.isChannelReady (rabbit s) = false ->
  RabbitMQService.safeChannelOperation operation s
  = (Throw (ThrownError (plainError "Channel not ready")),
     emitRabbit (needsReconnection (plainError "Channel not ready")) s).
Proof.
  intros Hready. unfold RabbitMQService.safeChannelOperation, RabbitMQService.emit. msimpl.
  now rewrite Hready.
Qed.

(** X22: a successful start.  For an accepted configuration of a queue
    that is not consumed yet, with the channel ready and the broker
    accepting [checkQueue] and [consume], [startConsuming] returns the
    configuration it registered: the sanitised intervals, not paused,
    no message counted; the consumer table and the delay table get
    their entry; exactly the two broker calls are made; and the
    configuration is assigned to the property of the queue's name in
    the stored document, which stores it for every name but
    [__proto__], unless the store is not ready or cannot be written,
    which the start ignores. *)
Theorem startConsuming_registers_and_persists env (q url : string) (mi ma : option Z)
    (bh : option BusinessHours) (tag : string) (s : Sys) :
  isInitialized (consumer s) = true ->
  MessageProcessor.isValid (MessageProcessor.validateQueueConfig env q url mi ma bh) = true ->
  activeConsumers (consumer s) !! q = None ->
  RabbitMQService.isChannelReady (rabbit s) = true ->
  checkQueueFails env q = None ->
  consumeResult env q = inr tag ->
  listenerThrows env (consumerStarted q) = false ->
  let mn := fst (helpers.sanitizeIntervals mi ma) in
  let mx := snd (helpers.sanitizeIntervals mi ma) in
  let cfg := mkConsumerConfig tag url mn mx bh false None 0 in
  let r := ConsumerService.startConsuming env q url mi ma bh s in
  fst r = Ok cfg /\
  activeConsumers (consumer (snd r)) = <[q := cfg]> (activeConsumers (consumer s)) /\
  queueIntervals (consumer (snd r))
  = <[q := ConsumerService.getRandomInterval env mn mx]> (queueIntervals (consumer s)) /\
  brokerLog (rabbit (snd r))
  = List.app (brokerLog (rabbit s)) [OpCheckQueue q; OpConsume q] /\
  queues (persistence (snd r))
  = (if isReady (persistence s) && negb (loadFails env || saveFails env q)
     then Js.setProperty q (mkPersistedConfig url (Some mn) (Some mx) bh (now env))
            (queues (persistence s))
     else queues (persistence s)) /\
  (q <> "__proto__" ->
   isReady (persistence s) && negb (loadFails env || saveFails env q) = true ->
   queues (persistence (snd r)) !! q
   = Some (mkPersistedConfig url (Some mn) (Some mx) bh (now env))) /\
  cs_emitted (consumer (snd r)) = List.app (cs_emitted (consumer s)) [consumerStarted q].
Proof.
  intros Hinit Hvalid Hnone Hready Hcheck Hconsume Hlisten mn mx cfg r.
  subst r cfg mn mx.
  unfold ConsumerService.startConsuming. msimpl. rewrite Hinit, Hvalid. cbn [negb].
  destruct (helpers.sanitizeIntervals mi ma) as [mn mx]. cbn [fst snd].
  rewrite Hnone. rewrite bool_decide_eq_false_2 by (intros [x Hx]; discriminate Hx).
  unfold RabbitMQService.checkQueue, RabbitMQService.createConsumer.
  rewrite Hcheck, Hconsume. cbn [RabbitMQService.failing].
  rewrite (safe_call_ok (OpCheckQueue q) tt s Hready).
  rewrite (safe_call_ok (OpConsume q) tag (logOp (OpCheckQueue q) s) Hready).
  unfold ConsumerService.setActive, ConsumerService.setIntervals, ConsumerService.emit,
    PersistenceService.saveQueueConfig, PersistenceService.setQueues.
  msimpl. rewrite Hlisten.
  cbn [persistence set_consumer logOp set_rabbit].
  assert (Hset : q <> "__proto__" ->
                 forall (v : PersistedConfig) o, Js.setProperty q v o !! q = Some v).
  { intros Hq v o. rewrite setProperty_insert by (now apply String.eqb_neq).
    apply lookup_insert_eq. }
  destruct (isReady (persistence s)); cbn [negb andb].
  - destruct (loadFails env || saveFails env q); cbn [negb];
      cbn; rewrite <- !app_assoc; repeat split; try reflexivity;
      try (intros; discriminate); intros Hq _; now apply Hset.
  - cbn; rewrite <- !app_assoc; repeat split; try reflexivity;
      intros; discriminate.
Qed.

Lemma startConsuming_registers_and_persists_witness :
  let r := ConsumerService.startConsuming Sample.env200 "orders" "https://example.com/hook"
             None None (Some (mkHours 8 21)) Sample.sys0 in
  fst r = Ok (mkConsumerConfig "ctag-orders" "https://example.com/hook" 30000 110000
                (Some (mkHours 8 21)) false None 0) /\
  activeConsumers (consumer (snd r)) !! "orders"
  = Some (mkConsumerConfig "ctag-orders" "https://example.com/hook" 30000 110000
            (Some (mkHours 8 21)) false None 0) /\
  queueIntervals (consumer (snd r)) !! "orders" = Some 30000 /\
  brokerLog (rabbit (snd r)) = [OpCheckQueue "orders"; OpConsume "orders"] /\
  queues (persistence (snd r)) !! "orders"
  = Some (mkPersistedConfig "https://example.com/hook" (Some 30000) (Some 110000)
            (Some (mkHours 8 21)) 1700000000000).
Proof.
  destruct (startConsuming_registers_and_persists Sample.env200 "orders"
              "https://example.com/hook" None None (Some (mkHours 8 21)) "ctag-orders"
              Sample.sys0)
    as (Hr & Ha & Hi & Hb & _ & Hq & _); try reflexivity.
  cbv zeta. rewrite Hr, Ha, Hi, Hb, Hq; [repeat split | discriminate | reflexivity].
Defined.

Lemma onlyBrokerTouched_refl s : onlyBrokerTouched s s.
Proof. repeat split. Qed.

Lemma onlyBrokerTouched_checkQueue env x s :
  onlyBrokerTouched s (snd (RabbitMQService.checkQueue env x s)).
Proof.
  apply (frame_checkQueue (onlyBrokerTouched s)); [|apply onlyBrokerTouched_refl].
  intros f s' H. exact H.
Qed.

Lemma onlyBrokerTouched_createConsumer env x s0 s :
  onlyBrokerTouched s0 s ->
  onlyBrokerTouched s0 (snd (RabbitMQService.createConsumer env x s)).
Proof.
  apply (frame_createConsumer (onlyBrokerTouched s0)).
  intros f s' H. exact H.
Qed.

(** The two ways [startConsuming] ends: it throws before the consumer
    table is touched (a listener of [consumerStarted] apart), or it
    returns the configuration it registered. *)
Lemma startConsuming_outcome env q url mi ma bh s :
  match fst (ConsumerService.startConsuming env q url mi ma bh s) with
  | Ok cfg =>
      activeConsumers (consumer s) !! q = None /\
      activeConsumers (consumer (snd (ConsumerService.startConsuming env q url mi ma bh s)))
      = <[q := cfg]> (activeConsumers (consumer s)) /\
      cc_paused cfg = false /\ messageCount cfg = 0 /\ lastMessage cfg = None /\
      cc_webhook cfg = url /\ cc_businessHours cfg = bh /\
      cc_minInterval cfg = fst (helpers.sanitizeIntervals mi ma) /\
      cc_maxInterval cfg = snd (helpers.sanitizeIntervals mi ma)
  | Throw _ =>
      (listenerThrows env (consumerStarted q) = false ->
       onlyBrokerTouched s (snd (ConsumerService.startConsuming env q url mi ma bh s))) /\
      (is_Some (activeConsumers (consumer s) !! q) ->
       snd (ConsumerService.startConsuming env q url mi ma bh s) = s)
  end.
Proof.
  unfold ConsumerService.startConsuming. msimpl.
  destruct (isInitialized (consumer s)); cbn [negb fst snd];
    [|split; [intros _; apply onlyBrokerTouched_refl | reflexivity]].
  destruct (MessageProcessor.isValid _); cbn [negb fst snd];
    [|split; [intros _; apply onlyBrokerTouched_refl | reflexivity]].
  destruct (helpers.sanitizeIntervals mi ma) as [mn mx].
  destruct (bool_decide (is_Some (activeConsumers (consumer s) !! q))) eqn:Hhas;
    cbn [fst snd]; [split; [intros _; apply onlyBrokerTouched_refl | reflexivity]|].
  apply bool_decide_eq_false in Hhas.
  assert (Hnone : activeConsumers (consumer s) !! q = None).
  { destruct (activeConsumers (consumer s) !! q) eqn:E; [elim Hhas; eauto | reflexivity]. }
  pose proof (onlyBrokerTouched_checkQueue env q s) as H1.
  destruct (RabbitMQService.checkQueue env q s) as [[[]|t1] s1]; cbn [fst snd] in *;
    [|split; [intros _; exact H1 | intros Habs; now elim Hhas]].
  pose proof (onlyBrokerTouched_createConsumer env q s s1 H1) as H2.
  destruct (RabbitMQService.createConsumer env q s1) as [[tag|t2] s2]; cbn [fst snd] in *;
    [|split; [intros _; exact H2 | intros Habs; now elim Hhas]].
  unfold ConsumerService.setActive, ConsumerService.setIntervals, ConsumerService.emit.
  msimpl.
  destruct H2 as (_ & _ & _ & Hc & _).
  match goal with
  | |- context [ PersistenceService.saveQueueConfig env q ?c ?st ] =>
      assert (Hp : consumer (snd (PersistenceService.saveQueueConfig env q c st)) = consumer st)
        by (unfold PersistenceService.saveQueueConfig, PersistenceService.setQueues; msimpl;
            destruct (isReady (persistence st)); [|reflexivity];
            destruct (loadFails env || saveFails env q); reflexivity);
      destruct (PersistenceService.saveQueueConfig env q c st) as [[[]|t3] s3]
  end; cbn [snd] in Hp;
    (destruct (listenerThrows env (consumerStarted q)); cbn [fst snd];
     [split; [discriminate | intros Habs; now elim Hhas]|]);
    cbn [consumer set_consumer activeConsumers]; rewrite Hp; cbn; rewrite Hc;
    repeat split; assumption.
Qed.

(** X23: a start that fails registers nothing.  When [startConsuming]
    throws (not initialised, configuration refused, queue already
    consumed, the channel not ready, the broker refusing [checkQueue]
    or [consume]) and no listener of [consumerStarted] is at fault,
    the consumer table, the delay table, the store and every service
    but the broker client are what they were; a start of a queue that
    is already consumed changes nothing at all. *)
Theorem failed_start_registers_nothing env (q url : string) (mi ma : option Z)
    (bh : option BusinessHours) (s : Sys) (t : Thrown) :
  fst (ConsumerService.startConsuming env q url mi ma bh s) = Throw t ->
  listenerThrows env (consumerStarted q) = false ->
  onlyBrokerTouched s (snd (ConsumerService.startConsuming env q url mi ma bh s)) /\
  (is_Some (activeConsumers (consumer s) !! q) ->
   snd (ConsumerService.startConsuming env q url mi ma bh s) = s).
Proof.
  intros Hthrow Hlisten.
  pose proof (startConsuming_outcome env q url mi ma bh s) as Hout.
  rewrite Hthrow in Hout. destruct Hout as [H1 H2]. split; [now apply H1 | exact H2].
Qed.

Lemma failed_start_registers_nothing_witness :
  let r := ConsumerService.startConsuming (SampleBroker.envRaising SampleBroker.queueGone)
             "orders" "https://example.com/hook" None None None Sample.sys0 in
  onlyBrokerTouched Sample.sys0 (snd r) /\
  (is_Some (activeConsumers (consumer Sample.sys0) !! "orders") -> snd r = Sample.sys0).
Proof.
  apply (failed_start_registers_nothing (SampleBroker.envRaising SampleBroker.queueGone)
           "orders" "https://example.com/hook" None None None Sample.sys0
           (ThrownError SampleBroker.queueGone)); reflexivity.
Defined.

(** X24: [POST /consume] always answers, with 201, 400, 404, 500 or
    503.  It answers 201 exactly when the engine registered the queue,
    which was not consumed before; with any other answer, and no
    listener at fault, nothing but the broker client has changed; for a
    queue that is already consumed the answer is not 201 and the state
    is untouched. *)
Theorem api_consume_answers_201_exactly_when_registered env (q url : string)
    (mi ma : option Z) (bh : option BusinessHours) (s : Sys) :
  let r := QueueController.startConsuming env q url mi ma bh s in
  (exists code, fst r = Ok code /\ In code [201; 400; 404; 500; 503]) /\
  (fst r = Ok 201 ->
   activeConsumers (consumer s) !! q = None /\
   is_Some (activeConsumers (consumer (snd r)) !! q)) /\
  (fst r <> Ok 201 -> listenerThrows env (consumerStarted q) = false ->
   onlyBrokerTouched s (snd r)) /\
  (is_Some (activeConsumers (consumer s) !! q) -> exists code, r = (Ok code, s) /\ code <> 201).
Proof.
  intros r. subst r. unfold QueueController.startConsuming, QueueController.respond.
  destruct (negb (helpers.isValidQueueName q)).
  { cbn. repeat split; try discriminate; eauto 10 using onlyBrokerTouched_refl. }
  destruct (negb (helpers.isValidUrl (urlParses env) url)).
  { cbn. repeat split; try discriminate; eauto 10 using onlyBrokerTouched_refl. }
  msimpl.
  destruct (negb (isInitialized (consumer s))).
  { cbn. repeat split; try discriminate; eauto 10 using onlyBrokerTouched_refl. }
  destruct (bool_decide (is_Some (activeConsumers (consumer s) !! q))) eqn:Hhas.
  { cbn. repeat split; try discriminate; eauto 10 using onlyBrokerTouched_refl. }
  apply bool_decide_eq_false in Hhas.
  match goal with
  | |- context [ ConsumerService.startConsuming env q url ?a ?b ?c s ] =>
      pose proof (startConsuming_outcome env q url a b c s) as Hout;
      destruct (ConsumerService.startConsuming env q url a b c s) as [[cfg|t] s1]
  end; cbn [fst snd] in *.
  - destruct Hout as (Hnone & Hact & _).
    split; [exists 201; split; [reflexivity | simpl; auto]|].
    split; [intros _; split; [exact Hnone | rewrite Hact, lookup_insert_eq; eauto]|].
    split; [intros Hne; now elim Hne | intros Habs; now elim Hhas].
  - destruct Hout as [Hout _].
    assert (Hcode : forall b1 b2 : bool,
              (if b1 then 404 else if b2 then 400 else 500) <> 201 /\
              In (if b1 then 404 else if b2 then 400 else 500) [201; 400; 404; 500; 503]).
    { intros [|] [|]; split; try discriminate; simpl; auto. }
    match goal with
    | |- context [ if ?b1 then 404 else if ?b2 then 400 else 500 ] =>
        destruct (Hcode b1 b2) as [Hne Hin]
    end.
    split; [eexists; split; [reflexivity | exact Hin]|].
    split; [intros [= Heq]; now elim Hne|].
    split; [intros _ Hl; now apply Hout | intros Habs; now elim Hhas].
Qed.

(** A start with business hours that end at 24 is refused with 400. *)
Example api_consume_hours_until_24 :
  QueueController.startConsuming Sample.env200 "orders" "https://example.com/hook"
    None None (Some (mkHours 8 24)) Sample.sys0 = (Ok 400, Sample.sys0).
Proof. vm_compute. reflexivity. Qed.

Lemma alter_setPaused_back q c (m : gmap string ConsumerConfig) :
  m !! q = Some c -> cc_paused c = false ->
  alter (ConsumerService.setPaused false) q (alter (ConsumerService.setPaused true) q m) = m.
Proof.
  intros Hq Hp. rewrite alter_alter_eq. apply map_eq. intros k.
  destruct (decide (k = q)) as [->|Hne].
  - rewrite lookup_alter_eq, Hq. cbn. f_equal. destruct c. cbn in *. now subst.
  - now rewrite lookup_alter_ne.
Qed.

(** X25: pausing and resuming are local and undo each other.  For a
    consumed queue that is not paused, [pauseConsuming] sets the flag,
    a second pause throws "already paused" and a resume of the queue
    that is not paused throws "not paused", both without any effect;
    resuming after the pause gives back the consumer table and the
    delay table as they were.  No call reaches the broker and the
    store is not written: the consumer stays subscribed while the queue
    is paused. *)
Theorem pause_then_resume_restores_the_consumer env (q : string) (c : ConsumerConfig)
    (s : Sys) :
  activeConsumers (consumer s) !! q = Some c ->
  cc_paused c = false ->
  listenerThrows env (consumerPaused q) = false ->
  listenerThrows env (consumerResumed q) = false ->
  let s1 := snd (ConsumerService.pauseConsuming env q s) in
  let s2 := snd (ConsumerService.resumeConsuming env q s1) in
  fst (ConsumerService.pauseConsuming env q s) = Ok tt /\
  activeConsumers (consumer s1) !! q = Some (ConsumerService.setPaused true c) /\
  ConsumerService.pauseConsuming env q s1
  = (Throw (ConsumerService.error ("Queue " +:+ q +:+ " is already paused")), s1) /\
  ConsumerService.resumeConsuming env q s
  = (Throw (ConsumerService.error ("Queue " +:+ q +:+ " is not paused")), s) /\
  fst (ConsumerService.resumeConsuming env q s1) = Ok tt /\
  activeConsumers (consumer s2) = activeConsumers (consumer s) /\
  queueIntervals (consumer s2) = queueIntervals (consumer s) /\
  rabbit s2 = rabbit s /\ persistence s2 = persistence s.
Proof.
  intros Hq Hp Hl1 Hl2 s1 s2.
  assert (E1 : ConsumerService.pauseConsuming env q s
               = (Ok tt,
                  set_consumer (fun co =>
                    mkConsumer (alter (ConsumerService.setPaused true) q (activeConsumers co))
                      (queueIntervals co) (isShuttingDown co) (isInitialized co)
                      (List.app (cs_emitted co) [consumerPaused q])) s)).
  { unfold ConsumerService.pauseConsuming, ConsumerService.setActive, ConsumerService.emit.
    msimpl. rewrite Hq, Hp, Hl1. reflexivity. }
  subst s2 s1. rewrite E1. cbn [fst snd].
  set (s1 := set_consumer _ s).
  assert (Hq1 : activeConsumers (consumer s1) !! q = Some (ConsumerService.setPaused true c)).
  { subst s1. cbn. now rewrite lookup_alter_eq, Hq. }
  assert (E2 : ConsumerService.resumeConsuming env q s1
               = (Ok tt,
                  set_consumer (fun co =>
                    mkConsumer (alter (ConsumerService.setPaused false) q (activeConsumers co))
                      (queueIntervals co) (isShuttingDown co) (isInitialized co)
                      (List.app (cs_emitted co) [consumerResumed q])) s1)).
  { unfold ConsumerService.resumeConsuming, ConsumerService.setActive, ConsumerService.emit.
    msimpl. rewrite Hq1. cbn [cc_paused ConsumerService.setPaused negb]. now rewrite Hl2. }
  rewrite E2. cbn [fst snd].
  split; [reflexivity|]. split; [exact Hq1|]. split; [|split; [|split; [reflexivity|]]].
  - unfold ConsumerService.pauseConsuming. msimpl. now rewrite Hq1.
  - unfold ConsumerService.resumeConsuming. msimpl. now rewrite Hq, Hp.
  - subst s1. cbn. rewrite (alter_setPaused_back q c _ Hq Hp). repeat split.
Qed.

Lemma pause_then_resume_restores_the_consumer_witness :
  let s1 := snd (ConsumerService.pauseConsuming Sample.env200 "orders" Sample.sysOrders) in
  let s2 := snd (ConsumerService.resumeConsuming Sample.env200 "orders" s1) in
  activeConsumers (consumer s1) !! "orders"
  = Some (ConsumerService.setPaused true Sample.ordersConsumer) /\
  activeConsumers (consumer s2) = activeConsumers (consumer Sample.sysOrders) /\
  rabbit s2 = rabbit Sample.sysOrders.
Proof.
  destruct (pause_then_resume_restores_the_consumer Sample.env200 "orders"
              Sample.ordersConsumer Sample.sysOrders)
    as (_ & H1 & _ & _ & _ & H2 & _ & H3 & _); try reflexivity.
  split; [exact H1|]. split; [exact H2 | exact H3].
Defined.

(** X26: stopping and the channel.  When the broker refuses the
    [cancel], [stopConsuming] throws that error after the one call and
    the queue stays registered: the consumer table, the delay table and
    the store are as before.  When the channel is not ready, no call is
    made at all and the queue is removed locally, whatever the
    reason. *)
Theorem stopConsuming_and_the_channel env (q reason : string) (c : ConsumerConfig) (s : Sys) :
  activeConsumers (consumer s) !! q = Some c ->
  consumerTag c <> "" ->
  let r := ConsumerService.stopConsuming env q reason s in
  (RabbitMQService.isChannelReady (rabbit s) = true ->
   forall e, cancelFails env (consumerTag c) = Some e ->
     fst r = Throw (ThrownError e) /\
     onlyBrokerTouched s (snd r) /\
     brokerLog (rabbit (snd r)) = List.app (brokerLog (rabbit s)) [OpCancel (consumerTag c)]) /\
  (RabbitMQService.isChannelReady (rabbit s) = false ->
   listenerThrows env (consumerStopped q reason) = false ->
     fst r = Ok (messageCount c) /\
     rabbit (snd r) = rabbit s /\
     activeConsumers (consumer (snd r)) = delete q (activeConsumers (consumer s)) /\
     queueIntervals (consumer (snd r)) = delete q (queueIntervals (consumer s))).
Proof.
  intros Hq Htag r. subst r.
  assert (Hne : String.eqb (consumerTag c) "" = false) by (now apply String.eqb_neq).
  split.
  - intros Hready e He.
    unfold ConsumerService.stopConsuming. msimpl. rewrite Hq, Hne, Hready. cbn [negb andb].
    unfold RabbitMQService.cancelConsumer. rewrite He. cbn [RabbitMQService.failing].
    rewrite (safe_call_error (OpCancel (consumerTag c)) e s Hready).
    cbn [fst snd]. split; [reflexivity|].
    unfold classified. destruct (RabbitMQService._shouldTriggerReconnection e);
      repeat split.
  - intros Hready Hlisten.
    unfold ConsumerService.stopConsuming. msimpl. rewrite Hq, Hne, Hready. cbn [negb andb].
    unfold ConsumerService.setActive, ConsumerService.setIntervals, ConsumerService.emit,
      ConsumerService.removeFromPersistence, PersistenceService.removeQueueConfig,
      PersistenceService.setQueues.
    msimpl. rewrite Hlisten.
    destruct (String.eqb reason "manual"); [|repeat split].
    cbn [persistence set_consumer].
    destruct (isReady (persistence s)); cbn [negb]; [|repeat split].
    destruct (loadFails env); [repeat split|].
    destruct (Js.getProperty _ _); [|repeat split].
    destruct (removeFails env q); repeat split.
Qed.

Lemma stopConsuming_and_the_channel_witness :
  let r := ConsumerService.stopConsuming (SampleBroker.envRaising SampleBroker.channelGone)
             "orders" "manual" Sample.sysOrders in
  fst r = Throw (ThrownError SampleBroker.channelGone) /\
  onlyBrokerTouched Sample.sysOrders (snd r) /\
  brokerLog (rabbit (snd r)) = [OpCancel "ctag-orders"].
Proof.
  destruct (stopConsuming_and_the_channel (SampleBroker.envRaising SampleBroker.channelGone)
              "orders" "manual" Sample.ordersConsumer Sample.sysOrders)
    as [Hready _].
  - reflexivity.
  - discriminate.
  - apply (Hready eq_refl SampleBroker.channelGone). reflexivity.
Defined.

(** ** The engine: deliveries, reconnects, outages, shutdown *)

(** [processMessage] leaves the consumer table, the store and the
    reconnection controller alone. *)
Lemma processMessage_frame env msg qc s :
  let s' := snd (MessageProcessor.processMessage env msg qc s) in
  consumer s' = consumer s /\ persistence s' = persistence s /\
  reconnection s' = reconnection s.
Proof.
  apply (frame_processMessage
           (fun s' => consumer s' = consumer s /\ persistence s' = persistence s /\
                      reconnection s' = reconnection s));
    try (intros; assumption).
  repeat split.
Qed.

Lemma returns_processMessage env msg qc : returns (MessageProcessor.processMessage env msg qc).
Proof.
  intros s. destruct msg as [m|]; [|now eexists].
  unfold MessageProcessor.processMessage, try_finally.
  destruct (returns_processMessage_try env m (helpers.generateMessageId m) qc s) as [d Hd].
  match goal with
  | |- context [ try_catch ?c ?h s ] => destruct (try_catch c h s) as [r s1]
  end.
  simpl in Hd. subst r. now exists d.
Qed.

(** X27: the message handler on a delivery.  It never throws and never
    writes the store.  For a consumed queue the delivery is handed to
    [processMessage] with the pause flag of the table, and whatever the
    disposition (a duplicate and a nack included) and whether or not a
    listener of [messageProcessed] throws, [messageCount] goes up by
    one and [lastMessage] is replaced only by a truthy content of a
    success; every other field and every other queue is kept.  For a
    queue that is not in the table the delivery is nacked with requeue
    and nothing else happens. *)
Theorem handler_counts_every_delivery env (q url : string) (mi ma : Z)
    (bh : option BusinessHours) (m : Message) (s : Sys) :
  let s' := snd (ConsumerService.createMessageHandler env q url mi ma bh (Some m) s) in
  fst (ConsumerService.createMessageHandler env q url mi ma bh (Some m) s) = Ok tt /\
  persistence s' = persistence s /\
  match activeConsumers (consumer s) !! q with
  | Some c =>
      exists d,
        fst (MessageProcessor.processMessage env (Some m)
               (mkQueueConfig q url (Some mi) (Some ma) bh (cc_paused c)) s) = Ok d /\
        activeConsumers (consumer s')
        = <[q := ConsumerService.bumpCount (messageContent d) c]> (activeConsumers (consumer s))
  | None =>
      s' = (if RabbitMQService.isChannelReady (rabbit s)
            then logOp (OpNack m false true) s else s)
  end.
Proof.
  intros s'. subst s'. unfold ConsumerService.createMessageHandler. msimpl.
  destruct (activeConsumers (consumer s) !! q) as [c|] eqn:Hq.
  2:{ rewrite nackMessage_eq. repeat split.
      destruct (RabbitMQService.isChannelReady (rabbit s)); reflexivity. }
  set (qc := mkQueueConfig q url (Some mi) (Some ma) bh (cc_paused c)).
  destruct (returns_processMessage env (Some m) qc s) as [d Hd].
  pose proof (processMessage_frame env (Some m) qc s) as (Hc & Hp & _).
  destruct (MessageProcessor.processMessage env (Some m) qc s) as [r s1].
  cbn [fst snd] in Hd, Hc, Hp. subst r.
  unfold ConsumerService.afterProcessing, ConsumerService.setActive,
    ConsumerService.setIntervals, ConsumerService.emit.
  msimpl.
  assert (Halter : alter (ConsumerService.bumpCount (messageContent d)) q
                     (activeConsumers (consumer s))
                   = <[q := ConsumerService.bumpCount (messageContent d) c]>
                       (activeConsumers (consumer s))).
  { apply map_eq. intros k. destruct (decide (k = q)) as [->|Hne].
    - now rewrite lookup_alter_eq, lookup_insert_eq, Hq.
    - now rewrite lookup_alter_ne, lookup_insert_ne. }
  destruct (action d) eqn:Ha.
  - destruct (String.eqb (reason d) "success");
      destruct (listenerThrows env (messageProcessed q));
      rewrite ?nackMessage_eq; cbn [fst snd];
      repeat match goal with
             | |- context [RabbitMQService.isChannelReady ?r] =>
                 destruct (RabbitMQService.isChannelReady r)
             end;
      cbn; rewrite Hc, Hp, Halter; (split; [reflexivity|]); (split; [reflexivity|]);
      exists d; split; reflexivity.
  - destruct (listenerThrows env (messageProcessed q));
      rewrite ?nackMessage_eq; cbn [fst snd];
      repeat match goal with
             | |- context [RabbitMQService.isChannelReady ?r] =>
                 destruct (RabbitMQService.isChannelReady r)
             end;
      cbn; rewrite Hc, Hp, Halter; (split; [reflexivity|]); (split; [reflexivity|]);
      exists d; split; reflexivity.
  - destruct (listenerThrows env (messageProcessed q));
      cbn; rewrite Hc, Hp, Halter; (split; [reflexivity|]); (split; [reflexivity|]);
      exists d; split; reflexivity.
Qed.

(** A delivery for the paused queue [orders]: nacked and counted. *)
Example paused_delivery_counted :
  let s1 := snd (ConsumerService.pauseConsuming Sample.env200 "orders" Sample.sysOrders) in
  let s2 := snd (ConsumerService.createMessageHandler Sample.env200 "orders"
                   "https://example.com/hook" 30000 110000 (Some (mkHours 8 21))
                   (Some Sample.msg1) s1) in
  option_map messageCount (activeConsumers (consumer s2) !! "orders") = Some 1 /\
  brokerLog (rabbit s2) = [OpNack Sample.msg1 false true] /\
  httpLog (webhook s2) = [].
Proof. vm_compute. repeat split. Qed.

Lemma removeFromPersistence_consumer env q s :
  consumer (snd (ConsumerService.removeFromPersistence env q s)) = consumer s.
Proof.
  unfold ConsumerService.removeFromPersistence, PersistenceService.removeQueueConfig,
    PersistenceService.setQueues. msimpl.
  destruct (negb (isReady (persistence s))); [reflexivity|].
  destruct (loadFails env); [reflexivity|].
  destruct (Js.getProperty _ _); [|reflexivity].
  destruct (removeFails env q); reflexivity.
Qed.

Lemma reestablishBody_outcome env q cfg s :
  listenerThrows env (consumerStarted q) = false ->
  match fst (ConsumerService.reestablishBody env q cfg s) with
  | Ok _ =>
      exists tag,
        activeConsumers (consumer (snd (ConsumerService.reestablishBody env q cfg s)))
        = <[q := mkConsumerConfig tag (cc_webhook cfg)
                   (fst (helpers.sanitizeIntervals (Some (cc_minInterval cfg))
                           (Some (cc_maxInterval cfg))))
                   (snd (helpers.sanitizeIntervals (Some (cc_minInterval cfg))
                           (Some (cc_maxInterval cfg))))
                   (cc_businessHours cfg) (cc_paused cfg) (lastMessage cfg)
                   (messageCount cfg)]>
            (activeConsumers (consumer s))
  | Throw _ =>
      consumer (snd (ConsumerService.reestablishBody env q cfg s)) = consumer s
  end.
Proof.
  intros Hlisten. unfold ConsumerService.reestablishBody, bind.
  pose proof (onlyBrokerTouched_checkQueue env q s) as H1.
  destruct (RabbitMQService.checkQueue env q s) as [[[]|t1] s1]; cbn [fst snd] in *;
    destruct H1 as (_ & _ & _ & Hc & _); [|exact Hc].
  pose proof (startConsuming_outcome env q (cc_webhook cfg) (Some (cc_minInterval cfg))
                (Some (cc_maxInterval cfg)) (cc_businessHours cfg) s1) as Hout.
  destruct (ConsumerService.startConsuming env q (cc_webhook cfg) (Some (cc_minInterval cfg))
              (Some (cc_maxInterval cfg)) (cc_businessHours cfg) s1) as [[c|t2] s2];
    cbn [fst snd] in *.
  - destruct Hout as (Hnone & Hact & Hp & Hm & Hl & Hw & Hb & Hmn & Hmx).
    unfold ConsumerService.setActive. cbn [modify fst snd consumer set_consumer activeConsumers].
    exists (consumerTag c). rewrite Hact, Hc.
    apply map_eq. intros k. destruct (decide (k = q)) as [->|Hne].
    + rewrite lookup_alter_eq, !lookup_insert_eq. cbn. f_equal.
      unfold ConsumerService.restoreState. now rewrite Hw, Hb, Hmn, Hmx.
    + now rewrite lookup_alter_ne, !lookup_insert_ne.
  - destruct Hout as [Hout _]. destruct (Hout Hlisten) as (_ & _ & _ & Hc2 & _).
    now rewrite Hc2, Hc.
Qed.

(** X28: re-establishing a consumer after a reconnect.  When the
    re-establishment of a queue goes through, its new entry has the
    new consumer tag and the webhook, intervals (sanitised again) and
    business hours of the old one, and [paused], [lastMessage] and
    [messageCount] are carried over.  When it fails, whatever the
    error, the consumer table is left as it was: the queue, taken out
    of the table before the loop, is no longer consumed. *)
Theorem reestablished_consumer_keeps_its_state env (q : string) (cfg : ConsumerConfig)
    (s : Sys) :
  listenerThrows env (consumerStarted q) = false ->
  let s' := snd (ConsumerService.reestablish env (q, cfg) s) in
  match fst (ConsumerService.reestablishBody env q cfg s) with
  | Ok _ =>
      exists tag,
        activeConsumers (consumer s')
        = <[q := mkConsumerConfig tag (cc_webhook cfg)
                   (fst (helpers.sanitizeIntervals (Some (cc_minInterval cfg))
                           (Some (cc_maxInterval cfg))))
                   (snd (helpers.sanitizeIntervals (Some (cc_minInterval cfg))
                           (Some (cc_maxInterval cfg))))
                   (cc_businessHours cfg) (cc_paused cfg) (lastMessage cfg)
                   (messageCount cfg)]>
            (activeConsumers (consumer s))
  | Throw _ =>
      activeConsumers (consumer s') = activeConsumers (consumer s)
  end.
Proof.
  intros Hlisten s'. subst s'.
  pose proof (reestablishBody_outcome env q cfg s Hlisten) as Hout.
  unfold ConsumerService.reestablish, try_catch. cbn [fst snd].
  destruct (ConsumerService.reestablishBody env q cfg s) as [[[]|t] s1]; cbn [fst snd] in *.
  - exact Hout.
  - destruct (Js.includes _ _); [rewrite removeFromPersistence_consumer|cbn [ret snd]];
      now rewrite Hout.
Qed.

Lemma reestablished_consumer_keeps_its_state_witness :
  exists tag,
    activeConsumers (consumer (snd (ConsumerService.reestablish Sample.env200
                                      ("orders", SampleOutage.ordersBefore) Sample.sys0)))
    = <["orders" := mkConsumerConfig tag "https://example.com/hook" 30000 110000
                      (Some (mkHours 8 21)) true (Some (JNumber 7)) 42]>
        (activeConsumers (consumer Sample.sys0)).
Proof.
  apply (reestablished_consumer_keeps_its_state Sample.env200 "orders"
           SampleOutage.ordersBefore Sample.sys0).
  reflexivity.
Defined.

Lemma returns_for_each {A} (xs : list A) (body : A -> M unit) :
  (forall x, returns (body x)) -> returns (for_each xs body).
Proof.
  intros H. induction xs as [|x xs IH]; simpl.
  - apply returns_ret.
  - apply returns_bind; [apply H | intros _; exact IH].
Qed.

Lemma downLike_refl s :
  RabbitMQService.isChannelReady (rabbit s) = false -> downLike s s.
Proof. intros H. repeat split. exact H. Qed.

Lemma downLike_emitRabbit s0 ev s : downLike s0 s -> downLike s0 (emitRabbit ev s).
Proof. intros H. exact H. Qed.

(** While the channel is down [checkQueue] fails with "Channel not
    ready", which is neither a missing queue nor, for the engine, a
    connection problem. *)
Lemma downLike_checkQueue s0 env x :
  forall s, downLike s0 s ->
    exists t, fst (RabbitMQService.checkQueue env x s) = Throw t /\
              ConsumerService.isNotFound t = false /\
              ConsumerService.isConnectionProblem t = false /\
              downLike s0 (snd (RabbitMQService.checkQueue env x s)).
Proof.
  intros s H. unfold RabbitMQService.checkQueue.
  rewrite safe_call_not_ready by apply H.
  eexists. split; [reflexivity|]. split; [reflexivity|]. split; [reflexivity|].
  now apply downLike_emitRabbit.
Qed.

Lemma startConsuming_error_not_found env q url mi ma bh :
  ConsumerService.isNotFound
    (ConsumerService.error
       ("Invalid queue configuration: " +:+
        String.concat ", " (MessageProcessor.validateQueueConfig env q url mi ma bh)))
  = false.
Proof.
  unfold MessageProcessor.validateQueueConfig.
  destruct (helpers.sanitizeIntervals mi ma) as [mn mx].
  destruct (negb (helpers.isValidQueueName q)), (negb (helpers.isValidUrl (urlParses env) url)),
    (mx <=? mn), bh as [b|];
    try destruct (_ || _); reflexivity.
Qed.

Lemma downLike_restoreOne s0 env entry :
  forall s, downLike s0 s ->
    fst (ConsumerService.restoreOne env entry s) = Ok [] /\
    downLike s0 (snd (ConsumerService.restoreOne env entry s)).
Proof.
  intros s H. unfold ConsumerService.restoreOne. msimpl.
  destruct (bool_decide _) eqn:Ehas; [now split|].
  unfold ConsumerService.startConsuming. msimpl.
  destruct (isInitialized (consumer s)); cbn [negb]; [|now split].
  destruct (MessageProcessor.isValid _); cbn [negb].
  2:{ rewrite startConsuming_error_not_found. now split. }
  destruct (helpers.sanitizeIntervals _ _) as [mn mx].
  rewrite Ehas.
  destruct (downLike_checkQueue s0 env (fst entry) s H) as (t & Ht & Hnf & _ & Hd).
  destruct (RabbitMQService.checkQueue env (fst entry) s) as [r s1].
  cbn [fst snd] in Ht, Hd. subst r. rewrite Hnf. now split.
Qed.

Lemma downLike_restoreLoop s0 env entries :
  forall s, downLike s0 s ->
    fst (ConsumerService.restoreLoop env entries s) = Ok [] /\
    downLike s0 (snd (ConsumerService.restoreLoop env entries s)).
Proof.
  induction entries as [|entry rest IH]; intros s H; [now split|].
  cbn [ConsumerService.restoreLoop]. unfold bind.
  destruct (downLike_restoreOne s0 env entry s H) as [Hr Hd].
  destruct (ConsumerService.restoreOne env entry s) as [r s1]. cbn [fst snd] in Hr, Hd.
  subst r. destruct (IH s1 Hd) as [Hr2 Hd2].
  destruct (ConsumerService.restoreLoop env rest s1) as [r2 s2]. cbn [fst snd] in Hr2, Hd2.
  subst r2. now split.
Qed.

Lemma downLike_cleanupOne s0 env x :
  preserves (downLike s0) (QueueController.cleanupOne env x).
Proof.
  intros s H. unfold QueueController.cleanupOne, try_catch, bind.
  destruct (downLike_checkQueue s0 env x s H) as (t & Ht & Hnf & _ & Hd).
  destruct (RabbitMQService.checkQueue env x s) as [r s1].
  cbn [fst snd] in Ht, Hd. subst r. unfold ret. rewrite Hnf. exact Hd.
Qed.

(** X29: an outage of the channel removes nothing.  While the channel
    is not ready, the health check of the consumed queues, the sweep of
    orphaned configurations and the restoration of the stored queues
    each leave the consumer table, the delay table and the store as
    they are and make no broker call: "Channel not ready" is not taken
    for a deleted queue, so no consumer is dropped and no stored
    configuration is deleted (and none is restored either). *)
Theorem sweeps_remove_nothing_while_channel_is_down env (s : Sys) :
  RabbitMQService.isChannelReady (rabbit s) = false ->
  downLike s (snd (ConsumerService.healthCheck env s)) /\
  downLike s (snd (QueueController.cleanupOrphanedConfigs env s)) /\
  downLike s (snd (ConsumerService.restorePersistedQueues env s)).
Proof.
  intros Hready. pose proof (downLike_refl s Hready) as H0.
  split; [|split].
  - unfold ConsumerService.healthCheck. msimpl.
    destruct (isShuttingDown (consumer s) || negb (isInitialized (consumer s))); [exact H0|].
    destruct (map fst (map_to_list (activeConsumers (consumer s)))); [exact H0|].
    rewrite Hready. exact H0.
  - unfold QueueController.cleanupOrphanedConfigs, QueueController.respond,
      PersistenceService.loadQueueConfigs. msimpl.
    destruct (negb (isReady (persistence s))); [exact H0|].
    destruct (loadFails env); [exact H0|].
    match goal with
    | |- context [ for_each ?xs (QueueController.cleanupOne env) s ] =>
        pose proof (preserves_for_each (downLike s) xs (QueueController.cleanupOne env)
                      (fun x _ => downLike_cleanupOne s env x) s H0) as Hd;
        destruct (for_each xs (QueueController.cleanupOne env) s) as [[[]|t] s1]
    end; exact Hd.
  - unfold ConsumerService.restorePersistedQueues, PersistenceService.loadQueueConfigs.
    msimpl.
    destruct (negb (isReady (persistence s))); [exact H0|].
    destruct (loadFails env); [exact H0|].
    destruct (map_to_list (queues (persistence s))) as [|entry entries]; [exact H0|].
    destruct (downLike_restoreLoop s env (entry :: entries) s H0) as [Hr Hd].
    destruct (ConsumerService.restoreLoop env (entry :: entries) s) as [r s1].
    cbn [fst snd] in Hr, Hd. subst r. cbn [for_each]. unfold ret.
    unfold ConsumerService.emit. msimpl.
    destruct (listenerThrows env queuesRestored); exact Hd.
Qed.

Lemma sweeps_remove_nothing_while_channel_is_down_witness :
  downLike SampleOutage.sysOrdersDown
    (snd (ConsumerService.healthCheck Sample.env200 SampleOutage.sysOrdersDown)) /\
  downLike SampleOutage.sysOrdersDown
    (snd (QueueController.cleanupOrphanedConfigs Sample.env200 SampleOutage.sysOrdersDown)) /\
  downLike SampleOutage.sysOrdersDown
    (snd (ConsumerService.restorePersistedQueues Sample.env200 SampleOutage.sysOrdersDown)).
Proof.
  apply (sweeps_remove_nothing_while_channel_is_down Sample.env200 SampleOutage.sysOrdersDown).
  reflexivity.
Defined.

(** With the channel up and the queue gone from the broker, the same
    sweep deletes the stored configuration. *)
Example orphaned_configuration_swept :
  let r := QueueController.cleanupOrphanedConfigs
             (SampleBroker.envRaising SampleBroker.queueGone) Sample.sysOrders in
  fst r = Ok 200 /\ queues (persistence (snd r)) !! "orders" = None.
Proof. vm_compute. split; reflexivity. Qed.

Section ShutdownFrame.
Variables (p : Persistence) (rc : Reconnection).

Let I := shuttingDownWith p rc.

Lemma shuttingDownWith_rabbit f s : I s -> I (set_rabbit f s).
Proof. intros H. exact H. Qed.

Lemma shuttingDownWith_webhook f s : I s -> I (set_webhook f s).
Proof. intros H. exact H. Qed.

Lemma preserves_stopForShutdown env x : preserves I (ConsumerService.stopForShutdown env x).
Proof.
  unfold ConsumerService.stopForShutdown, ConsumerService.stopConsuming.
  cbn [String.eqb Ascii.eqb Bool.eqb].
  unfold ConsumerService.setActive, ConsumerService.setIntervals, ConsumerService.emit.
  preserves_with ltac:(first
    [ assumption
    | apply frame_cancelConsumer; exact shuttingDownWith_rabbit
    | apply frame_notifyQueueFinish; exact shuttingDownWith_webhook ]).
Qed.

End ShutdownFrame.

(** X30: [shutdown] is final.  Called on an engine that is not
    shutting down, whatever the stops of the consumers do and whether
    or not a listener throws: the flag is set, the reconnection
    controller is stopped with no timer left, the duplicate memory is
    emptied, the channel and the connection are dropped, and the store
    is not written, so the stored queues survive for the next start.
    A later [connect] does not make the channel ready again, and a
    second [shutdown] returns at once and changes nothing. *)
Theorem shutdown_is_final env (s : Sys) :
  isShuttingDown (consumer s) = false ->
  let s' := snd (ConsumerService.shutdown env s) in
  isShuttingDown (consumer s') = true /\
  persistence s' = persistence s /\
  processedMessages (dedup s') = [] /\
  processingMessages (dedup s') = ∅ /\
  rc_shuttingDown (reconnection s') = true /\
  reconnectTimeout (reconnection s') = None /\
  RabbitMQService.isChannelReady (rabbit s') = false /\
  RabbitMQService.isChannelReady (rabbit (snd (RabbitMQService.connect env s'))) = false /\
  ConsumerService.shutdown env s' = (Ok tt, s').
Proof.
  intros Hdown s'.
  assert (E : exists s2,
             isShuttingDown (consumer s2) = true /\ persistence s2 = persistence s /\
             rc_shuttingDown (reconnection s2) = true /\
             reconnectTimeout (reconnection s2) = None /\
             s' = set_consumer
                    (fun c => mkConsumer (activeConsumers c) (queueIntervals c)
                                (isShuttingDown c) (isInitialized c)
                                (List.app (cs_emitted c) [shutdownDone]))
                    (set_rabbit
                       (fun r => mkRabbitMQ None None true (brokerLog r) (emitted r))
                       (set_dedup DeduplicationService.clear s2))).
  { subst s'. unfold ConsumerService.shutdown, ConsumerService.setShuttingDown. msimpl.
    rewrite Hdown.
    match goal with
    | |- context [ for_each _ (ConsumerService.stopForShutdown env) ?st ] => set (s1 := st)
    end.
    match goal with
    | |- context [ for_each ?xs (ConsumerService.stopForShutdown env) s1 ] =>
        set (queuesToStop := xs)
    end.
    destruct (returns_for_each queuesToStop (ConsumerService.stopForShutdown env))
      with (s := s1) as [[] Hret].
    { intros x. unfold ConsumerService.stopForShutdown. apply returns_try_catch.
      intros t. apply returns_ret. }
    assert (HI : shuttingDownWith (persistence s1) (reconnection s1)
                   (snd (for_each queuesToStop (ConsumerService.stopForShutdown env) s1))).
    { apply preserves_for_each; [|repeat split].
      intros x _. apply preserves_stopForShutdown. }
    destruct (for_each queuesToStop (ConsumerService.stopForShutdown env) s1) as [r s2].
    cbn [fst snd] in Hret, HI. subst r. destruct HI as (Hflag & Hp & Hrc).
    exists s2. rewrite Hflag, Hp, Hrc. repeat split.
    unfold ConsumerService.emit. msimpl.
    destruct (listenerThrows env shutdownDone); reflexivity. }
  destruct E as (s2 & Hflag & Hp & Hrc1 & Hrc2 & ->).
  repeat split; try assumption.
  - unfold RabbitMQService.connect. destruct (connectFails env); reflexivity.
  - unfold ConsumerService.shutdown. msimpl. cbn [consumer set_consumer isShuttingDown].
    cbn. now rewrite Hflag.
Qed.

Lemma shutdown_is_final_witness :
  let s' := snd (ConsumerService.shutdown Sample.env200 Sample.sysOrders) in
  isShuttingDown (consumer s') = true /\
  persistence s' = persistence Sample.sysOrders /\
  processedMessages (dedup s') = [] /\
  processingMessages (dedup s') = ∅ /\
  rc_shuttingDown (reconnection s') = true /\
  reconnectTimeout (reconnection s') = None /\
  RabbitMQService.isChannelReady (rabbit s') = false /\
  RabbitMQService.isChannelReady
    (rabbit (snd (RabbitMQService.connect Sample.env200 s'))) = false /\
  ConsumerService.shutdown Sample.env200 s' = (Ok tt, s').
Proof.
  apply (shutdown_is_final Sample.env200 Sample.sysOrders). reflexivity.
Defined.
